(** * E-store backend: orders, products and categories

    A shallow embedding of the route handlers of the storefront backend
    that place, read and update orders and that read, create, update and
    delete products and categories, and of the tables they touch:

    - [placeOrder]         POST   /api/orders            (src/routes/orders.js)
    - [getOrder]           GET    /api/orders/:id        (src/routes/orders.js)
    - [updateOrderStatus]  PATCH  /api/orders/:id/status (src/routes/orders.js)
    - [getProduct]         GET    /api/products/:id      (src/routes/products.js)
    - [createProduct]      POST   /api/products          (src/routes/products.js)
    - [updateProduct]      PUT    /api/products/:id      (src/routes/products.js)
    - [deleteProduct]      DELETE /api/products/:id      (src/routes/products.js)
    - [deleteCategory]     DELETE /api/categories/:id    (src/routes/categories.js)

    JavaScript numbers are binary64 floats ([PrimFloat.float]); strings are
    carried as their UTF-8 bytes; the integer columns of the schema are [Z]
    and its [DECIMAL(12,2)] columns are [Z] too, in hundredths; a table is
    the list of its rows, a [WHERE] clause is a [filter], a join is a
    [flat_map].  A handler runs in a small monad that threads the connection
    (the committed store, the consistent read of the transaction, its
    buffered writes, the count of statements executed and of identifiers
    drawn) and that knows the three ways a handler body can go on: to the
    next statement, out through an early [return res...], or out through a
    thrown error into [catch].

    What a handler cannot decide is the environment of a call ([Env]):
    which statements throw, which calls that control the transaction throw,
    which identifiers are drawn, and in which order the store returns the
    rows of a SELECT that has no ORDER BY.

    Not modelled: timestamps, the users, cart and reviews tables, the HTTP
    and authentication layers in front of the handlers, and the acquisition
    of the connection ([pool.getConnection()]), which comes before the
    [try] block of the order handler: a handler is modelled from the
    connection it obtained. *)

From Stdlib Require Import ZArith List String Ascii Bool Lia.
From Stdlib Require Import Sorting.Permutation.
From Stdlib Require Import Floats.PrimFloat Floats.FloatOps Floats.SpecFloat.
From Stdlib Require Import Floats.FloatAxioms.
Import ListNotations.

Set Warnings "-inexact-float".
Set Implicit Arguments.

Local Open Scope string_scope.
Local Open Scope list_scope.

(* ================================================================== *)
(** ** JavaScript values *)

Module JS.

(** A JavaScript number. *)
Definition number := float.

(** The number an integer converts to (round to nearest, ties to even). *)
Definition of_Z (z : Z) : number :=
  SF2Prim (binary_normalize prec emax z 0 false).

(** [Math.abs]. *)
Definition Math_abs (x : number) : number := PrimFloat.abs x.

(** [x > y] on numbers; false as soon as one side is NaN. *)
Definition gt (x y : number) : bool := PrimFloat.ltb y x.

(** [x >= y] on numbers. *)
Definition ge (x y : number) : bool := PrimFloat.leb y x.

(** Truthiness of a string that may be [undefined] or [null]. *)
Definition truthy (s : option string) : bool :=
  match s with
  | None => false
  | Some s => negb (String.eqb s "")
  end.

(** [s || d] for such a string. *)
Definition or_default (s : option string) (d : string) : string :=
  match s with
  | Some v => if String.eqb v "" then d else v
  | None => d
  end.

(** [s || null]. *)
Definition or_null (s : option string) : option string :=
  if truthy s then s else None.

(** The white space of JavaScript (what [\s] matches), by the bytes of its
    UTF-8 encoding: the tab, the line feed, the vertical tab, the form feed,
    the carriage return and the space; *)
Definition space1 (a : nat) : bool :=
  ((9 <=? a) && (a <=? 13) || (a =? 32))%nat.

(** the no-break space U+00A0; *)
Definition space2 (a b : nat) : bool :=
  ((a =? 194) && (b =? 160))%nat.

(** U+1680, U+2000 to U+200A, U+2028, U+2029, U+202F, U+205F, U+3000 and
    the byte order mark U+FEFF. *)
Definition space3 (a b c : nat) : bool :=
  ((a =? 225) && (b =? 154) && (c =? 128)
   || (a =? 226) && (b =? 128)
      && ((128 <=? c) && (c <=? 138) || (c =? 168) || (c =? 169) || (c =? 175))
   || (a =? 226) && (b =? 129) && (c =? 159)
   || (a =? 227) && (b =? 128) && (c =? 128)
   || (a =? 239) && (b =? 187) && (c =? 191))%nat.

(** White space removed at the head of a string; [backwards] when the
    string is read from its end, so that the bytes of a character come in
    reverse. *)
Fixpoint ltrim (backwards : bool) (s : string) : string :=
  match s with
  | String a s1 =>
      if space1 (nat_of_ascii a) then ltrim backwards s1
      else
        match s1 with
        | String b s2 =>
            if (if backwards then space2 (nat_of_ascii b) (nat_of_ascii a)
                else space2 (nat_of_ascii a) (nat_of_ascii b))
            then ltrim backwards s2
            else
              match s2 with
              | String c s3 =>
                  if (if backwards
                      then space3 (nat_of_ascii c) (nat_of_ascii b)
                                  (nat_of_ascii a)
                      else space3 (nat_of_ascii a) (nat_of_ascii b)
                                  (nat_of_ascii c))
                  then ltrim backwards s3
                  else s
              | EmptyString => s
              end
        | EmptyString => s
        end
  | EmptyString => EmptyString
  end.

Fixpoint rev_string (acc s : string) : string :=
  match s with
  | String c s' => rev_string (String c acc) s'
  | EmptyString => acc
  end.

(** [trim]: white space removed at both ends. *)
Definition trim (s : string) : string :=
  rev_string "" (ltrim true (rev_string "" (ltrim false s))).

(** The number of characters of a string: the bytes that do not continue a
    character. *)
Fixpoint characters (s : string) : nat :=
  match s with
  | String a s' =>
      let n := nat_of_ascii a in
      ((if (128 <=? n) && (n <=? 191) then 0 else 1) + characters s')%nat
  | EmptyString => 0%nat
  end.

End JS.

Definition number := JS.number.

(* ================================================================== *)
(** ** The tables (the CREATE TABLE statements of the set-up script) *)

(** A [DECIMAL(12,2)] or [DECIMAL(3,2)] column: an exact number with two
    decimal places, carried as its count of hundredths. *)
Definition decimal := Z.

Bind Scope Z_scope with decimal.

(** The driver hands such a column to JavaScript as text, and the handlers
    go through [parseFloat]: the number nearest to the decimal.  The count
    of hundredths and 100 are both exact as numbers, and their quotient is
    rounded to nearest. *)
Definition parseFloat (d : decimal) : number := (JS.of_Z d / 100)%float.

(** The hundredths nearest to [m * 2^e], a half going up. *)
Definition nearest_hundredth (m : positive) (e : Z) : Z :=
  match e with
  | Zneg p => (2 * (Zpos m * 100) + 2 ^ Zpos p) / (2 * 2 ^ Zpos p)
  | _ => Zpos m * 100 * 2 ^ e
  end.

(** The number is the one that the decimal [k + 1/2] hundredths reads as,
    and then prints as that decimal. *)
Definition prints_as_half (x : number) (k : Z) : bool :=
  PrimFloat.eqb (JS.of_Z (2 * k + 1) / 200)%float (PrimFloat.abs x).

(** A number bound to a [DECIMAL(12,2)] column.  The store takes the
    number by the shortest decimal that reads back as it (the decimal that
    JavaScript prints) and rounds that decimal to two places, half away from
    zero.  That is the exact value of the number rounded to two places,
    except when the number prints as a decimal that ends in a half of a
    hundredth, which goes away from zero whichever side of it the exact
    value lies.  The handlers bind finite numbers only (the validation
    chains refuse the others).  A value beyond the digits of the column is
    not cut down here: the store refuses the statement that binds it. *)
Definition DECIMAL_12_2 (x : number) : decimal :=
  match Prim2SF x with
  | S754_finite s m e =>
      let k := nearest_hundredth m e in
      let k := if prints_as_half x k then (k + 1)%Z else k in
      if s then (- k)%Z else k
  | _ => 0%Z
  end.

(** The value fits the twelve digits of the column. *)
Definition fits_DECIMAL_12_2 (x : number) : bool :=
  (Z.abs (DECIMAL_12_2 x) <=? 999999999999)%Z.

(** The value fits a signed [INT] column. *)
Definition fits_INT (z : Z) : bool :=
  ((-2147483648 <=? z) && (z <=? 2147483647))%Z.

Inductive order_status :=
  | pending | processing | shipped | delivered | cancelled.

Record product := mkProduct {
  p_id : string;
  p_name : string;
  p_description : string;
  p_price : decimal;
  p_image : option string;
  p_category_id : option string;
  p_stock : Z;
  p_rating : decimal;
  p_reviews_count : Z
}.

Record category := mkCategory {
  c_id : string;
  c_name : string
}.

Record address := mkAddress {
  a_id : string;
  a_user_id : string;
  a_street : string;
  a_city : string;
  a_district : string;
  a_country : string
}.

Record order := mkOrder {
  o_id : string;
  o_user_id : string;
  o_total : decimal;
  o_vat_amount : decimal;
  o_status : order_status;
  o_payment_method : string;
  o_shipping_address_id : option string;
  o_notes : option string
}.

Record order_item := mkOrderItem {
  oi_id : string;
  oi_order_id : string;
  oi_product_id : string;
  oi_quantity : Z;
  oi_price : decimal
}.

Record Store := mkStore {
  products : list product;
  categories : list category;
  addresses : list address;
  orders : list order;
  order_items : list order_item
}.

(** [id] is the primary key of [products]. *)
Definition products_keyed (s : Store) : Prop :=
  NoDup (map p_id (products s)).

(** The invariant of the data model: no product has negative stock. *)
Definition stock_nonneg (s : Store) : bool :=
  forallb (fun p => (0 <=? p_stock p)%Z) (products s).

(* ================================================================== *)
(** ** Statements that write *)

(** The fields a product update may set (the dynamically built
    [UPDATE products SET ... WHERE id = ?]), with the values bound to
    them; [None] leaves a column as it is. *)
Record product_patch := mkPatch {
  set_name : option string;
  set_description : option string;
  set_price : option number;
  set_image : option string;
  set_category_id : option string;
  set_stock : option Z
}.

Inductive statement :=
  | InsertAddress (a : address)
  | InsertOrder (o : order)
  | InsertOrderItem (i : order_item)
  | DecrementStock (quantity : Z) (id : string).

Definition with_stock (p : product) (n : Z) : product :=
  mkProduct (p_id p) (p_name p) (p_description p) (p_price p) (p_image p)
            (p_category_id p) n (p_rating p) (p_reviews_count p).

Definition override {A} (new : option A) (old : A) : A :=
  match new with Some v => v | None => old end.

Definition override_opt {A} (new : option A) (old : option A) : option A :=
  match new with Some v => Some v | None => old end.

Definition apply_patch (u : product_patch) (p : product) : product :=
  mkProduct (p_id p)
            (override (set_name u) (p_name p))
            (override (set_description u) (p_description p))
            (override (option_map DECIMAL_12_2 (set_price u)) (p_price p))
            (override_opt (set_image u) (p_image p))
            (override_opt (set_category_id u) (p_category_id p))
            (override (set_stock u) (p_stock p))
            (p_rating p) (p_reviews_count p).

(** [UPDATE products SET ... WHERE id = ?]: every row whose id matches. *)
Definition update_where_id (id : string) (f : product -> product)
    (ps : list product) : list product :=
  map (fun p => if String.eqb (p_id p) id then f p else p) ps.

Definition with_products (s : Store) (ps : list product) : Store :=
  mkStore ps (categories s) (addresses s) (orders s) (order_items s).

Definition run_statement (s : Store) (st : statement) : Store :=
  match st with
  | InsertAddress a =>
      mkStore (products s) (categories s) (addresses s ++ [a]) (orders s)
              (order_items s)
  | InsertOrder o =>
      mkStore (products s) (categories s) (addresses s) (orders s ++ [o])
              (order_items s)
  | InsertOrderItem i =>
      mkStore (products s) (categories s) (addresses s) (orders s)
              (order_items s ++ [i])
  | DecrementStock q id =>
      with_products s
        (update_where_id id (fun p => with_stock p (p_stock p - q)) (products s))
  end.

Definition run_statements (sts : list statement) (s : Store) : Store :=
  fold_left run_statement sts s.

(* ================================================================== *)
(** ** Requests and responses *)

Record item := mkItem {
  productId : string;
  quantity : Z
}.

(** The [shippingAddress] of a request.  A [street], [city] or [district]
    that is missing makes the INSERT throw, which is one of the ways a
    statement throws (see [Env]). *)
Record shipping_address := mkShipping {
  street : string;
  city : string;
  district : string;
  country : option string
}.

(** The body of POST /api/orders. *)
Record order_request := mkRequest {
  items : list item;
  total : number;
  vatAmount : number;
  paymentMethod : string;
  shippingAddress : option shipping_address;
  notes : option string
}.

(** [req.user], as the authentication middleware leaves it. *)
Record user := mkUser {
  u_id : string;
  is_admin : bool
}.

(** One entry of [errors.array()]: the field whose chain failed. *)
Inductive validation_error :=
  | bad_items
  | bad_productId (index : nat)
  | bad_quantity (index : nat)
  | bad_total
  | bad_vatAmount
  | bad_paymentMethod
  | bad_name
  | bad_description
  | bad_price
  | bad_categoryId
  | bad_stock.

Record address_view := mkAddressView {
  v_street : string;
  v_city : string;
  v_district : string;
  v_country : string
}.

Record item_view := mkItemView {
  iv_id : string;
  iv_productId : string;
  iv_name : string;
  iv_image : option string;
  iv_quantity : Z;
  iv_price : number
}.

Record order_view := mkOrderView {
  ov_id : string;
  ov_total : number;
  ov_vatAmount : number;
  ov_status : order_status;
  ov_paymentMethod : string;
  ov_notes : option string;
  ov_shippingAddress : option address_view;
  ov_items : list item_view
}.

Record product_view := mkProductView {
  pv_id : string;
  pv_name : string;
  pv_description : string;
  pv_price : number;
  pv_image : option string;
  pv_category : option string;
  pv_stock : Z;
  pv_rating : number;
  pv_reviews : Z
}.

Inductive payload :=
  | Errors (errors : list validation_error)
  | Error (error : string)
  | OrderCreated (o : order_view)
  | OrderFound (o : order_view)
  | ProductUpdated (p : product_view).

(** What the client gets: [res.status(code).json(body)], or nothing when
    the handler ends without an answer. *)
Inductive Response :=
  | Json (status : nat) (body : payload)
  | Unanswered.

Definition status (r : Response) : nat :=
  match r with
  | Json status _ => status
  | Unanswered => 0
  end.

(** The rejections of the order placement engine, as the handler answers
    them. *)
Definition ValidationFailed (errors : list validation_error) : Response :=
  Json 400 (Errors errors).
Definition ProductNotFound : Response :=
  Json 400 (Error "Some products not found").
Definition InsufficientStock (name : string) : Response :=
  Json 400 (Error ("Insufficient stock for " ++ name)).
Definition TotalMismatch : Response :=
  Json 400 (Error "Invalid total calculation").
Definition PersistenceFailure : Response :=
  Json 500 (Error "Internal server error").
Definition OrderNotFound : Response :=
  Json 404 (Error "Order not found").

Inductive rejection :=
  | RValidationFailed
  | RProductNotFound
  | RInsufficientStock
  | RTotalMismatch
  | RPersistenceFailure.

Definition is_prefix (p s : string) : bool :=
  String.eqb (substring 0 (String.length p) s) p.

(** The kind of rejection a response of POST /api/orders stands for;
    [None] for the 201 answer. *)
Definition rejection_kind (r : Response) : option rejection :=
  match r with
  | Json 201 _ => None
  | Json 400 (Errors _) => Some RValidationFailed
  | Json 400 (Error msg) =>
      if String.eqb msg "Some products not found" then Some RProductNotFound
      else if String.eqb msg "Invalid total calculation" then Some RTotalMismatch
      else if is_prefix "Insufficient stock for " msg then Some RInsufficientStock
      else None
  | Json 500 _ => Some RPersistenceFailure
  | _ => None
  end.

(* ================================================================== *)
(** ** The validation chains *)

Module Validator.

Definition is_hex (c : ascii) : bool :=
  let n := nat_of_ascii c in
  ((48 <=? n) && (n <=? 57) || (65 <=? n) && (n <=? 70)
   || (97 <=? n) && (n <=? 102))%nat.

(** Exactly [n] hexadecimal digits at the head of [s]; what follows them. *)
Fixpoint hex_run (n : nat) (s : string) : option string :=
  match n with
  | O => Some s
  | S n' =>
      match s with
      | String c s' => if is_hex c then hex_run n' s' else None
      | EmptyString => None
      end
  end.

Fixpoint hex_groups (groups : list nat) (s : string) : bool :=
  match groups with
  | [] => false
  | [n] =>
      match hex_run n s with
      | Some EmptyString => true
      | _ => false
      end
  | n :: rest =>
      match hex_run n s with
      | Some (String "-" s') => hex_groups rest s'
      | _ => false
      end
  end.

(** [isUUID()]: 8-4-4-4-12 hexadecimal digits, in either case. *)
Definition isUUID (s : string) : bool := hex_groups [8; 4; 4; 4; 12]%nat s.

(** [isInt({ min })] on an integral number; a number from 1e21 on prints
    with an exponent and is refused. *)
Definition isInt (min : Z) (z : Z) : bool :=
  ((min <=? z) && (z <? 10 ^ 21))%Z.

(** [isFloat({ min: 0 })]: a finite number that is at least 0. *)
Definition isFloat_min0 (x : number) : bool :=
  PrimFloat.is_finite x && JS.ge x 0%float.

Definition isIn (s : string) (allowed : list string) : bool :=
  existsb (String.eqb s) allowed.

(** [isArray({ min: 1 })]. *)
Definition isArray_min1 {A} (l : list A) : bool :=
  (1 <=? List.length l)%nat.

(** [isLength({ min: 1 })], after [trim()]. *)
Definition isLength_min1 (s : string) : bool :=
  (1 <=? String.length s)%nat.

(** The errors of a wild-card chain [items.*.field], in index order. *)
Fixpoint each {A} (ok : A -> bool) (err : nat -> validation_error)
    (index : nat) (l : list A) : list validation_error :=
  match l with
  | [] => []
  | x :: rest =>
      (if ok x then [] else [err index]) ++ each ok err (S index) rest
  end.

Definition check (ok : bool) (err : validation_error)
  : list validation_error :=
  if ok then [] else [err].

(** A chain under [optional()] is skipped when the field is absent. *)
Definition optional {A} (ok : A -> bool) (v : option A)
    (err : validation_error) : list validation_error :=
  match v with
  | Some x => check (ok x) err
  | None => []
  end.

End Validator.

(** [validationResult(req)] for POST /api/orders.  A [shippingAddress] that
    is present is an object by its type, and the [notes] chain only
    sanitizes. *)
Definition validationResult (req : order_request) : list validation_error :=
  Validator.check (Validator.isArray_min1 (items req)) bad_items
  ++ Validator.each (fun i => Validator.isUUID (productId i)) bad_productId
       0 (items req)
  ++ Validator.each (fun i => Validator.isInt 1 (quantity i)) bad_quantity
       0 (items req)
  ++ Validator.check (Validator.isFloat_min0 (total req)) bad_total
  ++ Validator.check (Validator.isFloat_min0 (vatAmount req)) bad_vatAmount
  ++ Validator.check
       (Validator.isIn (paymentMethod req) ["mobile_money"; "card"; "cash"])
       bad_paymentMethod.

Definition isEmpty {A} (l : list A) : bool :=
  match l with [] => true | _ => false end.

(** The request body after the sanitizers have run: [notes] trimmed. *)
Definition sanitized (req : order_request) : order_request :=
  mkRequest (items req) (total req) (vatAmount req) (paymentMethod req)
            (shippingAddress req) (option_map JS.trim (notes req)).

(* ================================================================== *)
(** ** The connection monad *)

(** The calls that control the transaction: [beginTransaction()], the
    [rollback()] before an early return, [commit()], and the [rollback()]
    of the [catch] block. *)
Inductive control := BEGIN | ROLLBACK | COMMIT | ROLLBACK_IN_CATCH.

(** What the handler cannot decide: whether the n-th statement it executes
    throws (a lost connection, a violated constraint), whether a call that
    controls the transaction throws, the n-th identifier that [uuidv4()]
    draws, and the place that the store gives a row, by its id, among the
    rows of a SELECT without ORDER BY (the rows come by rising place, and
    rows of the same place in the order of the table). *)
Record Env := mkEnv {
  throws : nat -> bool;
  uuidv4 : nat -> string;
  rejects : control -> bool;
  place : string -> nat
}.

(** [live] is the committed store, read by [pool.execute] and written at
    commit; [snapshot] is the consistent read that the SELECTs of the
    transaction see; [buffered] are the writes of the open transaction.  In a
    serial run the snapshot is the live store. *)
Record Conn := mkConn {
  live : Store;
  snapshot : Store;
  buffered : list statement;
  executed : nat;
  drawn : nat
}.

Inductive Outcome (A : Type) :=
  | Next (a : A) (c : Conn)
  | Return (r : Response) (c : Conn)
  | Throw (c : Conn).

Arguments Next {A} a c.
Arguments Return {A} r c.
Arguments Throw {A} c.

Definition M (A : Type) := Env -> Conn -> Outcome A.

Definition ret {A} (a : A) : M A := fun _ c => Next a c.

Definition bind {A B} (m : M A) (k : A -> M B) : M B :=
  fun e c =>
    match m e c with
    | Next a c' => k a e c'
    | Return r c' => Return r c'
    | Throw c' => Throw c'
    end.

Notation "x <- m ;; k" := (bind m (fun x => k))
  (at level 61, m at next level, right associativity).
Notation "m ;; k" := (bind m (fun _ => k))
  (at level 61, right associativity).

(** [return res.status(...).json(...)]. *)
Definition respond {A} (r : Response) : M A := fun _ c => Return r c.

Definition throw {A} : M A := fun _ c => Throw c.

(** Every statement sent to the store counts, and may throw. *)
Definition send : M unit :=
  fun e c =>
    if throws e (executed c) then Throw c
    else Next tt (mkConn (live c) (snapshot c) (buffered c)
                         (S (executed c)) (drawn c)).

(** What a SELECT on the connection sees: the snapshot and the
    transaction's own writes. *)
Definition seen (c : Conn) : Store :=
  run_statements (buffered c) (snapshot c).

(** [connection.execute] of a SELECT. *)
Definition query {A} (select : Store -> A) : M A :=
  send ;; (fun _ c => Next (select (seen c)) c).

(** [connection.execute] of an INSERT or UPDATE inside the transaction. *)
Definition execute (st : statement) : M unit :=
  send ;; (fun _ c =>
    Next tt (mkConn (live c) (snapshot c) (buffered c ++ [st])
                    (executed c) (drawn c))).

(** [pool.execute] of a SELECT: it reads the committed store. *)
Definition pool_query {A} (select : Store -> A) : M A :=
  send ;; (fun _ c => Next (select (live c)) c).

(** [pool.execute] of a write outside a transaction.  The store refuses the
    statement, which then throws, when it violates a constraint of the
    schema; otherwise it reports the rows affected, which for an UPDATE are
    the rows that the WHERE clause matches. *)
Definition pool_write (w : Store -> option (nat * Store)) : M nat :=
  send ;;
  (fun _ c =>
     match w (live c) with
     | Some (affectedRows, s) =>
         Next affectedRows
              (mkConn s (snapshot c) (buffered c) (executed c) (drawn c))
     | None => Throw c
     end).

(** A row comes before the rows of a greater place. *)
Fixpoint put {A} (rank : A -> nat) (x : A) (l : list A) : list A :=
  match l with
  | [] => [x]
  | y :: rest =>
      if (rank x <=? rank y)%nat then x :: l else y :: put rank x rest
  end.

Definition by_place {A} (rank : A -> nat) (l : list A) : list A :=
  fold_right (put rank) [] l.

(** [pool.execute] of a SELECT without ORDER BY, whose rows have the id
    [id]: the rows come in the order of the store. *)
Definition pool_query_rows {A} (id : A -> string) (select : Store -> list A)
  : M (list A) :=
  send ;;
  (fun e c => Next (by_place (fun row => place e (id row)) (select (live c))) c).

(** [connection.beginTransaction()]. *)
Definition beginTransaction : M unit :=
  fun e c =>
    if rejects e BEGIN then Throw c
    else Next tt (mkConn (live c) (snapshot c) [] (executed c) (drawn c)).

Definition rollback_conn (c : Conn) : Conn :=
  mkConn (live c) (snapshot c) [] (executed c) (drawn c).

(** [connection.rollback()], before an early return. *)
Definition rollback : M unit :=
  fun e c => if rejects e ROLLBACK then Throw c else Next tt (rollback_conn c).

(** [connection.commit()]: the buffered writes reach the committed store,
    in order; a commit that throws leaves the committed store alone. *)
Definition commit : M unit :=
  fun e c =>
    if rejects e COMMIT then Throw c
    else
      let s := run_statements (buffered c) (live c) in
      Next tt (mkConn s s [] (executed c) (drawn c)).

Definition uuid : M string :=
  fun e c =>
    Next (uuidv4 e (drawn c))
         (mkConn (live c) (snapshot c) (buffered c) (executed c) (S (drawn c))).

(** A computation that leaves the committed store alone, however it ends. *)
Definition keeps_live {A} (m : M A) : Prop :=
  forall e c,
    match m e c with
    | Next _ c' => live c' = live c
    | Return _ c' => live c' = live c
    | Throw c' => live c' = live c
    end.

Create HintDb live.

(** A connection just opened. *)
Definition start (snap committed : Store) : Conn :=
  mkConn committed snap [] 0 0.

(** A handler on the pool, whose body sits in [try { ... } catch { 500 }]:
    the answer, and the committed store it leaves. *)
Definition handle (h : M Response) (e : Env) (snap committed : Store)
  : Response * Store :=
  match h e (start snap committed) with
  | Next r c => (r, live c)
  | Return r c => (r, live c)
  | Throw c => (PersistenceFailure, live c)
  end.

(** The [catch] block of the order handler: [await connection.rollback()]
    and then the answer 500.  When that rollback throws, the handler ends
    there, without an answer. *)
Definition caught (e : Env) : Response :=
  if rejects e ROLLBACK_IN_CATCH then Unanswered else PersistenceFailure.

(** The order handler, whose body sits in [try { ... } catch { rollback;
    500 } finally { release }].  The buffered writes of a connection that
    is released without a commit never reach the committed store. *)
Definition handle_transaction (h : M Response) (e : Env)
    (snap committed : Store) : Response * Store :=
  match h e (start snap committed) with
  | Next r c => (r, live c)
  | Return r c => (r, live c)
  | Throw c => (caught e, live c)
  end.

(* ================================================================== *)
(** ** The SELECT statements *)

(** A row of [SELECT id, name, price, stock FROM products]. *)
Record product_row := mkRow {
  r_id : string;
  r_name : string;
  r_price : decimal;
  r_stock : Z
}.

(** [SELECT id, name, price, stock FROM products WHERE id IN (?, ..., ?)].
    Identifiers compare as the exact strings they are. *)
Definition select_products_in (ids : list string) (s : Store)
  : list product_row :=
  map (fun p => mkRow (p_id p) (p_name p) (p_price p) (p_stock p))
      (filter (fun p => existsb (String.eqb (p_id p)) ids) (products s)).

(** [new Map(products.map(p => [p.id, p]))]: a later entry of the same key
    replaces an earlier one. *)
Definition new_Map (rows : list product_row) : string -> option product_row :=
  fold_left
    (fun m p => fun k => if String.eqb k (r_id p) then Some p else m k)
    rows (fun _ => None).

(** [SELECT o.*, a.street, a.city, a.district, a.country FROM orders o
    LEFT JOIN addresses a ON o.shipping_address_id = a.id WHERE ...]. *)
Definition joins (o : order) (a : address) : bool :=
  match o_shipping_address_id o with
  | Some id => String.eqb id (a_id a)
  | None => false
  end.

Definition select_orders (where_ : order -> bool) (s : Store)
  : list (order * option address) :=
  flat_map
    (fun o =>
       match filter (joins o) (addresses s) with
       | [] => [(o, None)]
       | matched => map (fun a => (o, Some a)) matched
       end)
    (filter where_ (orders s)).

(** [SELECT oi.*, p.name, p.image FROM order_items oi JOIN products p
    ON oi.product_id = p.id WHERE oi.order_id = ?]: the rows, which
    [pool_query_rows] puts in the order of the store. *)
Definition select_order_items (orderId : string) (s : Store)
  : list (order_item * product) :=
  flat_map
    (fun oi =>
       map (fun p => (oi, p))
           (filter (fun p => String.eqb (oi_product_id oi) (p_id p))
                   (products s)))
    (filter (fun oi => String.eqb (oi_order_id oi) orderId) (order_items s)).

(** [SELECT p.*, c.name as category_name FROM products p LEFT JOIN
    categories c ON p.category_id = c.id WHERE p.id = ?]. *)
Definition in_category (p : product) (c : category) : bool :=
  match p_category_id p with
  | Some id => String.eqb id (c_id c)
  | None => false
  end.

Definition select_product (id : string) (s : Store)
  : list (product * option string) :=
  flat_map
    (fun p =>
       match filter (in_category p) (categories s) with
       | [] => [(p, None)]
       | matched => map (fun c => (p, Some (c_name c))) matched
       end)
    (filter (fun p => String.eqb (p_id p) id) (products s)).

(* ================================================================== *)
(** ** The JSON answers *)

(** [order.street ? { street, city, district, country } : null]. *)
Definition shippingAddress_json (a : option address) : option address_view :=
  match a with
  | Some a =>
      if JS.truthy (Some (a_street a))
      then Some (mkAddressView (a_street a) (a_city a) (a_district a)
                               (a_country a))
      else None
  | None => None
  end.

Definition item_json (row : order_item * product) : item_view :=
  let (i, p) := row in
  mkItemView (oi_id i) (oi_product_id i) (p_name p) (p_image p)
             (oi_quantity i) (parseFloat (oi_price i)).

Definition order_json (row : order * option address)
    (rows : list (order_item * product)) : order_view :=
  let (o, a) := row in
  mkOrderView (o_id o) (parseFloat (o_total o)) (parseFloat (o_vat_amount o))
              (o_status o) (o_payment_method o) (o_notes o)
              (shippingAddress_json a) (map item_json rows).

Definition product_json (row : product * option string) : product_view :=
  let (p, category_name) := row in
  mkProductView (p_id p) (p_name p) (p_description p)
                (parseFloat (p_price p)) (p_image p) category_name
                (p_stock p) (parseFloat (p_rating p)) (p_reviews_count p).

(* ================================================================== *)
(** ** POST /api/orders *)

Definition VAT_RATE : number := 0.18%float.
Definition TOLERANCE : number := 0.01%float.

Definition expectedVat (calculatedTotal : number) : number :=
  (calculatedTotal * VAT_RATE)%float.

Definition expectedTotal (calculatedTotal : number) : number :=
  (calculatedTotal + expectedVat calculatedTotal)%float.

(** [Math.abs(expectedTotal - total) > 0.01 ||
     Math.abs(expectedVat - vatAmount) > 0.01]. *)
Definition total_mismatch (calculatedTotal claimedTotal claimedVat : number)
  : bool :=
  JS.gt (JS.Math_abs (expectedTotal calculatedTotal - claimedTotal)%float)
        TOLERANCE
  || JS.gt (JS.Math_abs (expectedVat calculatedTotal - claimedVat)%float)
           TOLERANCE.

(** The loop "Check stock and calculate total".  A product missing from the
    map is [undefined], and reading its [stock] throws. *)
Fixpoint check_stock (productMap : string -> option product_row)
    (its : list item) (calculatedTotal : number) : M number :=
  match its with
  | [] => ret calculatedTotal
  | it :: rest =>
      match productMap (productId it) with
      | None => throw
      | Some product =>
          if (r_stock product <? quantity it)%Z
          then rollback ;; respond (InsufficientStock (r_name product))
          else check_stock productMap rest
                 (calculatedTotal
                  + parseFloat (r_price product) * JS.of_Z (quantity it))%float
      end
  end.

(** The loop "Create order items and update stock".  The identifier of the
    line is drawn before the price of the product is read; the price bound
    is the text of the column as the lookup returned it, which the column
    of the line takes as it is. *)
Fixpoint create_items (productMap : string -> option product_row)
    (orderId : string) (its : list item) : M unit :=
  match its with
  | [] => ret tt
  | it :: rest =>
      let product := productMap (productId it) in
      id <- uuid ;;
      match product with
      | None => throw
      | Some product =>
          execute (InsertOrderItem
                     (mkOrderItem id orderId (productId it) (quantity it)
                                  (r_price product))) ;;
          execute (DecrementStock (quantity it) (productId it)) ;;
          create_items productMap orderId rest
      end
  end.

(** "Create shipping address if provided". *)
Definition create_address (user_id : string) (a : option shipping_address)
  : M (option string) :=
  match a with
  | Some a =>
      shippingAddressId <- uuid ;;
      execute (InsertAddress
                 (mkAddress shippingAddressId user_id (street a) (city a)
                            (district a)
                            (JS.or_default (country a) "Uganda"))) ;;
      ret (Some shippingAddressId)
  | None => ret None
  end.

(** From the validation to the last write of the transaction: the order
    id when every check passed.  The INSERT of the order binds the [total]
    and [vatAmount] of the request, which the [DECIMAL(12,2)] columns take
    to two places; [status] is not bound and takes the column default. *)
Definition transaction (u : user) (body : order_request) : M string :=
  let errors := validationResult body in
  if negb (isEmpty errors)
  then rollback ;; respond (ValidationFailed errors)
  else
    let req := sanitized body in
    let productIds := map productId (items req) in
    products <- query (select_products_in productIds) ;;
    if negb (List.length products =? List.length (items req))%nat
    then rollback ;; respond ProductNotFound
    else
      let productMap := new_Map products in
      calculatedTotal <- check_stock productMap (items req) 0%float ;;
      if total_mismatch calculatedTotal (total req) (vatAmount req)
      then rollback ;; respond TotalMismatch
      else
        shippingAddressId <- create_address (u_id u) (shippingAddress req) ;;
        orderId <- uuid ;;
        execute (InsertOrder
                   (mkOrder orderId (u_id u) (DECIMAL_12_2 (total req))
                            (DECIMAL_12_2 (vatAmount req))
                            pending (paymentMethod req) shippingAddressId
                            (JS.or_null (notes req)))) ;;
        create_items productMap orderId (items req) ;;
        ret orderId.

(** "Get the created order with items", on the pool. *)
Definition read_back (orderId : string) : M Response :=
  newOrder <- pool_query
                (select_orders (fun o => String.eqb (o_id o) orderId)) ;;
  orderItems <- pool_query_rows (fun row => oi_id (fst row))
                  (select_order_items orderId) ;;
  match newOrder with
  | [] => throw
  | order :: _ => ret (Json 201 (OrderCreated (order_json order orderItems)))
  end.

(** The body of the [try] block. *)
Definition placeOrder_try (u : user) (body : order_request) : M Response :=
  beginTransaction ;;
  orderId <- transaction u body ;;
  commit ;;
  read_back orderId.

(** The handler on a connection whose consistent read is [snap] while the
    committed store is [committed]. *)
Definition placeOrderAt (e : Env) (u : user) (body : order_request)
    (snap committed : Store) : Response * Store :=
  handle_transaction (placeOrder_try u body) e snap committed.

(** The handler run alone: its reads see the committed store. *)
Definition placeOrder (e : Env) (u : user) (body : order_request)
    (s : Store) : Response * Store :=
  placeOrderAt e u body s s.

(* ================================================================== *)
(** ** GET /api/orders/:id *)

(** [WHERE o.id = ? AND (o.user_id = ? OR ? = 1)]. *)
Definition visible_to (u : user) (id : string) (o : order) : bool :=
  String.eqb (o_id o) id && (String.eqb (o_user_id o) (u_id u) || is_admin u).

Definition getOrder_try (u : user) (id : string) : M Response :=
  found <- pool_query (select_orders (visible_to u id)) ;;
  match found with
  | [] => respond OrderNotFound
  | order :: _ =>
      rows <- pool_query_rows (fun row => oi_id (fst row))
                (select_order_items (o_id (fst order))) ;;
      ret (Json 200 (OrderFound (order_json order rows)))
  end.

Definition getOrder (e : Env) (u : user) (id : string) (s : Store)
  : Response * Store :=
  handle (getOrder_try u id) e s s.

(* ================================================================== *)
(** ** PUT /api/products/:id *)

(** The body of the request; [None] is a field that is [undefined]. *)
Record product_update := mkUpdate {
  name : option string;
  description : option string;
  price : option number;
  image : option string;
  categoryId : option string;
  stock : option Z
}.

(** The [trim()] of the [name] and [description] chains. *)
Definition sanitized_update (req : product_update) : product_update :=
  mkUpdate (option_map JS.trim (name req))
           (option_map JS.trim (description req))
           (price req) (image req) (categoryId req) (stock req).

Definition validationResult_update (req : product_update)
  : list validation_error :=
  Validator.optional Validator.isLength_min1 (name req) bad_name
  ++ Validator.optional Validator.isLength_min1 (description req)
       bad_description
  ++ Validator.optional Validator.isFloat_min0 (price req) bad_price
  ++ Validator.optional Validator.isUUID (categoryId req) bad_categoryId
  ++ Validator.optional (Validator.isInt 0) (stock req) bad_stock.

Definition defined {A} (v : option A) : nat :=
  match v with Some _ => 1 | None => 0 end.

(** [updateFields.length], before [updated_at] is pushed. *)
Definition updateFields_length (req : product_update) : nat :=
  defined (name req) + defined (description req) + defined (price req)
  + defined (image req) + defined (categoryId req) + defined (stock req).

(** [FOREIGN KEY (category_id) REFERENCES categories(id)]; NULL refers to
    nothing. *)
Definition category_exists (s : Store) (category_id : option string) : bool :=
  match category_id with
  | Some id => existsb (fun c => String.eqb (c_id c) id) (categories s)
  | None => true
  end.

Definition fits {A} (ok : A -> bool) (v : option A) : bool :=
  match v with Some x => ok x | None => true end.

(** The values bound to the columns of [products] fit them: [name] is a
    [VARCHAR(255)], [description] a [TEXT], [price] a [DECIMAL(12,2)],
    [image] a [VARCHAR(500)] and [stock] an [INT].  The store, in its
    strict mode, refuses a statement that binds a value that does not
    fit. *)
Definition fits_columns (u : product_patch) : bool :=
  fits (fun v => (Z.of_nat (JS.characters v) <=? 255)%Z) (set_name u)
  && fits (fun v => (Z.of_nat (String.length v) <=? 65535)%Z)
          (set_description u)
  && fits fits_DECIMAL_12_2 (set_price u)
  && fits (fun v => (Z.of_nat (JS.characters v) <=? 500)%Z) (set_image u)
  && fits fits_INT (set_stock u).

(** [UPDATE products SET ... WHERE id = ?]: refused when it has a row to
    update and a value does not fit its column or the category is missing;
    the rows affected are the rows of that id. *)
Definition update_product (u : product_patch) (id : string) (s : Store)
  : option (nat * Store) :=
  let matched := filter (fun p => String.eqb (p_id p) id) (products s) in
  if negb (isEmpty matched)
     && negb (fits_columns u && category_exists s (set_category_id u))
  then None
  else Some (List.length matched,
             with_products s (update_where_id id (apply_patch u) (products s))).

Definition updateProduct_try (productId : string) (body : product_update)
  : M Response :=
  let req := sanitized_update body in
  let errors := validationResult_update req in
  if negb (isEmpty errors)
  then respond (ValidationFailed errors)
  else
    existingProducts <-
      pool_query (fun s =>
        filter (fun p => String.eqb (p_id p) productId) (products s)) ;;
    if (List.length existingProducts =? 0)%nat
    then respond (Json 404 (Error "Product not found"))
    else if (updateFields_length req =? 0)%nat
    then respond (Json 400 (Error "No fields to update"))
    else
      pool_write
        (update_product
           (mkPatch (name req) (description req) (price req) (image req)
                    (categoryId req) (stock req))
           productId) ;;
      updated <- pool_query (select_product productId) ;;
      match updated with
      | [] => throw
      | product :: _ => ret (Json 200 (ProductUpdated (product_json product)))
      end.

Definition updateProduct (e : Env) (productId : string)
    (body : product_update) (s : Store) : Response * Store :=
  handle (updateProduct_try productId body) e s s.

(* ================================================================== *)
(** ** Notions for the statements of the theorems *)

(** The product of the catalog with a given id. *)
Definition catalog (s : Store) (id : string) : option product :=
  find (fun p => String.eqb (p_id p) id) (products s).

Definition row_of (p : product) : product_row :=
  mkRow (p_id p) (p_name p) (p_price p) (p_stock p).

(** The lines of an order with their products, as the store returns them
    under an environment. *)
Definition order_lines (e : Env) (orderId : string) (s : Store)
  : list (order_item * product) :=
  by_place (fun row => place e (oi_id (fst row)))
           (select_order_items orderId s).

(** The unit price the catalog has for an id, as the column holds it. *)
Definition unit_price (s : Store) (id : string) : decimal :=
  match catalog s id with
  | Some p => p_price p
  | None => 0
  end.

(** The unit price the catalog has for an id, as the handler reads it. *)
Definition catalog_price (s : Store) (id : string) : number :=
  match catalog s id with
  | Some p => parseFloat (p_price p)
  | None => 0%float
  end.

(** The sum of unit price times quantity over the lines, added up from
    [acc] in the order of the request. *)
Definition subtotal (price_of : string -> number) (its : list item)
    (acc : number) : number :=
  fold_left
    (fun a it => (a + price_of (productId it) * JS.of_Z (quantity it))%float)
    its acc.

Definition authoritativeSubtotal (s : Store) (its : list item) : number :=
  subtotal (catalog_price s) its 0%float.

Definition authoritativeVat (s : Store) (its : list item) : number :=
  expectedVat (authoritativeSubtotal s its).

Definition authoritativeTotal (s : Store) (its : list item) : number :=
  expectedTotal (authoritativeSubtotal s its).

(** The line asks no more than the catalog has in stock. *)
Definition in_stock (s : Store) (it : item) : bool :=
  match catalog s (productId it) with
  | Some p => negb (p_stock p <? quantity it)%Z
  | None => false
  end.

(** No string occurs twice. *)
Fixpoint distinct (l : list string) : bool :=
  match l with
  | [] => true
  | x :: rest => negb (existsb (String.eqb x) rest) && distinct rest
  end.

(** [id] is the primary key of [products] and of [orders], as a test. *)
Definition keyed (s : Store) : bool := distinct (map p_id (products s)).

Definition orders_keyed (s : Store) : bool := distinct (map o_id (orders s)).

Definition requested (req : order_request) : list string :=
  map productId (items req).

(** Every requested id is the id of a product of the catalog. *)
Definition all_in_catalog (s : Store) (req : order_request) : bool :=
  forallb (fun id => existsb (String.eqb id) (map p_id (products s)))
          (requested req).

(** The test of the handler after the batch lookup: as many rows as the
    request has entries. *)
Definition resolved (s : Store) (req : order_request) : bool :=
  (List.length (select_products_in (requested req) s)
   =? List.length (items req))%nat.

(** The request passes validation, product resolution, the stock checks
    and the comparison of the totals, against the store read. *)
Definition accepted (snap : Store) (req : order_request) : bool :=
  isEmpty (validationResult req)
  && resolved snap req
  && forallb (in_stock snap) (items req)
  && negb (total_mismatch (authoritativeSubtotal snap (items req))
                          (total req) (vatAmount req)).

(** The number of distinct requested ids. *)
Definition distinct_requested (req : order_request) : nat :=
  List.length (nodup string_dec (requested req)).

(** The number of distinct products the lookup resolves. *)
Definition distinct_resolved (s : Store) (req : order_request) : nat :=
  List.length
    (nodup string_dec (map r_id (select_products_in (requested req) s))).

(** The writes of the loop over the lines, with identifiers drawn from the
    [d]-th on. *)
Fixpoint item_writes (e : Env) (productMap : string -> option product_row)
    (orderId : string) (its : list item) (d : nat) : list statement :=
  match its with
  | [] => []
  | it :: rest =>
      match productMap (productId it) with
      | Some product =>
          InsertOrderItem
            (mkOrderItem (uuidv4 e d) orderId (productId it) (quantity it)
                         (r_price product))
          :: DecrementStock (quantity it) (productId it)
          :: item_writes e productMap orderId rest (S d)
      | None => []
      end
  end.

(** The order lines among them. *)
Fixpoint lines_of (sts : list statement) : list order_item :=
  match sts with
  | InsertOrderItem i :: rest => i :: lines_of rest
  | _ :: rest => lines_of rest
  | [] => []
  end.

(** The address row of a request, with its identifier. *)
Definition address_row (e : Env) (u : user) (a : shipping_address) : address :=
  mkAddress (uuidv4 e 0) (u_id u) (street a) (city a) (district a)
            (JS.or_default (country a) "Uganda").

Definition address_writes (e : Env) (u : user) (req : order_request)
  : list statement :=
  match shippingAddress req with
  | Some a => [InsertAddress (address_row e u a)]
  | None => []
  end.

(** The identifier of the order: the first drawn, or the second when an
    address takes the first. *)
Definition order_draw (req : order_request) : nat :=
  List.length (match shippingAddress req with Some a => [a] | None => [] end).

(** The header row of the order of a request. *)
Definition order_row (e : Env) (u : user) (req : order_request) : order :=
  mkOrder (uuidv4 e (order_draw req)) (u_id u) (DECIMAL_12_2 (total req))
          (DECIMAL_12_2 (vatAmount req)) pending (paymentMethod req)
          (match shippingAddress req with
           | Some _ => Some (uuidv4 e 0)
           | None => None
           end)
          (JS.or_null (option_map JS.trim (notes req))).

(** All the writes of a placement that reads [snap], in order. *)
Definition order_writes (e : Env) (u : user) (req : order_request)
    (snap : Store) : list statement :=
  address_writes e u req
  ++ InsertOrder (order_row e u req)
  :: item_writes e (new_Map (select_products_in (requested req) snap))
       (uuidv4 e (order_draw req)) (items req) (S (order_draw req)).

(** The line finds its product in the map, with stock enough. *)
Definition line_ok (productMap : string -> option product_row) (it : item)
  : bool :=
  match productMap (productId it) with
  | Some product => negb (r_stock product <? quantity it)%Z
  | None => false
  end.

(** The unit price the map has for an id, as the lookup returned it. *)
Definition decimal_in (productMap : string -> option product_row)
    (id : string) : decimal :=
  match productMap id with
  | Some product => r_price product
  | None => 0
  end.

(** The unit price the map has for an id, as the handler reads it. *)
Definition price_in (productMap : string -> option product_row) (id : string)
  : number :=
  match productMap id with
  | Some product => parseFloat (r_price product)
  | None => 0%float
  end.

(** The order headers among some writes. *)
Fixpoint headers_of (sts : list statement) : list order :=
  match sts with
  | InsertOrder o :: rest => o :: headers_of rest
  | _ :: rest => headers_of rest
  | [] => []
  end.

(** The stock decrements of the lines, applied in order. *)
Definition decremented (its : list item) (ps : list product) : list product :=
  fold_left
    (fun ps it =>
       update_where_id (productId it)
         (fun p => with_stock p (p_stock p - quantity it)) ps)
    its ps.

(** The answer of an early return, which comes after a rollback: when
    that rollback throws, the [catch] block answers. *)
Definition rolled_back (e : Env) (r : Response) : Response :=
  if rejects e ROLLBACK then caught e else r.

(** Some statement among the [n] from the [a]-th on throws. *)
Definition any_throw (e : Env) (a n : nat) : bool :=
  existsb (throws e) (seq a n).

(** The store without the orders of a given id. *)
Definition without_order (id : string) (s : Store) : Store :=
  mkStore (products s) (categories s) (addresses s)
          (filter (fun o => negb (String.eqb (o_id o) id)) (orders s))
          (order_items s).

(* ================================================================== *)
(** ** A small shop, for the examples *)

Module Shop.

Definition P1 : string := "11111111-1111-4111-8111-111111111111".
Definition P2 : string := "22222222-2222-4222-8222-222222222222".
Definition P9 : string := "99999999-9999-4999-8999-999999999999".
Definition alice : user := mkUser "aaaaaaaa-aaaa-4aaa-8aaa-aaaaaaaaaaaa" false.
Definition bob : user := mkUser "bbbbbbbb-bbbb-4bbb-8bbb-bbbbbbbbbbbb" false.
Definition admin : user := mkUser "cccccccc-cccc-4ccc-8ccc-cccccccccccc" true.

(** Headphones at 100000.00, rated 4.50. *)
Definition headphones (stock : Z) : product :=
  mkProduct P1 "Wireless Bluetooth Headphones" "High-quality headphones"
            10000000 None None stock 450 127.

(** A mat at 220000.00, rated 4.20. *)
Definition mat (stock : Z) : product :=
  mkProduct P2 "Yoga Mat Pro" "Non-slip yoga mat"
            22000000 None None stock 420 203.

Definition shop (stock1 stock2 : Z) : Store :=
  mkStore [headphones stock1; mat stock2] [] [] [] [].

Definition hex_digit (n : nat) : ascii :=
  nth (n mod 16) (list_ascii_of_string "0123456789abcdef") "0"%char.

(** The n-th identifier drawn by the [k]-th caller. *)
Definition fresh (k n : nat) : string :=
  "00000000-0000-4000-8000-0000000000"
  ++ String (hex_digit k) (String (hex_digit n) "").

(** Nothing throws, and rows come in the order of the table. *)
Definition calm (k : nat) : Env :=
  mkEnv (fun _ => false) (fresh k) (fun _ => false) (fun _ => 0).

(** The n-th statement, counted from 0, throws. *)
Definition failing (n : nat) : Env :=
  mkEnv (Nat.eqb n) (fresh 0) (fun _ => false) (fun _ => 0).

(** A call that controls the transaction throws, and no other. *)
Definition control_eqb (a b : control) : bool :=
  match a, b with
  | BEGIN, BEGIN | ROLLBACK, ROLLBACK | COMMIT, COMMIT
  | ROLLBACK_IN_CATCH, ROLLBACK_IN_CATCH => true
  | _, _ => false
  end.

Definition rejecting (c : control) : Env :=
  mkEnv (fun _ => false) (fresh 0) (control_eqb c) (fun _ => 0).

(** The connection is lost: every statement and every call throws. *)
Definition lost : Env :=
  mkEnv (fun _ => true) (fresh 0) (fun _ => true) (fun _ => 0).

Definition cart (its : list item) (total vatAmount : number) : order_request :=
  mkRequest its total vatAmount "cash" None None.

(** Two headphones at 100000 each: 200000 + 36000. *)
Definition two_headphones : order_request :=
  cart [mkItem P1 2] 236000%float 36000%float.

Definition one_headphone : order_request :=
  cart [mkItem P1 1] 118000%float 18000%float.

End Shop.

(* ================================================================== *)
(** ** The answers of the other handlers *)

(** The bodies that the handlers below answer with, beside those of the
    handlers above. *)
Inductive content :=
  | Plain (p : payload)
  | InvalidFields (fields : list string)
  | Message (message : string)
  | Product (p : product_view)
  | ProductCreated (p : product_view).

Record Reply := Answer {
  code : nat;
  content_of : content
}.

Definition InternalServerError : Reply :=
  Answer 500 (Plain (Error "Internal server error")).

(** The answer of an early [return res.status(...).json(...)]. *)
Definition early (r : Response) : Reply :=
  match r with
  | Json status body => Answer status (Plain body)
  | Unanswered => InternalServerError
  end.

(** A handler on the pool whose body sits in [try { ... } catch { 500 }]. *)
Definition serve (h : M Reply) (e : Env) (s : Store) : Reply * Store :=
  match h e (start s s) with
  | Next r c => (r, live c)
  | Return r c => (early r, live c)
  | Throw c => (InternalServerError, live c)
  end.

(* ================================================================== *)
(** ** PATCH /api/orders/:id/status *)

Definition order_statuses : list (string * order_status) :=
  [("pending", pending); ("processing", processing); ("shipped", shipped);
   ("delivered", delivered); ("cancelled", cancelled)].

(** The value of the ENUM column that a string names. *)
Definition status_of (s : string) : option order_status :=
  option_map snd (find (fun p => String.eqb (fst p) s) order_statuses).

Definition with_status (o : order) (st : order_status) : order :=
  mkOrder (o_id o) (o_user_id o) (o_total o) (o_vat_amount o) st
          (o_payment_method o) (o_shipping_address_id o) (o_notes o).

Definition with_orders (s : Store) (os : list order) : Store :=
  mkStore (products s) (categories s) (addresses s) os (order_items s).

(** [UPDATE orders SET status = ?, updated_at = CURRENT_TIMESTAMP
    WHERE id = ?]. *)
Definition update_order_status (status orderId : string) (s : Store)
  : option (nat * Store) :=
  match status_of status with
  | Some st =>
      Some (List.length
              (filter (fun o => String.eqb (o_id o) orderId) (orders s)),
            with_orders s
              (map (fun o => if String.eqb (o_id o) orderId
                             then with_status o st else o)
                   (orders s)))
  | None => None
  end.

(** The handler; [status] is the field of the body, the empty string when
    it is missing. *)
Definition updateOrderStatus_try (orderId status : string) : M Reply :=
  if negb (Validator.isIn status
             ["pending"; "processing"; "shipped"; "delivered"; "cancelled"])
  then ret (Answer 400 (InvalidFields ["status"]))
  else
    affectedRows <- pool_write (update_order_status status orderId) ;;
    if (affectedRows =? 0)%nat
    then respond (Json 404 (Error "Order not found"))
    else ret (Answer 200 (Message "Order status updated successfully")).

Definition updateOrderStatus (e : Env) (orderId status : string) (s : Store)
  : Reply * Store :=
  serve (updateOrderStatus_try orderId status) e s.

(* ================================================================== *)
(** ** GET /api/products/:id *)

Definition getProduct_try (id : string) : M Reply :=
  found <- pool_query (select_product id) ;;
  match found with
  | [] => respond (Json 404 (Error "Product not found"))
  | product :: _ => ret (Answer 200 (Product (product_json product)))
  end.

Definition getProduct (e : Env) (id : string) (s : Store) : Reply * Store :=
  serve (getProduct_try id) e s.

(* ================================================================== *)
(** ** POST /api/products *)

(** A chain without [optional()]: a missing field fails it. *)
Definition required {A} (ok : A -> bool) (v : option A)
    (err : validation_error) : list validation_error :=
  match v with
  | Some x => Validator.check (ok x) err
  | None => [err]
  end.

Definition validationResult_create (req : product_update)
  : list validation_error :=
  required Validator.isLength_min1 (name req) bad_name
  ++ required Validator.isLength_min1 (description req) bad_description
  ++ required Validator.isFloat_min0 (price req) bad_price
  ++ required Validator.isUUID (categoryId req) bad_categoryId
  ++ required (Validator.isInt 0) (stock req) bad_stock.

(** The row that the INSERT makes of the values bound to it; [rating] and
    [reviews_count] take their defaults. *)
Definition new_product (id : string) (u : product_patch) : product :=
  apply_patch u (mkProduct id "" "" 0 None None 0 0 0).

(** [INSERT INTO products (id, name, description, price, image,
    category_id, stock)]: refused when the id is taken, when a value does
    not fit its column or when the category is missing. *)
Definition insert_product (id : string) (u : product_patch) (s : Store)
  : option (nat * Store) :=
  if existsb (String.eqb id) (map p_id (products s)) then None
  else if negb (fits_columns u && category_exists s (set_category_id u))
  then None
  else Some (1, with_products s (products s ++ [new_product id u])).

(** The values that the INSERT binds: the fields of the body, with
    [image || null]. *)
Definition bound_to_insert (req : product_update) : product_patch :=
  mkPatch (name req) (description req) (price req) (JS.or_null (image req))
          (categoryId req) (stock req).

(** The handler.  A field that is still [undefined] when it is bound makes
    the statement throw. *)
Definition createProduct_try (body : product_update) : M Reply :=
  let req := sanitized_update body in
  let errors := validationResult_create req in
  if negb (isEmpty errors)
  then respond (ValidationFailed errors)
  else
    productId <- uuid ;;
    match name req, description req, price req, categoryId req, stock req with
    | Some _, Some _, Some _, Some _, Some _ =>
        pool_write (insert_product productId (bound_to_insert req)) ;;
        products <- pool_query (select_product productId) ;;
        match products with
        | [] => throw
        | product :: _ =>
            ret (Answer 201 (ProductCreated (product_json product)))
        end
    | _, _, _, _, _ => throw
    end.

Definition createProduct (e : Env) (body : product_update) (s : Store)
  : Reply * Store :=
  serve (createProduct_try body) e s.

(* ================================================================== *)
(** ** DELETE /api/products/:id *)

(** [DELETE FROM products WHERE id = ?]: refused when a row to delete is
    referenced by an order line ([FOREIGN KEY (product_id) REFERENCES
    products(id)] of [order_items], which does not cascade). *)
Definition delete_product (id : string) (s : Store) : option (nat * Store) :=
  let doomed := filter (fun p => String.eqb (p_id p) id) (products s) in
  if negb (isEmpty doomed)
     && existsb (fun i => String.eqb (oi_product_id i) id) (order_items s)
  then None
  else Some (List.length doomed,
             with_products s
               (filter (fun p => negb (String.eqb (p_id p) id)) (products s))).

Definition deleteProduct_try (productId : string) : M Reply :=
  affectedRows <- pool_write (delete_product productId) ;;
  if (affectedRows =? 0)%nat
  then respond (Json 404 (Error "Product not found"))
  else ret (Answer 200 (Message "Product deleted successfully")).

Definition deleteProduct (e : Env) (productId : string) (s : Store)
  : Reply * Store :=
  serve (deleteProduct_try productId) e s.

(* ================================================================== *)
(** ** DELETE /api/categories/:id *)

Definition in_category_id (id : string) (p : product) : bool :=
  match p_category_id p with
  | Some c => String.eqb c id
  | None => false
  end.

(** The count of the rows of [products] with [category_id = ?]. *)
Definition count_products_in (categoryId : string) (s : Store) : nat :=
  List.length (filter (in_category_id categoryId) (products s)).

(** [DELETE FROM categories WHERE id = ?]: refused when a row to delete is
    the category of a product. *)
Definition delete_category (id : string) (s : Store) : option (nat * Store) :=
  let doomed := filter (fun c => String.eqb (c_id c) id) (categories s) in
  if negb (isEmpty doomed) && existsb (in_category_id id) (products s)
  then None
  else Some (List.length doomed,
             mkStore (products s)
                     (filter (fun c => negb (String.eqb (c_id c) id))
                             (categories s))
                     (addresses s) (orders s) (order_items s)).

Definition deleteCategory_try (categoryId : string) : M Reply :=
  count <- pool_query (count_products_in categoryId) ;;
  if (0 <? count)%nat
  then respond (Json 400 (Error "Cannot delete category with existing products"))
  else
    affectedRows <- pool_write (delete_category categoryId) ;;
    if (affectedRows =? 0)%nat
    then respond (Json 404 (Error "Category not found"))
    else ret (Answer 200 (Message "Category deleted successfully")).

Definition deleteCategory (e : Env) (categoryId : string) (s : Store)
  : Reply * Store :=
  serve (deleteCategory_try categoryId) e s.

(* ================================================================== *)
(** ** More notions for the statements of the theorems *)

(** The quantity of the entry of a request for a product, 0 when the
    request has no entry for it. *)
Definition asked (its : list item) (id : string) : Z :=
  match find (fun it => String.eqb (productId it) id) its with
  | Some it => quantity it
  | None => 0%Z
  end.

(** The quantities of all the entries for a product, added up. *)
Definition ordered (its : list item) (id : string) : Z :=
  fold_right
    (fun it acc =>
       ((if String.eqb (productId it) id then quantity it else 0) + acc)%Z)
    0%Z its.

(** The transaction of the call opens, no statement of it throws, neither
    the lookup nor any of the writes, and its commit runs. *)
Definition commits (e : Env) (u : user) (req : order_request) (s : Store)
  : bool :=
  negb (rejects e BEGIN)
  && negb (any_throw e 0 (S (List.length (order_writes e u req s))))
  && negb (rejects e COMMIT).

(** The addresses among some writes. *)
Fixpoint addresses_of (sts : list statement) : list address :=
  match sts with
  | InsertAddress a :: rest => a :: addresses_of rest
  | _ :: rest => addresses_of rest
  | [] => []
  end.

(** The name the catalog has for an id. *)
Definition catalog_name (s : Store) (id : string) : string :=
  match catalog s id with
  | Some p => p_name p
  | None => ""
  end.

(** The patch that the body of a product update makes. *)
Definition patch_of (req : product_update) : product_patch :=
  mkPatch (name req) (description req) (price req) (image req)
          (categoryId req) (stock req).

(** No price of the catalog is negative. *)
Definition prices_valid (s : Store) : bool :=
  forallb (fun p => (0 <=? p_price p)%Z) (products s).

(** Every order line is of a product of the catalog, and of an order of the
    store. *)
Definition lines_have_products (s : Store) : bool :=
  forallb
    (fun i => existsb (String.eqb (oi_product_id i)) (map p_id (products s)))
    (order_items s).

Definition lines_have_orders (s : Store) : bool :=
  forallb
    (fun i => existsb (String.eqb (oi_order_id i)) (map o_id (orders s)))
    (order_items s).

Definition catalog_sound (s : Store) : bool :=
  keyed s && stock_nonneg s && prices_valid s.

Definition references_sound (s : Store) : bool :=
  keyed s && lines_have_products s && lines_have_orders s.

(** A request to one of the handlers that write. *)
Inductive request :=
  | POST_orders (u : user) (body : order_request)
  | PATCH_orders_status (orderId status : string)
  | POST_products (body : product_update)
  | PUT_products (productId : string) (body : product_update)
  | DELETE_products (productId : string)
  | DELETE_categories (categoryId : string).

(** The store that a request leaves, under an environment. *)
Definition after (e : Env) (r : request) (s : Store) : Store :=
  match r with
  | POST_orders u body => snd (placeOrder e u body s)
  | PATCH_orders_status orderId status =>
      snd (updateOrderStatus e orderId status s)
  | POST_products body => snd (createProduct e body s)
  | PUT_products productId body => snd (updateProduct e productId body s)
  | DELETE_products productId => snd (deleteProduct e productId s)
  | DELETE_categories categoryId => snd (deleteCategory e categoryId s)
  end.

(** Requests served one after the other. *)
Definition after_all (l : list (Env * request)) (s : Store) : Store :=
  fold_left (fun s er => after (fst er) (snd er) s) l s.

(* ================================================================== *)
(** ** More of the shop, for the examples *)

Module Fixtures.

(** The shop after alice ordered two headphones. *)
Definition placed : Store :=
  snd (placeOrder (Shop.calm 0) Shop.alice Shop.two_headphones
                  (Shop.shop 10 5)).

Definition order_id : string := Shop.fresh 0 0.

Definition alices_order : order :=
  mkOrder order_id (u_id Shop.alice) 23600000 3600000 pending "cash"
          None None.

Definition C1 : string := "dddddddd-dddd-4ddd-8ddd-dddddddddddd".
Definition C2 : string := "eeeeeeee-eeee-4eee-8eee-eeeeeeeeeeee".

Definition webcam_stand : product :=
  mkProduct Shop.P9 "Webcam stand" "A stand" 4800000 None (Some C1) 3
            0 0.

(** A shop with two categories, the second one empty. *)
Definition market : Store :=
  mkStore [Shop.headphones 10; Shop.mat 5; webcam_stand]
          [mkCategory C1 "Electronics"; mkCategory C2 "Books"] [] [] [].

Definition P3 : string := "33333333-3333-4333-8333-333333333333".

Definition draws (id : string) : Env :=
  mkEnv (fun _ => false) (fun _ => id) (fun _ => false) (fun _ => 0).

Definition new_webcam : product_update :=
  mkUpdate (Some " 4K Webcam ") (Some "Ultra HD webcam") (Some 480000%float)
           None (Some C1) (Some 35%Z).

Definition with_address : order_request :=
  mkRequest [mkItem Shop.P1 2; mkItem Shop.P2 1] 495600%float 75600%float
            "card"
            (Some (mkShipping "Plot 1 Kampala Road" "Kampala" "Central" None))
            (Some " leave at the gate ").

End Fixtures.

Unset Implicit Arguments.

(* ================================================================== *)
(** ** Lists of identifiers *)

Lemma existsb_eqb_In (x : string) (l : list string) :
  existsb (String.eqb x) l = true <-> In x l.
Proof.
  rewrite existsb_exists. split.
  - intros [y [Hy E]]. apply String.eqb_eq in E. now subst.
  - intros H. exists x. split; [assumption | apply String.eqb_refl].
Qed.

Lemma distinct_NoDup (l : list string) : distinct l = true <-> NoDup l.
Proof.
  induction l as [|x l IH]; simpl.
  - split; [constructor | reflexivity].
  - rewrite andb_true_iff, negb_true_iff, IH. split.
    + intros [Hx Hl]. constructor; [|assumption].
      intro Hin. apply existsb_eqb_In in Hin. congruence.
    + intros H. inversion H as [|? ? Hx Hl]; subst. split; [|assumption].
      destruct (existsb (String.eqb x) l) eqn:E; [|reflexivity].
      apply existsb_eqb_In in E. contradiction.
Qed.

Lemma forallb_first_false {A} (f : A -> bool) (l : list A) :
  forallb f l = false ->
  exists pre x post,
    l = pre ++ x :: post /\ forallb f pre = true /\ f x = false.
Proof.
  induction l as [|a l IH]; simpl; [discriminate|].
  destruct (f a) eqn:Fa; simpl.
  - intros H. destruct (IH H) as (pre & x & post & -> & Hpre & Hx).
    exists (a :: pre), x, post. simpl. rewrite Fa. auto.
  - intros _. exists [], a, l. auto.
Qed.

(** Two rows of a keyed table with the same key are the same row. *)
Lemma keyed_rows_equal {A} (key : A -> string) (l : list A) (x y : A) :
  NoDup (map key l) -> In x l -> In y l -> key x = key y -> x = y.
Proof.
  induction l as [|a l IH]; simpl; [contradiction|].
  intros ND Hx Hy E. inversion ND as [|? ? Ha ND']; subst.
  destruct Hx as [<-|Hx], Hy as [<-|Hy]; auto.
  - exfalso. apply Ha. rewrite E. now apply in_map.
  - exfalso. apply Ha. rewrite <- E. now apply in_map.
Qed.

Lemma NoDup_map_filter {A} (key : A -> string) (f : A -> bool) (l : list A) :
  NoDup (map key l) -> NoDup (map key (filter f l)).
Proof.
  induction l as [|a l IH]; simpl; [auto|].
  intros ND. inversion ND as [|? ? Ha ND']; subst.
  destruct (f a); simpl; [constructor|]; auto.
  intro Hin. apply Ha. apply in_map_iff in Hin as (y & Ey & Hy).
  apply filter_In in Hy as [Hy _]. rewrite <- Ey. now apply in_map.
Qed.

(* ================================================================== *)
(** ** The batch lookup and the product map *)

Lemma select_products_in_ids (ids : list string) (s : Store) :
  map r_id (select_products_in ids s)
  = map p_id (filter (fun p => existsb (String.eqb (p_id p)) ids) (products s)).
Proof. unfold select_products_in. rewrite map_map. reflexivity. Qed.

Lemma select_products_in_In (ids : list string) (s : Store) (row : product_row) :
  In row (select_products_in ids s) <->
  exists p, In p (products s) /\ In (p_id p) ids /\ row = row_of p.
Proof.
  unfold select_products_in. rewrite in_map_iff. split.
  - intros (p & <- & Hp). apply filter_In in Hp as [Hp Hid].
    apply existsb_eqb_In in Hid. now exists p.
  - intros (p & Hp & Hid & ->). exists p. split; [reflexivity|].
    apply filter_In. split; [assumption|]. now apply existsb_eqb_In.
Qed.

Lemma select_products_in_keyed (ids : list string) (s : Store) :
  products_keyed s -> NoDup (map r_id (select_products_in ids s)).
Proof.
  intros K. rewrite select_products_in_ids. now apply NoDup_map_filter.
Qed.

Lemma select_products_in_incl (ids : list string) (s : Store) :
  incl (map r_id (select_products_in ids s)) ids.
Proof.
  intros id Hin. apply in_map_iff in Hin as (row & <- & Hrow).
  apply select_products_in_In in Hrow as (p & _ & Hid & ->). exact Hid.
Qed.

(** The lookup returns as many rows as there are entries exactly when no id
    is requested twice and every requested id is in the catalog. *)
Lemma lookup_length (ids : list string) (s : Store) :
  products_keyed s ->
  List.length (select_products_in ids s) = List.length ids <->
  NoDup ids /\ incl ids (map p_id (products s)).
Proof.
  intros K.
  pose proof (select_products_in_keyed ids s K) as ND.
  pose proof (select_products_in_incl ids s) as I.
  rewrite <- (length_map r_id (select_products_in ids s)). split.
  - intros L. split.
    + apply (NoDup_incl_NoDup ND); [lia | exact I].
    + intros id Hid.
      assert (In id (map r_id (select_products_in ids s))) as Hin.
      { apply (@NoDup_length_incl _ _ ids ND); [lia | exact I | exact Hid]. }
      apply in_map_iff in Hin as (row & <- & Hrow).
      apply select_products_in_In in Hrow as (p & Hp & _ & ->).
      simpl. now apply in_map.
  - intros [NDi Inc]. apply Nat.le_antisymm.
    + now apply NoDup_incl_length.
    + apply NoDup_incl_length; [exact NDi|].
      intros id Hid. destruct (proj1 (in_map_iff _ _ _) (Inc id Hid))
        as (p & Ep & Hp).
      apply in_map_iff. exists (row_of p). split; [exact Ep|].
      apply select_products_in_In. exists p. rewrite Ep. auto.
Qed.

Lemma new_Map_snoc (rows : list product_row) (row : product_row) (k : string) :
  new_Map (rows ++ [row]) k
  = if String.eqb k (r_id row) then Some row else new_Map rows k.
Proof. unfold new_Map. rewrite fold_left_app. reflexivity. Qed.

Lemma new_Map_Some (rows : list product_row) (k : string) (row : product_row) :
  new_Map rows k = Some row -> In row rows /\ r_id row = k.
Proof.
  induction rows as [|r rows IH] using rev_ind.
  - discriminate.
  - rewrite new_Map_snoc. destruct (String.eqb k (r_id r)) eqn:E.
    + intros [= <-]. apply String.eqb_eq in E.
      split; [apply in_or_app; right; now left | now symmetry].
    + intros H. destruct (IH H). split; [apply in_or_app; now left | assumption].
Qed.

Lemma new_Map_None (rows : list product_row) (k : string) :
  new_Map rows k = None <-> ~ In k (map r_id rows).
Proof.
  induction rows as [|r rows IH] using rev_ind.
  - split; [intros _ [] | reflexivity].
  - rewrite new_Map_snoc, map_app, in_app_iff. simpl.
    destruct (String.eqb k (r_id r)) eqn:E.
    + apply String.eqb_eq in E. split; [discriminate | intros H; exfalso; auto].
    + apply String.eqb_neq in E. rewrite IH. intuition congruence.
Qed.

Lemma catalog_Some (s : Store) (id : string) (p : product) :
  catalog s id = Some p -> In p (products s) /\ p_id p = id.
Proof.
  unfold catalog. intros H. apply find_some in H as [Hp E].
  now apply String.eqb_eq in E.
Qed.

Lemma catalog_None (s : Store) (id : string) :
  catalog s id = None <-> ~ In id (map p_id (products s)).
Proof.
  unfold catalog. split.
  - intros H Hin. apply in_map_iff in Hin as (p & E & Hp).
    pose proof (find_none _ _ H p Hp) as N. simpl in N.
    rewrite E, String.eqb_refl in N. discriminate.
  - intros H. destruct (find _ _) as [p|] eqn:F; [|reflexivity].
    apply find_some in F as [Hp E]. apply String.eqb_eq in E.
    exfalso. apply H. rewrite <- E. now apply in_map.
Qed.

(** On a keyed catalog the product map of the handler holds, for each
    requested id, the row of the catalog. *)
Lemma productMap_catalog (ids : list string) (s : Store) (id : string) :
  products_keyed s -> In id ids ->
  new_Map (select_products_in ids s) id = option_map row_of (catalog s id).
Proof.
  intros K Hid.
  destruct (catalog s id) as [p|] eqn:C; simpl.
  - apply catalog_Some in C as [Hp Ep].
    destruct (new_Map (select_products_in ids s) id) as [row|] eqn:N.
    + apply new_Map_Some in N as [Hrow Er].
      apply select_products_in_In in Hrow as (q & Hq & _ & ->).
      simpl in Er. f_equal. f_equal.
      apply (keyed_rows_equal p_id (products s)); auto. congruence.
    + exfalso. apply new_Map_None in N. apply N.
      apply in_map_iff. exists (row_of p). split; [exact Ep|].
      apply select_products_in_In. exists p. rewrite Ep. auto.
  - apply new_Map_None. intros Hin.
    apply catalog_None in C. apply C.
    apply in_map_iff in Hin as (row & Er & Hrow).
    apply select_products_in_In in Hrow as (p & Hp & _ & ->).
    rewrite <- Er. simpl. now apply in_map.
Qed.

(* ================================================================== *)
(** ** Running the loops of the handler *)

Ltac run :=
  cbv beta iota delta
    [bind ret respond throw rollback rollback_conn send query execute
     pool_query pool_query_rows pool_write uuid beginTransaction commit seen
     start];
  simpl.

Lemma run_statements_app (a b : list statement) (s : Store) :
  run_statements (a ++ b) s = run_statements b (run_statements a s).
Proof. unfold run_statements. apply fold_left_app. Qed.

Lemma check_stock_pass (m : string -> option product_row) (its : list item)
    (acc : number) (e : Env) (c : Conn) :
  forallb (line_ok m) its = true ->
  check_stock m its acc e c = Next (subtotal (price_in m) its acc) c.
Proof.
  revert acc. induction its as [|it its IH]; intros acc H.
  - reflexivity.
  - simpl in H. apply andb_true_iff in H as [Hit H].
    unfold line_ok in Hit.
    destruct (m (productId it)) as [row|] eqn:E; [|discriminate].
    assert (price_in m (productId it) = parseFloat (r_price row)) as Hp
      by (unfold price_in; now rewrite E).
    cbn [check_stock]. rewrite E.
    destruct (r_stock row <? quantity it)%Z; [discriminate|].
    rewrite (IH _ H). unfold subtotal. simpl. rewrite Hp. reflexivity.
Qed.

Lemma check_stock_short (m : string -> option product_row)
    (pre post : list item) (it : item) (row : product_row)
    (acc : number) (e : Env) (c : Conn) :
  forallb (line_ok m) pre = true ->
  m (productId it) = Some row ->
  (r_stock row <? quantity it)%Z = true ->
  check_stock m (pre ++ it :: post) acc e c
  = if rejects e ROLLBACK then Throw c
    else Return (InsufficientStock (r_name row)) (rollback_conn c).
Proof.
  intros Hpre Hm Hlow. revert acc.
  induction pre as [|x pre IH]; intros acc; simpl.
  - rewrite Hm, Hlow. run. now destruct (rejects e ROLLBACK).
  - simpl in Hpre. apply andb_true_iff in Hpre as [Hx Hpre].
    unfold line_ok in Hx. destruct (m (productId x)) as [r|]; [|discriminate].
    destruct (r_stock r <? quantity x)%Z; [discriminate|]. now apply IH.
Qed.

Lemma any_throw_S (e : Env) (a n : nat) :
  any_throw e a (S n) = throws e a || any_throw e (S a) n.
Proof. reflexivity. Qed.

Lemma any_throw_false (e : Env) (a n : nat) :
  (forall k, throws e k = false) -> any_throw e a n = false.
Proof.
  intros H. unfold any_throw. revert a.
  induction n as [|n IH]; intros a; simpl; [reflexivity|].
  now rewrite H, IH.
Qed.

Lemma item_writes_length (e : Env) (m : string -> option product_row)
    (oid : string) (its : list item) (d : nat) :
  forallb (line_ok m) its = true ->
  List.length (item_writes e m oid its d) = 2 * List.length its.
Proof.
  revert d. induction its as [|it its IH]; intros d; simpl; [reflexivity|].
  unfold line_ok at 1. destruct (m (productId it)); [|discriminate].
  intros H. apply andb_true_iff in H as [_ H]. simpl. rewrite IH by assumption. lia.
Qed.

(** The loop over the lines: it throws when one of its statements throws,
    and otherwise buffers its writes. *)
Lemma create_items_run (e : Env) (m : string -> option product_row)
    (oid : string) (its : list item) (c : Conn) :
  forallb (line_ok m) its = true ->
  if any_throw e (executed c) (2 * List.length its)
  then exists c', create_items m oid its e c = Throw c' /\ live c' = live c
  else create_items m oid its e c
       = Next tt (mkConn (live c) (snapshot c)
                         (buffered c ++ item_writes e m oid its (drawn c))
                         (executed c + 2 * List.length its)
                         (drawn c + List.length its)).
Proof.
  revert c. induction its as [|it its IH]; intros c Hok.
  - simpl. run. rewrite app_nil_r, !Nat.add_0_r. now destruct c.
  - simpl in Hok. apply andb_true_iff in Hok as [Hit Hok].
    unfold line_ok in Hit. simpl create_items. simpl item_writes.
    destruct (m (productId it)) as [row|]; [|discriminate].
    replace (2 * List.length (it :: its)) with (S (S (2 * List.length its)))
      by (simpl; lia).
    rewrite !any_throw_S. run.
    destruct (throws e (executed c)) eqn:T0; simpl.
    { eexists. split; reflexivity. }
    destruct (throws e (S (executed c))) eqn:T1; simpl.
    { eexists. split; reflexivity. }
    match goal with |- context [create_items m oid its e ?c1] =>
      specialize (IH c1 Hok) end.
    simpl in IH.
    match type of IH with if ?b then _ else _ => destruct b end.
    + exact IH.
    + rewrite IH. f_equal. f_equal.
      * rewrite <- !app_assoc. reflexivity.
      * simpl. lia.
      * simpl. lia.
Qed.

(* ================================================================== *)
(** ** What the writes of a transaction do to the tables *)

Lemma orders_run_statements (sts : list statement) (s : Store) :
  orders (run_statements sts s) = orders s ++ headers_of sts.
Proof.
  revert s. induction sts as [|st sts IH]; intros s; simpl.
  - now rewrite app_nil_r.
  - unfold run_statements in *. simpl. rewrite IH.
    destruct st; simpl; try reflexivity. now rewrite <- app_assoc.
Qed.

Lemma order_items_run_statements (sts : list statement) (s : Store) :
  order_items (run_statements sts s) = order_items s ++ lines_of sts.
Proof.
  revert s. induction sts as [|st sts IH]; intros s; simpl.
  - now rewrite app_nil_r.
  - unfold run_statements in *. simpl. rewrite IH.
    destruct st; simpl; try reflexivity. now rewrite <- app_assoc.
Qed.

Lemma update_where_id_ids (id : string) (f : product -> product)
    (ps : list product) :
  (forall p, p_id (f p) = p_id p) ->
  map p_id (update_where_id id f ps) = map p_id ps.
Proof.
  intros Hf. unfold update_where_id. rewrite map_map. apply map_ext.
  intros p. destruct (String.eqb (p_id p) id); [apply Hf | reflexivity].
Qed.

(** No statement changes the ids of the products. *)
Lemma product_ids_run_statements (sts : list statement) (s : Store) :
  map p_id (products (run_statements sts s)) = map p_id (products s).
Proof.
  revert s. induction sts as [|st sts IH]; intros s; simpl; [reflexivity|].
  unfold run_statements in *. simpl. rewrite IH.
  destruct st; simpl; try reflexivity; now apply update_where_id_ids.
Qed.

Lemma headers_of_app (a b : list statement) :
  headers_of (a ++ b) = headers_of a ++ headers_of b.
Proof.
  induction a as [|st a IH]; simpl; [reflexivity|].
  destruct st; simpl; now rewrite IH.
Qed.

Lemma headers_of_item_writes (e : Env) (m : string -> option product_row)
    (oid : string) (its : list item) (d : nat) :
  headers_of (item_writes e m oid its d) = [].
Proof.
  revert d. induction its as [|it its IH]; intros d; simpl; [reflexivity|].
  destruct (m (productId it)); simpl; auto.
Qed.

Lemma headers_of_order_writes (e : Env) (u : user) (req : order_request)
    (snap : Store) :
  headers_of (order_writes e u req snap) = [order_row e u req].
Proof.
  unfold order_writes, address_writes. rewrite headers_of_app.
  simpl. rewrite headers_of_item_writes. now destruct (shippingAddress req).
Qed.

(** The products after the writes of a placement: the stock decrements of
    its lines, in order. *)
Lemma products_item_writes (e : Env) (m : string -> option product_row)
    (oid : string) (its : list item) (d : nat) (s : Store) :
  forallb (line_ok m) its = true ->
  products (run_statements (item_writes e m oid its d) s)
  = decremented its (products s).
Proof.
  revert d s. induction its as [|it its IH]; intros d s H; [reflexivity|].
  simpl in H. apply andb_true_iff in H as [Hit H]. unfold line_ok in Hit.
  simpl. destruct (m (productId it)); [|discriminate].
  unfold run_statements in *. simpl. rewrite IH by assumption. reflexivity.
Qed.

Lemma products_order_writes (e : Env) (u : user) (req : order_request)
    (snap s : Store) :
  forallb (line_ok (new_Map (select_products_in (requested req) snap)))
          (items req) = true ->
  products (run_statements (order_writes e u req snap) s)
  = decremented (items req) (products s).
Proof.
  intros H. unfold order_writes, address_writes.
  rewrite run_statements_app.
  change (run_statements (?x :: ?l) ?s)
    with (run_statements l (run_statement s x)).
  rewrite products_item_writes by assumption.
  now destruct (shippingAddress req).
Qed.

Lemma lines_of_app (a b : list statement) :
  lines_of (a ++ b) = lines_of a ++ lines_of b.
Proof.
  induction a as [|st a IH]; simpl; [reflexivity|].
  destruct st; simpl; now rewrite IH.
Qed.

(** One line per entry of the request, in its order, at the price of the
    product map. *)
Lemma lines_of_item_writes (e : Env) (m : string -> option product_row)
    (oid : string) (its : list item) (d : nat) :
  forallb (line_ok m) its = true ->
  map (fun i => (oi_order_id i, oi_product_id i, oi_quantity i, oi_price i))
      (lines_of (item_writes e m oid its d))
  = map (fun it => (oid, productId it, quantity it,
                    decimal_in m (productId it)))
        its.
Proof.
  revert d. induction its as [|it its IH]; intros d H; [reflexivity|].
  simpl in H. apply andb_true_iff in H as [Hit H]. unfold line_ok in Hit.
  simpl. unfold decimal_in at 1.
  destruct (m (productId it)); [|discriminate].
  simpl. now rewrite IH.
Qed.

Lemma lines_of_order_writes (e : Env) (u : user) (req : order_request)
    (snap : Store) :
  lines_of (order_writes e u req snap)
  = lines_of (item_writes e (new_Map (select_products_in (requested req) snap))
                (uuidv4 e (order_draw req)) (items req) (S (order_draw req))).
Proof.
  unfold order_writes, address_writes. rewrite lines_of_app.
  now destruct (shippingAddress req).
Qed.

Lemma order_writes_length (e : Env) (u : user) (req : order_request)
    (snap : Store) :
  forallb (line_ok (new_Map (select_products_in (requested req) snap)))
          (items req) = true ->
  List.length (order_writes e u req snap)
  = order_draw req + 1 + 2 * List.length (items req).
Proof.
  intros H. unfold order_writes, address_writes, order_draw.
  rewrite length_app. simpl. rewrite item_writes_length by assumption.
  destruct (shippingAddress req); simpl; lia.
Qed.

(* ================================================================== *)
(** ** The product map against the catalog *)

Lemma line_ok_in_stock (snap : Store) (ids : list string) (it : item) :
  products_keyed snap -> In (productId it) ids ->
  line_ok (new_Map (select_products_in ids snap)) it = in_stock snap it.
Proof.
  intros K Hin. unfold line_ok, in_stock.
  rewrite (productMap_catalog _ _ _ K Hin).
  now destruct (catalog snap (productId it)).
Qed.

Lemma lines_ok_in_stock (snap : Store) (its : list item) :
  products_keyed snap ->
  forallb (line_ok (new_Map (select_products_in (map productId its) snap))) its
  = forallb (in_stock snap) its.
Proof.
  intros K.
  assert (forall l, incl l its ->
    forallb (line_ok (new_Map (select_products_in (map productId its) snap))) l
    = forallb (in_stock snap) l) as G.
  { induction l as [|it l IH]; intros I; simpl; [reflexivity|].
    rewrite IH by (intros x Hx; apply I; now right).
    rewrite (line_ok_in_stock snap (map productId its) it K); [reflexivity|].
    apply in_map, I. now left. }
  apply G, incl_refl.
Qed.

Lemma price_in_catalog (snap : Store) (ids : list string) (id : string) :
  products_keyed snap -> In id ids ->
  price_in (new_Map (select_products_in ids snap)) id = catalog_price snap id.
Proof.
  intros K Hin. unfold price_in, catalog_price.
  rewrite (productMap_catalog _ _ _ K Hin). now destruct (catalog snap id).
Qed.

Lemma decimal_in_catalog (snap : Store) (ids : list string) (id : string) :
  products_keyed snap -> In id ids ->
  decimal_in (new_Map (select_products_in ids snap)) id = unit_price snap id.
Proof.
  intros K Hin. unfold decimal_in, unit_price.
  rewrite (productMap_catalog _ _ _ K Hin). now destruct (catalog snap id).
Qed.

Lemma subtotal_catalog (snap : Store) (its : list item) (acc : number) :
  products_keyed snap ->
  subtotal (price_in (new_Map (select_products_in (map productId its) snap)))
           its acc
  = subtotal (catalog_price snap) its acc.
Proof.
  intros K.
  assert (forall l a, incl l its ->
    subtotal (price_in (new_Map (select_products_in (map productId its) snap)))
             l a
    = subtotal (catalog_price snap) l a) as G.
  { induction l as [|it l IH]; intros a I; [reflexivity|].
    unfold subtotal in *. simpl.
    rewrite (price_in_catalog snap (map productId its) (productId it) K)
      by (apply in_map, I; now left).
    apply IH. intros x Hx. apply I. now right. }
  apply G, incl_refl.
Qed.

(* ================================================================== *)
(** ** The handler, stage by stage *)

Ltac enter :=
  unfold placeOrder, placeOrderAt, handle_transaction, placeOrder_try,
    transaction, rolled_back, resolved, requested, sanitized in *.

Section Placement.

Variables (e : Env) (u : user) (req : order_request) (snap s : Store).

(** A transaction that does not open ends the call in the [catch]
    block. *)
Lemma placeOrderAt_unopened :
  rejects e BEGIN = true ->
  placeOrderAt e u req snap s = (caught e, s).
Proof.
  intros B. enter. run. rewrite B. reflexivity.
Qed.

Hypothesis opened : rejects e BEGIN = false.

(** A request that fails validation is answered before any statement, after
    a rollback. *)
Lemma placeOrderAt_invalid :
  isEmpty (validationResult req) = false ->
  placeOrderAt e u req snap s
  = (rolled_back e (ValidationFailed (validationResult req)), s).
Proof.
  intros V. enter. run. rewrite opened, V. simpl.
  now destruct (rejects e ROLLBACK).
Qed.

Hypothesis valid : isEmpty (validationResult req) = true.

Lemma placeOrderAt_lookup_throws :
  throws e 0 = true ->
  placeOrderAt e u req snap s = (caught e, s).
Proof.
  intros T. enter. run. rewrite opened, valid. simpl. rewrite T. reflexivity.
Qed.

Hypothesis lookup : throws e 0 = false.

Lemma placeOrderAt_unresolved :
  resolved snap req = false ->
  placeOrderAt e u req snap s = (rolled_back e ProductNotFound, s).
Proof.
  intros R. enter. run. rewrite opened, valid. simpl. rewrite lookup. simpl.
  unfold run_statements. simpl. rewrite R. simpl.
  now destruct (rejects e ROLLBACK).
Qed.

Hypothesis all_resolved : resolved snap req = true.
Hypothesis snap_keyed : products_keyed snap.

Lemma resolved_distinct : NoDup (requested req).
Proof.
  unfold resolved in all_resolved. apply Nat.eqb_eq in all_resolved.
  unfold requested in *. rewrite <- (length_map productId) in all_resolved.
  now apply (lookup_length _ _ snap_keyed) in all_resolved.
Qed.

Lemma resolved_in_catalog (it : item) :
  In it (items req) -> exists p, catalog snap (productId it) = Some p.
Proof.
  intros Hit.
  unfold resolved in all_resolved. apply Nat.eqb_eq in all_resolved.
  unfold requested in *. rewrite <- (length_map productId) in all_resolved.
  apply (lookup_length _ _ snap_keyed) in all_resolved as [_ Inc].
  destruct (catalog snap (productId it)) as [p|] eqn:C; [now exists p|].
  apply catalog_None in C. exfalso. apply C, Inc. now apply in_map.
Qed.

(** The first line that asks more than the stock read in the lookup ends
    the call, with the name of its product. *)
Lemma placeOrderAt_insufficient :
  forallb (in_stock snap) (items req) = false ->
  exists pre it post p,
    items req = pre ++ it :: post
    /\ forallb (in_stock snap) pre = true
    /\ catalog snap (productId it) = Some p
    /\ (p_stock p < quantity it)%Z
    /\ placeOrderAt e u req snap s
       = (rolled_back e (InsufficientStock (p_name p)), s).
Proof.
  intros F.
  destruct (forallb_first_false _ _ F) as (pre & it & post & E & Hpre & Hit).
  assert (In it (items req)) as Iit by (rewrite E; apply in_elt).
  destruct (resolved_in_catalog it Iit) as [p C].
  exists pre, it, post, p. repeat split; try assumption.
  - unfold in_stock in Hit. rewrite C in Hit.
    apply negb_false_iff, Z.ltb_lt in Hit. exact Hit.
  - pose proof (line_ok_in_stock snap (requested req) it snap_keyed
                  (in_map productId _ _ Iit)) as Lit.
    assert (forallb (line_ok (new_Map (select_products_in (requested req) snap)))
                    pre = true) as Lpre.
    { rewrite <- Hpre. clear Hpre Hit F.
      assert (incl pre (items req)) as I
        by (rewrite E; intros x Hx; apply in_or_app; now left).
      clear E. induction pre as [|x pre IH]; simpl; [reflexivity|].
      rewrite IH by (intros y Hy; apply I; now right).
      rewrite (line_ok_in_stock snap (requested req) x snap_keyed);
        [reflexivity|].
      apply in_map, I. now left. }
    unfold line_ok in Lit. rewrite Hit in Lit.
    pose proof (productMap_catalog (requested req) snap (productId it)
                  snap_keyed (in_map productId _ _ Iit)) as M.
    rewrite C in M. simpl in M. rewrite M in Lit.
    apply negb_false_iff in Lit.
    enter. run. rewrite opened, valid. simpl. rewrite lookup. simpl.
    unfold run_statements. simpl. rewrite all_resolved. simpl.
    rewrite E at 2.
    rewrite (check_stock_short _ pre post it (row_of p)); try assumption.
    now destruct (rejects e ROLLBACK).
Qed.

Hypothesis all_in_stock : forallb (in_stock snap) (items req) = true.

Lemma lines_ok :
  forallb (line_ok (new_Map (select_products_in (requested req) snap)))
          (items req) = true.
Proof.
  unfold requested. now rewrite lines_ok_in_stock.
Qed.

Lemma placeOrderAt_mismatch :
  total_mismatch (authoritativeSubtotal snap (items req))
                 (total req) (vatAmount req) = true ->
  placeOrderAt e u req snap s = (rolled_back e TotalMismatch, s).
Proof.
  intros X. pose proof lines_ok as L.
  enter. run. rewrite opened, valid. simpl. rewrite lookup. simpl.
  unfold run_statements. simpl. rewrite all_resolved. simpl.
  rewrite (check_stock_pass _ _ _ _ _ L).
  rewrite subtotal_catalog by assumption.
  unfold authoritativeSubtotal in X. rewrite X. simpl.
  now destruct (rejects e ROLLBACK).
Qed.

Hypothesis totals_agree :
  total_mismatch (authoritativeSubtotal snap (items req))
                 (total req) (vatAmount req) = false.

(** Every check passed: the transaction buffers its writes, one statement
    each, unless one of them throws. *)
Lemma transaction_writes :
  let w := order_writes e u req snap in
  if any_throw e 1 (List.length w)
  then exists c, transaction u req e (start snap s) = Throw c /\ live c = s
  else transaction u req e (start snap s)
       = Next (uuidv4 e (order_draw req))
              (mkConn s snap w (1 + List.length w)
                      (order_draw req + 1 + List.length (items req))).
Proof.
  pose proof lines_ok as L. intros w. subst w.
  rewrite (order_writes_length e u req snap L).
  enter. run. rewrite valid. simpl. rewrite lookup. simpl.
  unfold run_statements. simpl. rewrite all_resolved. simpl.
  rewrite (check_stock_pass _ _ _ _ _ L).
  rewrite subtotal_catalog by assumption.
  unfold authoritativeSubtotal in totals_agree. rewrite totals_agree.
  unfold create_address, order_writes, address_writes, order_row, order_draw,
    address_row.
  destruct (shippingAddress req) as [a|]; run.
  - rewrite !any_throw_S.
    destruct (throws e 1) eqn:T1; simpl; [eexists; split; reflexivity|].
    destruct (throws e 2) eqn:T2; simpl; [eexists; split; reflexivity|].
    match goal with |- context [create_items ?m ?o ?l e ?c] =>
      pose proof (create_items_run e m o l c L) as CI end.
    simpl in CI.
    match type of CI with if ?b then _ else _ => destruct b end.
    + destruct CI as (c' & -> & Hl). eexists. split; [reflexivity | exact Hl].
    + rewrite CI. reflexivity.
  - rewrite !any_throw_S.
    destruct (throws e 1) eqn:T1; simpl; [eexists; split; reflexivity|].
    match goal with |- context [create_items ?m ?o ?l e ?c] =>
      pose proof (create_items_run e m o l c L) as CI end.
    simpl in CI.
    match type of CI with if ?b then _ else _ => destruct b end.
    + destruct CI as (c' & -> & Hl). eexists. split; [reflexivity | exact Hl].
    + rewrite CI. reflexivity.
Qed.

End Placement.

Lemma select_orders_nonempty (f : order -> bool) (s : Store) (o : order) :
  In o (orders s) -> f o = true -> select_orders f s <> [].
Proof.
  intros Hin Hf. unfold select_orders.
  assert (In o (filter f (orders s))) as Hflt by (apply filter_In; auto).
  destruct (filter f (orders s)) as [|x l]; [contradiction|].
  simpl. destruct (filter (joins x) (addresses s)); discriminate.
Qed.

Lemma accepted_parts (snap : Store) (req : order_request) :
  accepted snap req = true ->
  isEmpty (validationResult req) = true
  /\ resolved snap req = true
  /\ forallb (in_stock snap) (items req) = true
  /\ total_mismatch (authoritativeSubtotal snap (items req))
                    (total req) (vatAmount req) = false.
Proof.
  unfold accepted. rewrite !andb_true_iff, negb_true_iff. tauto.
Qed.

(** The store returns the rows of a SELECT in some order: none is lost or
    added. *)
Lemma put_Permutation {A} (rank : A -> nat) (x : A) (l : list A) :
  Permutation (put rank x l) (x :: l).
Proof.
  induction l as [|y l IH]; simpl; [reflexivity|].
  destruct (rank x <=? rank y)%nat; [reflexivity|].
  rewrite IH. apply perm_swap.
Qed.

Lemma by_place_Permutation {A} (rank : A -> nat) (l : list A) :
  Permutation (by_place rank l) l.
Proof.
  induction l as [|x l IH]; simpl; [reflexivity|].
  rewrite put_Permutation. now constructor.
Qed.

(** Rows of one place come in the order of the table. *)
Lemma by_place_level {A} (rank : A -> nat) (l : list A) :
  (forall x y, In x l -> In y l -> rank x = rank y) -> by_place rank l = l.
Proof.
  induction l as [|x l IH]; intros H; simpl; [reflexivity|].
  rewrite IH by (intros a b Ha Hb; apply H; now right).
  destruct l as [|y l]; [reflexivity|]. simpl.
  rewrite (H x y) by (simpl; auto). now rewrite Nat.leb_refl.
Qed.

(** The order of the store looks at the ids of the rows only. *)
Lemma put_map {A B} (f : A -> B) (rank : B -> nat) (x : A) (l : list A) :
  put rank (f x) (map f l) = map f (put (fun a => rank (f a)) x l).
Proof.
  induction l as [|y l IH]; simpl; [reflexivity|].
  destruct (rank (f x) <=? rank (f y))%nat; simpl; [reflexivity|].
  now rewrite IH.
Qed.

Lemma by_place_map {A B} (f : A -> B) (rank : B -> nat) (l : list A) :
  by_place rank (map f l) = map f (by_place (fun a => rank (f a)) l).
Proof.
  induction l as [|x l IH]; simpl; [reflexivity|].
  now rewrite IH, put_map.
Qed.

(** An accepted request on a transaction that opens: the call ends in the
    [catch] block and leaves the store when a write or the commit throws;
    it commits the writes otherwise, and then answers 201 unless the
    read-back throws. *)
Lemma placeOrderAt_accepted (e : Env) (u : user) (req : order_request)
    (snap s : Store) :
  products_keyed snap -> accepted snap req = true ->
  rejects e BEGIN = false -> throws e 0 = false ->
  let w := order_writes e u req snap in
  let s' := run_statements w s in
  if any_throw e 1 (List.length w) || rejects e COMMIT
  then placeOrderAt e u req snap s = (caught e, s)
  else if any_throw e (1 + List.length w) 2
  then placeOrderAt e u req snap s = (caught e, s')
  else exists v, placeOrderAt e u req snap s = (Json 201 (OrderCreated v), s').
Proof.
  intros K A B T0 w s'.
  destruct (accepted_parts _ _ A) as (V & R & St & Mm).
  pose proof (transaction_writes e u req snap s V T0 R K St Mm) as TW.
  simpl in TW. fold w in TW.
  unfold placeOrderAt, handle_transaction, placeOrder_try.
  cbv beta iota delta [bind beginTransaction]. rewrite B.
  change (mkConn (live (start snap s)) (snapshot (start snap s)) []
                 (executed (start snap s)) (drawn (start snap s)))
    with (start snap s).
  destruct (any_throw e 1 (List.length w)).
  - destruct TW as (c & -> & Hc). simpl. now rewrite Hc.
  - rewrite TW. simpl. unfold commit.
    destruct (rejects e COMMIT); [reflexivity|].
    unfold read_back. run. fold s'.
    rewrite any_throw_S, any_throw_S. simpl. rewrite orb_false_r.
    destruct (throws e (S (List.length w))); simpl; [reflexivity|].
    destruct (throws e (S (S (List.length w)))); simpl; [reflexivity|].
    destruct (select_orders _ s') as [|row rows] eqn:Sel.
    + exfalso. revert Sel. apply select_orders_nonempty with (o := order_row e u req).
      * unfold s'. rewrite orders_run_statements.
        unfold w. rewrite headers_of_order_writes.
        apply in_or_app. right. now left.
      * simpl. apply String.eqb_refl.
    + eexists. reflexivity.
Qed.

(* ================================================================== *)
(** ** Nothing reaches the committed store before the commit *)

Lemma keeps_live_bind {A B} (m : M A) (k : A -> M B) :
  keeps_live m -> (forall a, keeps_live (k a)) -> keeps_live (bind m k).
Proof.
  intros Hm Hk e c. unfold bind. specialize (Hm e c).
  destruct (m e c) as [a c'| |]; try assumption.
  specialize (Hk a e c'). destruct (k a e c'); congruence.
Qed.

Lemma keeps_live_ret {A} (a : A) : keeps_live (ret a).
Proof. intros e c. reflexivity. Qed.

Lemma keeps_live_respond {A} (r : Response) : keeps_live (@respond A r).
Proof. intros e c. reflexivity. Qed.

Lemma keeps_live_throw {A} : keeps_live (@throw A).
Proof. intros e c. reflexivity. Qed.

Lemma keeps_live_rollback : keeps_live rollback.
Proof. intros e c. unfold rollback. now destruct (rejects e ROLLBACK). Qed.

Lemma keeps_live_uuid : keeps_live uuid.
Proof. intros e c. reflexivity. Qed.

Lemma keeps_live_send : keeps_live send.
Proof. intros e c. unfold send. now destruct (throws e (executed c)). Qed.

Lemma keeps_live_query {A} (f : Store -> A) : keeps_live (query f).
Proof.
  unfold query. apply keeps_live_bind; [apply keeps_live_send|].
  intros _ e c. reflexivity.
Qed.

Lemma keeps_live_execute (st : statement) : keeps_live (execute st).
Proof.
  unfold execute. apply keeps_live_bind; [apply keeps_live_send|].
  intros _ e c. reflexivity.
Qed.

#[local] Hint Resolve keeps_live_ret keeps_live_respond keeps_live_throw
  keeps_live_rollback keeps_live_uuid keeps_live_query keeps_live_execute
  : live.

Lemma keeps_live_check_stock (m : string -> option product_row)
    (its : list item) (acc : number) :
  keeps_live (check_stock m its acc).
Proof.
  revert acc. induction its as [|it its IH]; intros acc; simpl.
  - auto with live.
  - destruct (m (productId it)) as [row|]; [|auto with live].
    destruct (r_stock row <? quantity it)%Z; [|apply IH].
    apply keeps_live_bind; auto with live.
Qed.

Lemma keeps_live_create_items (m : string -> option product_row)
    (oid : string) (its : list item) :
  keeps_live (create_items m oid its).
Proof.
  induction its as [|it its IH]; simpl.
  - auto with live.
  - destruct (m (productId it)) as [row|]; [|auto with live].
    repeat (apply keeps_live_bind; [auto with live | intros ?]). exact IH.
Qed.

Lemma keeps_live_create_address (uid : string) (a : option shipping_address) :
  keeps_live (create_address uid a).
Proof.
  destruct a; simpl; [|auto with live].
  repeat (apply keeps_live_bind; [auto with live | intros ?]). auto with live.
Qed.

Lemma keeps_live_transaction (u : user) (req : order_request) :
  keeps_live (transaction u req).
Proof.
  unfold transaction.
  destruct (negb (isEmpty (validationResult req)));
    [apply keeps_live_bind; auto with live|].
  apply keeps_live_bind; [auto with live | intros rows].
  destruct (negb _); [apply keeps_live_bind; auto with live|].
  apply keeps_live_bind; [apply keeps_live_check_stock | intros t].
  destruct (total_mismatch _ _ _); [apply keeps_live_bind; auto with live|].
  apply keeps_live_bind; [apply keeps_live_create_address | intros aid].
  apply keeps_live_bind; [auto with live | intros oid].
  apply keeps_live_bind; [auto with live | intros _].
  apply keeps_live_bind; [apply keeps_live_create_items | intros _].
  auto with live.
Qed.

Lemma status_caught (e : Env) :
  status (caught e) <> 201 /\ status (caught e) <> 400.
Proof. unfold caught. destruct (rejects e ROLLBACK_IN_CATCH); now split. Qed.

(** Every exit of the handler before the commit leaves the store as it
    was: the four rejections answered with status 400, and every statement
    of the transaction that throws.  Only a call that committed can leave
    another store, and it answers 201, or ends in the [catch] block when the
    read-back throws. *)
Lemma placeOrderAt_before_commit (e : Env) (u : user) (req : order_request)
    (snap s : Store) :
  rejects e BEGIN = false ->
  match transaction u req e (start snap s) with
  | Next _ _ =>
      status (fst (placeOrderAt e u req snap s)) = 201
      \/ fst (placeOrderAt e u req snap s) = caught e
  | Return r _ => placeOrderAt e u req snap s = (r, s)
  | Throw _ => placeOrderAt e u req snap s = (caught e, s)
  end.
Proof.
  intros B.
  pose proof (keeps_live_transaction u req e (start snap s)) as L.
  unfold placeOrderAt, handle_transaction, placeOrder_try.
  cbv beta iota delta [bind beginTransaction]. rewrite B.
  change (mkConn (live (start snap s)) (snapshot (start snap s)) []
                 (executed (start snap s)) (drawn (start snap s)))
    with (start snap s).
  destruct (transaction u req e (start snap s)) as [oid c|r c|c]; simpl in *.
  - unfold commit. destruct (rejects e COMMIT); [now right|].
    unfold read_back. run.
    destruct (throws e (executed c)); simpl; [now right|].
    destruct (throws e (S (executed c))); simpl; [now right|].
    destruct (select_orders _ _); simpl; [now right | now left].
  - now rewrite L.
  - now rewrite L.
Qed.

(** A call answered with status 400 changed nothing. *)
Lemma placeOrderAt_400_noop (e : Env) (u : user) (req : order_request)
    (snap s : Store) :
  status (fst (placeOrderAt e u req snap s)) = 400 ->
  snd (placeOrderAt e u req snap s) = s.
Proof.
  intros H. destruct (rejects e BEGIN) eqn:B.
  { now rewrite placeOrderAt_unopened. }
  pose proof (placeOrderAt_before_commit e u req snap s B) as P.
  destruct (transaction u req e (start snap s)).
  - destruct P as [P|P]; rewrite P in H; [discriminate|].
    now apply status_caught in H.
  - now rewrite P.
  - now rewrite P.
Qed.

(* ================================================================== *)
(** ** Stock *)

Lemma keyed_products_keyed (s : Store) : keyed s = true <-> products_keyed s.
Proof. apply distinct_NoDup. Qed.

Lemma stock_nonneg_In (s : Store) :
  stock_nonneg s = true <-> forall p, In p (products s) -> (0 <= p_stock p)%Z.
Proof.
  unfold stock_nonneg. rewrite forallb_forall. split; intros H p Hp.
  - apply Z.leb_le. now apply H.
  - apply Z.leb_le. now apply H.
Qed.

Lemma in_update_where_id (id : string) (f : product -> product)
    (ps : list product) (p' : product) :
  In p' (update_where_id id f ps) ->
  exists p, In p ps
    /\ p' = if String.eqb (p_id p) id then f p else p.
Proof.
  unfold update_where_id. rewrite in_map_iff.
  intros (p & E & Hp). exists p. auto.
Qed.

(** Lines of distinct products, each within the stock of its product, leave
    no stock negative. *)
Lemma decremented_nonneg (its : list item) (ps : list product) :
  NoDup (map productId its) ->
  (forall it p, In it its -> In p ps -> p_id p = productId it ->
                (quantity it <= p_stock p)%Z) ->
  (forall p, In p ps -> (0 <= p_stock p)%Z) ->
  forall p, In p (decremented its ps) -> (0 <= p_stock p)%Z.
Proof.
  revert ps. induction its as [|it its IH]; intros ps ND B N; [exact N|].
  inversion ND as [|? ? Hit ND']; subst. unfold decremented in *. simpl.
  apply IH; [exact ND' | |].
  - intros x p' Hx Hp' E.
    apply in_update_where_id in Hp' as (p & Hp & ->).
    destruct (String.eqb (p_id p) (productId it)) eqn:Q.
    + exfalso. apply String.eqb_eq in Q. simpl in E.
      apply Hit. rewrite <- Q, E. now apply in_map.
    + apply (B x p); auto. now right.
  - intros p' Hp'. apply in_update_where_id in Hp' as (p & Hp & ->).
    destruct (String.eqb (p_id p) (productId it)) eqn:Q.
    + apply String.eqb_eq in Q. simpl.
      pose proof (B it p (or_introl eq_refl) Hp Q). lia.
    + now apply N.
Qed.

Lemma in_stock_bound (s : Store) (it : item) (p : product) :
  products_keyed s -> in_stock s it = true ->
  In p (products s) -> p_id p = productId it ->
  (quantity it <= p_stock p)%Z.
Proof.
  intros K I Hp E. unfold in_stock in I.
  destruct (catalog s (productId it)) as [q|] eqn:C; [|discriminate].
  apply catalog_Some in C as [Hq Eq].
  assert (q = p) as -> by (apply (keyed_rows_equal p_id (products s)); auto;
                           congruence).
  apply negb_true_iff, Z.ltb_ge in I. exact I.
Qed.

Lemma status_rolled_back (e : Env) (r : Response) :
  status r <> 201 -> status (rolled_back e r) <> 201.
Proof.
  intros H. unfold rolled_back. destruct (rejects e ROLLBACK); [|exact H].
  apply status_caught.
Qed.

(** The call, classified: it leaves the store as it was and does not answer
    201, or the request was accepted and its writes are committed. *)
Lemma placeOrderAt_cases (e : Env) (u : user) (req : order_request)
    (snap s : Store) :
  products_keyed snap ->
  (status (fst (placeOrderAt e u req snap s)) <> 201
   /\ snd (placeOrderAt e u req snap s) = s)
  \/ (accepted snap req = true
      /\ rejects e BEGIN = false
      /\ throws e 0 = false
      /\ any_throw e 1 (List.length (order_writes e u req snap)) = false
      /\ rejects e COMMIT = false
      /\ snd (placeOrderAt e u req snap s)
         = run_statements (order_writes e u req snap) s).
Proof.
  intros K.
  destruct (rejects e BEGIN) eqn:B;
    [left; rewrite placeOrderAt_unopened by assumption; split;
      [apply status_caught | reflexivity]|].
  destruct (isEmpty (validationResult req)) eqn:V;
    [|left; rewrite placeOrderAt_invalid by assumption; split;
      [now apply status_rolled_back | reflexivity]].
  destruct (throws e 0) eqn:T0;
    [left; rewrite placeOrderAt_lookup_throws by assumption; split;
      [apply status_caught | reflexivity]|].
  destruct (resolved snap req) eqn:R;
    [|left; rewrite placeOrderAt_unresolved by assumption; split;
      [now apply status_rolled_back | reflexivity]].
  destruct (forallb (in_stock snap) (items req)) eqn:St.
  2:{ left.
      destruct (placeOrderAt_insufficient e u req snap s B V T0 R K St)
        as (? & ? & ? & ? & _ & _ & _ & _ & ->).
      split; [now apply status_rolled_back | reflexivity]. }
  destruct (total_mismatch (authoritativeSubtotal snap (items req))
              (total req) (vatAmount req)) eqn:Mm;
    [left; rewrite placeOrderAt_mismatch by assumption; split;
      [now apply status_rolled_back | reflexivity]|].
  assert (accepted snap req = true) as A
    by (unfold accepted; now rewrite V, R, St, Mm).
  pose proof (placeOrderAt_accepted e u req snap s K A B T0) as P.
  simpl in P.
  destruct (any_throw e 1 _);
    [left; rewrite P; split; [apply status_caught | reflexivity]|].
  destruct (rejects e COMMIT);
    [left; rewrite P; split; [apply status_caught | reflexivity]|].
  simpl in P.
  destruct (any_throw e _ 2).
  - right. repeat split; [exact A | now rewrite P].
  - right. destruct P as [v ->]. repeat split; exact A.
Qed.

(** One placement, run alone on a keyed store without negative stock,
    leaves such a store. *)
Lemma placeOrder_keeps_stock_nonneg (e : Env) (u : user)
    (req : order_request) (s : Store) :
  keyed s = true -> stock_nonneg s = true ->
  keyed (snd (placeOrder e u req s)) = true
  /\ stock_nonneg (snd (placeOrder e u req s)) = true.
Proof.
  intros Kb N. pose proof (proj1 (keyed_products_keyed s) Kb) as K.
  unfold placeOrder.
  destruct (placeOrderAt_cases e u req s s K)
    as [[_ ->]|(A & _ & _ & _ & _ & ->)]; [now split|].
  destruct (accepted_parts _ _ A) as (V & R & St & Mm).
  split.
  - unfold keyed. now rewrite product_ids_run_statements.
  - apply stock_nonneg_In. intros p Hp.
    rewrite products_order_writes in Hp
      by (apply lines_ok; assumption).
    revert p Hp. apply decremented_nonneg.
    + apply (resolved_distinct req s R K).
    + intros it p Hit Hp E. apply (in_stock_bound s it p K); auto.
      rewrite forallb_forall in St. now apply St.
    + now apply stock_nonneg_In.
Qed.
(* ================================================================== *)
(** ** The order header that a placement persists *)

Lemma commits_parts (e : Env) (u : user) (req : order_request) (s : Store) :
  commits e u req s = true ->
  rejects e BEGIN = false
  /\ throws e 0 = false
  /\ any_throw e 1 (List.length (order_writes e u req s)) = false
  /\ rejects e COMMIT = false.
Proof.
  unfold commits. rewrite any_throw_S, !andb_true_iff, !negb_true_iff.
  rewrite orb_false_iff. tauto.
Qed.

(** An accepted placement that commits leaves the store of its writes. *)
Lemma placeOrder_committed (e : Env) (u : user) (req : order_request)
    (s : Store) :
  keyed s = true -> accepted s req = true -> commits e u req s = true ->
  snd (placeOrder e u req s) = run_statements (order_writes e u req s) s
  /\ (any_throw e (S (List.length (order_writes e u req s))) 2 = false ->
      exists v, fst (placeOrder e u req s) = Json 201 (OrderCreated v)).
Proof.
  intros Kb A C. apply keyed_products_keyed in Kb.
  apply commits_parts in C as (B & T0 & Tw & Cm).
  pose proof (placeOrderAt_accepted e u req s s Kb A B T0) as P.
  simpl in P. rewrite Tw, Cm in P. simpl in P. unfold placeOrder.
  destruct (any_throw e (S _) 2).
  - rewrite P. split; [reflexivity | discriminate].
  - destruct P as [v ->]. split; [reflexivity|]. intros _. now exists v.
Qed.

(** C1, as amended: a request that passes validation, product
    resolution, the stock checks and the comparison of the totals, with
    claimed figures that fit the twelve digits of their columns, on a
    transaction that opens, whose statements do not throw and whose commit
    runs, adds one order header; that header carries the total and the VAT
    amount that the client claimed, each taken to two decimal places by its
    column, and the status pending; each claimed figure is within the
    tolerance of 0.01 of the figure recomputed from the catalog; and the
    call is answered 201 when the read-back does not throw. *)
Theorem placeOrder_persists_claimed_total (e : Env) (u : user)
    (req : order_request) (s : Store) :
  keyed s = true ->
  accepted s req = true ->
  fits_DECIMAL_12_2 (total req) = true ->
  fits_DECIMAL_12_2 (vatAmount req) = true ->
  commits e u req s = true ->
  (exists o,
     orders (snd (placeOrder e u req s)) = orders s ++ [o]
     /\ o_total o = DECIMAL_12_2 (total req)
     /\ o_vat_amount o = DECIMAL_12_2 (vatAmount req)
     /\ o_status o = pending)
  /\ JS.gt (JS.Math_abs (authoritativeTotal s (items req) - total req)%float)
           TOLERANCE = false
  /\ JS.gt (JS.Math_abs (authoritativeVat s (items req) - vatAmount req)%float)
           TOLERANCE = false
  /\ (any_throw e (S (List.length (order_writes e u req s))) 2 = false ->
      status (fst (placeOrder e u req s)) = 201).
Proof.
  intros Kb A _ _ C.
  destruct (placeOrder_committed e u req s Kb A C) as [S' R].
  split; [|split; [|split]].
  - exists (order_row e u req).
    rewrite S', orders_run_statements, headers_of_order_writes.
    repeat split.
  - destruct (accepted_parts _ _ A) as (_ & _ & _ & Mm).
    unfold total_mismatch in Mm. now apply orb_false_iff in Mm as [Mt _].
  - destruct (accepted_parts _ _ A) as (_ & _ & _ & Mm).
    unfold total_mismatch in Mm. now apply orb_false_iff in Mm as [_ Mv].
  - intros T. destruct (R T) as [v ->]. reflexivity.
Qed.

(** The scenario of the specification: two headphones at 100000, ten in
    stock, 236000 and 36000 claimed. *)
Lemma placeOrder_persists_claimed_total_witness :
  keyed (Shop.shop 10 5) = true
  /\ accepted (Shop.shop 10 5) Shop.two_headphones = true
  /\ commits (Shop.calm 0) Shop.alice Shop.two_headphones (Shop.shop 10 5)
     = true
  /\ exists o,
       orders (snd (placeOrder (Shop.calm 0) Shop.alice Shop.two_headphones
                               (Shop.shop 10 5))) = [o]
       /\ o_total o = 23600000%Z
       /\ o_vat_amount o = 3600000%Z.
Proof.
  assert (keyed (Shop.shop 10 5) = true) as K by reflexivity.
  assert (accepted (Shop.shop 10 5) Shop.two_headphones = true) as A
    by (vm_compute; reflexivity).
  assert (commits (Shop.calm 0) Shop.alice Shop.two_headphones
                  (Shop.shop 10 5) = true) as C
    by (vm_compute; reflexivity).
  split; [exact K|]. split; [exact A|]. split; [exact C|].
  destruct (placeOrder_persists_claimed_total (Shop.calm 0) Shop.alice
              Shop.two_headphones (Shop.shop 10 5) K A eq_refl eq_refl C)
    as ((o & Ho & Ht & Hv & _) & _).
  exists o. split; [exact Ho|]. split.
  - rewrite Ht. vm_compute. reflexivity.
  - rewrite Hv. vm_compute. reflexivity.
Defined.

(** C1, as stated, fails: two headphones at 100000 make 236000 with 36000
    of VAT; a client that claims 236000.009 and 36000.009 is accepted, and
    the header persisted carries the claimed figures taken to two places,
    236000.01 and 36000.01, not the recomputed ones, taken to two places or
    not. *)
Lemma placeOrder_persists_total_not_authoritative :
  let req := Shop.cart [mkItem Shop.P1 2] 236000.009%float 36000.009%float in
  let s := Shop.shop 10 5 in
  accepted s req = true
  /\ authoritativeTotal s (items req) = 236000%float
  /\ authoritativeVat s (items req) = 36000%float
  /\ exists o,
       orders (snd (placeOrder (Shop.calm 0) Shop.alice req s)) = [o]
       /\ o_total o = 23600001%Z
       /\ o_vat_amount o = 3600001%Z
       /\ o_total o <> DECIMAL_12_2 (authoritativeTotal s (items req))
       /\ o_vat_amount o <> DECIMAL_12_2 (authoritativeVat s (items req))
       /\ PrimFloat.eqb (parseFloat (o_total o))
                        (authoritativeTotal s (items req)) = false
       /\ PrimFloat.eqb (parseFloat (o_vat_amount o))
                        (authoritativeVat s (items req)) = false.
Proof.
  cbv zeta. split; [vm_compute; reflexivity|].
  split; [vm_compute; reflexivity|]. split; [vm_compute; reflexivity|].
  eexists. split; [vm_compute; reflexivity|]. simpl.
  split; [reflexivity|]. split; [reflexivity|].
  split; [vm_compute; discriminate|]. split; [vm_compute; discriminate|].
  split; vm_compute; reflexivity.
Qed.

(* ================================================================== *)
(** ** Rejections and the store *)

(** C2, at its failing input: the request is accepted and committed, the
    first SELECT of the read-back (the fifth statement of the call) throws,
    and the call is answered 500 while the order, its line and the stock
    decrement stay in the store. *)
Theorem placeOrder_fails_after_commit :
  let s := Shop.shop 10 5 in
  let after := placeOrder (Shop.failing 4) Shop.alice Shop.two_headphones s in
  fst after = PersistenceFailure
  /\ rejection_kind (fst after) = Some RPersistenceFailure
  /\ snd after
     = snd (placeOrder (Shop.calm 0) Shop.alice Shop.two_headphones s)
  /\ List.length (orders (snd after)) = 1
  /\ List.length (order_items (snd after)) = 1
  /\ option_map p_stock (catalog (snd after) Shop.P1) = Some 8%Z
  /\ snd after <> s.
Proof.
  cbv zeta. repeat split; try (vm_compute; reflexivity).
  intros H. apply (f_equal (fun x => List.length (orders x))) in H.
  vm_compute in H. discriminate.
Qed.

(* ================================================================== *)
(** ** Stock below zero *)

(** C3, at its failing input: one headphone in stock and two placements
    of one headphone.  Run one after the other, the second is refused for
    insufficient stock and the stock stays at 0.  When the second reads the
    stock before the first commits, both pass the stock check, both are
    answered 201, and the second commit takes the stock to -1: the stock
    check reads the stock at the lookup, and nothing checks it again at
    commit time. *)
Theorem stock_negative_after_overlapping_placements :
  let s0 := Shop.shop 1 5 in
  let first := placeOrder (Shop.calm 0) Shop.alice Shop.one_headphone s0 in
  let s1 := snd first in
  let in_turn := placeOrder (Shop.calm 1) Shop.bob Shop.one_headphone s1 in
  let second := placeOrderAt (Shop.calm 1) Shop.bob Shop.one_headphone s0 s1 in
  keyed s0 = true
  /\ stock_nonneg s0 = true
  /\ status (fst first) = 201
  /\ option_map p_stock (catalog s1 Shop.P1) = Some 0%Z
  /\ rejection_kind (fst in_turn) = Some RInsufficientStock
  /\ snd in_turn = s1
  /\ status (fst second) = 201
  /\ rejection_kind (fst second) = None
  /\ List.length (orders (snd second)) = 2
  /\ option_map p_stock (catalog (snd second) Shop.P1) = Some (-1)%Z
  /\ stock_nonneg (snd second) = false.
Proof.
  cbv zeta. repeat split; vm_compute; reflexivity.
Qed.

(* ================================================================== *)
(** ** The comparison of the totals *)

(** The [catch] block answers none of the rejections with status 400. *)
Lemma caught_no_rejection (e : Env) (errors : list validation_error)
    (msg : string) :
  caught e <> Json 400 (Errors errors) /\ caught e <> Json 400 (Error msg).
Proof. unfold caught. destruct (rejects e ROLLBACK_IN_CATCH); now split. Qed.

Ltac not_caught H :=
  simpl in H; exfalso;
  first [ exact (proj2 (caught_no_rejection _ nil _) H)
        | exact (proj1 (caught_no_rejection _ _ EmptyString) H) ].



(* ================================================================== *)
(** ** The stock check *)

Lemma rejection_kind_InsufficientStock (name : string) :
  rejection_kind (InsufficientStock name) = Some RInsufficientStock.
Proof. destruct name; reflexivity. Qed.

(** C5, as amended: a valid request on a transaction that opens and
    whose rollback runs, whose lookup runs and resolves every entry, and in
    which some line asks more than the stock read in the lookup, is
    answered with the insufficient stock of the product of the first such
    line, by its name, and the store, with the stock of that product, is as
    it was. *)
Theorem placeOrder_insufficient_stock (e : Env) (u : user)
    (req : order_request) (s : Store) :
  keyed s = true ->
  isEmpty (validationResult req) = true ->
  rejects e BEGIN = false ->
  rejects e ROLLBACK = false ->
  throws e 0 = false ->
  resolved s req = true ->
  forallb (in_stock s) (items req) = false ->
  exists pre it post p,
    items req = pre ++ it :: post
    /\ forallb (in_stock s) pre = true
    /\ catalog s (productId it) = Some p
    /\ (p_stock p < quantity it)%Z
    /\ placeOrder e u req s = (InsufficientStock (p_name p), s)
    /\ rejection_kind (fst (placeOrder e u req s)) = Some RInsufficientStock
    /\ catalog (snd (placeOrder e u req s)) (productId it) = Some p.
Proof.
  intros Kb V B Rb T0 R St. apply keyed_products_keyed in Kb.
  destruct (placeOrderAt_insufficient e u req s s B V T0 R Kb St)
    as (pre & it & post & p & E & Hpre & C & Low & P).
  unfold rolled_back in P. rewrite Rb in P.
  exists pre, it, post, p. unfold placeOrder. rewrite P. simpl.
  split; [exact E|]. split; [exact Hpre|].
  split; [exact C|]. split; [exact Low|]. split; [reflexivity|].
  split; [apply rejection_kind_InsufficientStock | exact C].
Qed.

(** The scenario of the specification: two headphones asked, one in
    stock. *)
Lemma placeOrder_insufficient_stock_witness :
  keyed (Shop.shop 1 5) = true
  /\ isEmpty (validationResult Shop.two_headphones) = true
  /\ resolved (Shop.shop 1 5) Shop.two_headphones = true
  /\ forallb (in_stock (Shop.shop 1 5)) (items Shop.two_headphones) = false
  /\ exists pre it post p,
       items Shop.two_headphones = pre ++ it :: post
       /\ forallb (in_stock (Shop.shop 1 5)) pre = true
       /\ catalog (Shop.shop 1 5) (productId it) = Some p
       /\ (p_stock p < quantity it)%Z
       /\ placeOrder (Shop.calm 0) Shop.alice Shop.two_headphones (Shop.shop 1 5)
          = (InsufficientStock (p_name p), Shop.shop 1 5)
       /\ rejection_kind
            (fst (placeOrder (Shop.calm 0) Shop.alice Shop.two_headphones
                             (Shop.shop 1 5)))
          = Some RInsufficientStock
       /\ catalog
            (snd (placeOrder (Shop.calm 0) Shop.alice Shop.two_headphones
                             (Shop.shop 1 5)))
            (productId it) = Some p.
Proof.
  repeat (split; [reflexivity|]).
  apply (placeOrder_insufficient_stock (Shop.calm 0) Shop.alice
           Shop.two_headphones (Shop.shop 1 5)); reflexivity.
Defined.

(** C5, as stated, fails: the request is valid, its first line asks five
    headphones of a stock of one, and its second line names a product that
    the catalog does not have; the call is answered with the product not
    found, not with the insufficient stock. *)
Lemma placeOrder_overstock_answered_not_found :
  let req := Shop.cart [mkItem Shop.P1 5; mkItem Shop.P9 1]
                       590000%float 90000%float in
  let s := Shop.shop 1 5 in
  isEmpty (validationResult req) = true
  /\ option_map p_stock (catalog s Shop.P1) = Some 1%Z
  /\ in_stock s (mkItem Shop.P1 5) = false
  /\ fst (placeOrder (Shop.calm 0) Shop.alice req s) = ProductNotFound
  /\ rejection_kind (fst (placeOrder (Shop.calm 0) Shop.alice req s))
     <> Some RInsufficientStock.
Proof.
  cbv zeta. repeat split; try (vm_compute; reflexivity).
  vm_compute. discriminate.
Qed.

(* ================================================================== *)
(** ** Product resolution *)

Lemma all_in_catalog_incl (s : Store) (req : order_request) :
  all_in_catalog s req = true
  <-> incl (requested req) (map p_id (products s)).
Proof.
  unfold all_in_catalog. rewrite forallb_forall. split.
  - intros H id Hid. apply existsb_eqb_In. now apply H.
  - intros H id Hid. apply existsb_eqb_In. now apply H.
Qed.

(** The test of the handler: every requested id in the catalog and none
    requested twice. *)
Lemma resolved_iff (s : Store) (req : order_request) :
  products_keyed s ->
  resolved s req = true
  <-> distinct (requested req) = true /\ all_in_catalog s req = true.
Proof.
  intros K. unfold resolved. rewrite Nat.eqb_eq.
  rewrite <- (length_map productId (items req)).
  fold (requested req).
  rewrite (lookup_length (requested req) s K).
  now rewrite distinct_NoDup, all_in_catalog_incl.
Qed.

(** C6, as amended: a valid request on a transaction that opens and
    whose rollback runs, and whose lookup runs, is answered with the product
    not found exactly when the lookup returns a number of rows other than
    the number of entries of the request, that is, exactly when some
    requested id is absent from the catalog or some id is requested in more
    than one entry. *)
Theorem placeOrder_product_not_found_iff (e : Env) (u : user)
    (req : order_request) (s : Store) :
  keyed s = true ->
  isEmpty (validationResult req) = true ->
  rejects e BEGIN = false ->
  rejects e ROLLBACK = false ->
  throws e 0 = false ->
  (fst (placeOrder e u req s) = ProductNotFound <->
   List.length (select_products_in (requested req) s)
   <> List.length (items req))
  /\ (List.length (select_products_in (requested req) s)
      <> List.length (items req) <->
      all_in_catalog s req = false \/ distinct (requested req) = false).
Proof.
  intros Kb V B Rb T0. apply keyed_products_keyed in Kb.
  assert (forall r, rolled_back e r = r) as RB
    by (intros r; unfold rolled_back; now rewrite Rb).
  assert (List.length (select_products_in (requested req) s)
          <> List.length (items req) <-> resolved s req = false) as RL.
  { unfold resolved. now rewrite Nat.eqb_neq. }
  split.
  - rewrite RL. unfold placeOrder. split.
    + intros H. destruct (resolved s req) eqn:R; [exfalso|reflexivity].
      destruct (forallb (in_stock s) (items req)) eqn:St.
      * destruct (total_mismatch (authoritativeSubtotal s (items req))
                    (total req) (vatAmount req)) eqn:Mm.
        { rewrite placeOrderAt_mismatch, RB in H by assumption.
          discriminate. }
        assert (accepted s req = true) as A
          by (unfold accepted; now rewrite V, R, St, Mm).
        pose proof (placeOrderAt_accepted e u req s s Kb A B T0) as P.
        simpl in P.
        destruct (any_throw e 1 _ || rejects e COMMIT);
          [rewrite P in H; not_caught H|].
        destruct (any_throw e _ 2);
          [rewrite P in H; not_caught H|].
        destruct P as [v P]. rewrite P in H. discriminate.
      * destruct (placeOrderAt_insufficient e u req s s B V T0 R Kb St)
          as (? & ? & ? & p & _ & _ & _ & _ & P).
        rewrite P, RB in H. simpl in H. injection H as H.
        destruct (p_name p); discriminate.
    + intros R. now rewrite placeOrderAt_unresolved, RB.
  - rewrite RL. pose proof (resolved_iff s req Kb) as RI.
    destruct (resolved s req), (all_in_catalog s req),
      (distinct (requested req)); intuition congruence.
Qed.

(** The scenario of the specification: an id that the catalog does not
    have. *)
Lemma placeOrder_product_not_found_iff_witness :
  let req := Shop.cart [mkItem Shop.P9 2] 236000%float 36000%float in
  keyed (Shop.shop 10 5) = true
  /\ isEmpty (validationResult req) = true
  /\ all_in_catalog (Shop.shop 10 5) req = false
  /\ fst (placeOrder (Shop.calm 0) Shop.alice req (Shop.shop 10 5))
     = ProductNotFound.
Proof.
  cbv zeta. do 3 (split; [reflexivity|]).
  pose proof (placeOrder_product_not_found_iff (Shop.calm 0) Shop.alice
                (Shop.cart [mkItem Shop.P9 2] 236000%float 36000%float)
                (Shop.shop 10 5) eq_refl eq_refl eq_refl eq_refl eq_refl)
    as [H1 H2].
  apply H1, H2. left. reflexivity.
Defined.

(** C6, as stated, fails: the request names the same product, which the
    catalog has, in two entries; one distinct product is resolved for one
    distinct id requested, and yet the call is answered with the product
    not found. *)
Lemma placeOrder_not_found_with_every_product_found :
  let req := Shop.cart [mkItem Shop.P1 1; mkItem Shop.P1 1]
                       236000%float 36000%float in
  let s := Shop.shop 10 5 in
  ~ (fst (placeOrder (Shop.calm 0) Shop.alice req s) = ProductNotFound
     <-> distinct_resolved s req < distinct_requested req).
Proof.
  cbv zeta. intros [H _].
  assert (1 < 1) as F; [|lia].
  apply H. vm_compute. reflexivity.
Qed.
(* ================================================================== *)
(** ** One product in several entries *)

(** C7, as amended: a valid request in which some product id occurs in
    more than one entry writes nothing and is never answered 201: it is
    answered with the product not found when the transaction opens, the
    lookup runs and the rollback runs, and it ends in the [catch] block
    (answer 500, or no answer when the rollback there throws) when one of
    the three throws.  Entries are never merged: a call answered 201 had
    entries of distinct products, and added one order line per entry, in the
    order of the request, with its product, its quantity and the unit price
    of the catalog. *)
Theorem placeOrder_repeated_product (e : Env) (u : user)
    (req : order_request) (s : Store) :
  keyed s = true ->
  isEmpty (validationResult req) = true ->
  (distinct (requested req) = false ->
   snd (placeOrder e u req s) = s
   /\ status (fst (placeOrder e u req s)) <> 201
   /\ (rejects e BEGIN = false -> throws e 0 = false ->
       rejects e ROLLBACK = false ->
       fst (placeOrder e u req s) = ProductNotFound)
   /\ (rejects e BEGIN = true \/ throws e 0 = true
       \/ rejects e ROLLBACK = true ->
       fst (placeOrder e u req s) = caught e))
  /\ (status (fst (placeOrder e u req s)) = 201 ->
      distinct (requested req) = true
      /\ exists lines,
           order_items (snd (placeOrder e u req s)) = order_items s ++ lines
           /\ map (fun i => (oi_product_id i, oi_quantity i, oi_price i)) lines
              = map (fun it => (productId it, quantity it,
                                unit_price s (productId it)))
                    (items req)).
Proof.
  intros Kb V. apply keyed_products_keyed in Kb. split.
  - intros D. unfold placeOrder.
    assert (resolved s req = false) as R.
    { destruct (resolved s req) eqn:R; [|reflexivity].
      apply (resolved_iff s req Kb) in R as [D' _]. congruence. }
    destruct (rejects e BEGIN) eqn:B.
    { rewrite placeOrderAt_unopened by assumption. simpl.
      split; [reflexivity|]. split; [apply status_caught|].
      split; [discriminate | reflexivity]. }
    destruct (throws e 0) eqn:T0.
    { rewrite placeOrderAt_lookup_throws by assumption. simpl.
      split; [reflexivity|]. split; [apply status_caught|].
      split; [discriminate | reflexivity]. }
    rewrite placeOrderAt_unresolved by assumption. simpl.
    split; [reflexivity|]. split; [now apply status_rolled_back|].
    unfold rolled_back. split.
    + intros _ _ ->. reflexivity.
    + intros [H|[H|H]]; [discriminate | discriminate | now rewrite H].
  - intros H. unfold placeOrder in *.
    destruct (placeOrderAt_cases e u req s s Kb)
      as [[N _]|(A & _ & _ & _ & _ & S')]; [contradiction|].
    destruct (accepted_parts _ _ A) as (_ & R & St & _).
    split; [now apply (resolved_iff s req Kb) in R|].
    rewrite S', order_items_run_statements, lines_of_order_writes.
    eexists. split; [reflexivity|].
    pose proof (lines_ok req s Kb St) as L.
    pose proof (lines_of_item_writes e _ (uuidv4 e (order_draw req))
                  (items req) (S (order_draw req)) L) as LW.
    apply (f_equal (map (fun q : string * string * Z * decimal =>
                           let '(_, p, n, x) := q in (p, n, x)))) in LW.
    rewrite !map_map in LW. simpl in LW.
    etransitivity; [exact LW|].
    apply map_ext_in. intros it Hit. f_equal.
    apply decimal_in_catalog; [exact Kb|]. now apply in_map.
Qed.

(** Headphones asked in two entries, of two and of three. *)
Lemma placeOrder_repeated_product_witness :
  let req := Shop.cart [mkItem Shop.P1 2; mkItem Shop.P1 3]
                       590000%float 90000%float in
  keyed (Shop.shop 10 5) = true
  /\ isEmpty (validationResult req) = true
  /\ distinct (requested req) = false
  /\ placeOrder (Shop.calm 0) Shop.alice req (Shop.shop 10 5)
     = (ProductNotFound, Shop.shop 10 5)
  /\ placeOrder (Shop.rejecting ROLLBACK) Shop.alice req (Shop.shop 10 5)
     = (PersistenceFailure, Shop.shop 10 5).
Proof.
  cbv zeta. do 3 (split; [reflexivity|]).
  destruct (proj1 (placeOrder_repeated_product (Shop.calm 0) Shop.alice
                     (Shop.cart [mkItem Shop.P1 2; mkItem Shop.P1 3]
                                590000%float 90000%float)
                     (Shop.shop 10 5) eq_refl eq_refl) eq_refl)
    as (S1 & _ & A1 & _).
  destruct (proj1 (placeOrder_repeated_product (Shop.rejecting ROLLBACK)
                     Shop.alice
                     (Shop.cart [mkItem Shop.P1 2; mkItem Shop.P1 3]
                                590000%float 90000%float)
                     (Shop.shop 10 5) eq_refl eq_refl) eq_refl)
    as (S2 & _ & _ & A2).
  split.
  - rewrite (surjective_pairing (placeOrder _ _ _ _)), S1.
    now rewrite (A1 eq_refl eq_refl eq_refl).
  - rewrite (surjective_pairing (placeOrder _ _ _ _)), S2.
    now rewrite (A2 (or_intror (or_intror eq_refl))).
Defined.

(** C7, as stated, fails: the request asks for headphones in two
    entries, of two and of three, with ten in stock and with the right
    totals; it is valid, both entries are in the catalog and within the
    stock, and the call is answered with the product not found, with no
    order line written. *)
Lemma placeOrder_repeated_product_rejected :
  let req := Shop.cart [mkItem Shop.P1 2; mkItem Shop.P1 3]
                       590000%float 90000%float in
  let s := Shop.shop 10 5 in
  isEmpty (validationResult req) = true
  /\ all_in_catalog s req = true
  /\ forallb (in_stock s) (items req) = true
  /\ total_mismatch (authoritativeSubtotal s (items req))
                    (total req) (vatAmount req) = false
  /\ status (fst (placeOrder (Shop.calm 0) Shop.alice req s)) <> 201
  /\ fst (placeOrder (Shop.calm 0) Shop.alice req s) = ProductNotFound
  /\ order_items (snd (placeOrder (Shop.calm 0) Shop.alice req s)) = [].
Proof.
  cbv zeta. repeat split; try (vm_compute; reflexivity).
  vm_compute. discriminate.
Qed.

(* ================================================================== *)
(** ** The price on an order line *)

(** C8: whatever the product update is asked and however it ends, the
    order lines, the orders and the addresses of the store are what they
    were: the update writes the products table only, so that every order
    line keeps the price it recorded. *)
Theorem updateProduct_keeps_order_lines (e : Env) (productId : string)
    (req : product_update) (s : Store) :
  order_items (snd (updateProduct e productId req s)) = order_items s
  /\ orders (snd (updateProduct e productId req s)) = orders s
  /\ addresses (snd (updateProduct e productId req s)) = addresses s.
Proof.
  unfold updateProduct, handle, updateProduct_try.
  destruct (negb (isEmpty (validationResult_update (sanitized_update req))));
    [now run|].
  run. destruct (throws e 0); simpl; [auto|].
  destruct (List.length _ =? 0)%nat; simpl; [auto|].
  destruct (updateFields_length _ =? 0)%nat; simpl; [auto|].
  destruct (throws e 1); simpl; [auto|].
  unfold update_product.
  destruct (negb (isEmpty _) && negb _); simpl; [auto|].
  destruct (throws e 2); simpl; [auto|].
  destruct (select_product _ _); simpl; auto.
Qed.

(* ================================================================== *)
(** ** A request that fails validation *)

(** C9, as amended: a request that fails validation changes nothing, in
    two calls in a row and under any two environments; the two calls are
    both answered with the validation failure, and the same one, when in
    each the transaction opens and the rollback runs; and a call in which
    one of the two throws ends in the [catch] block (answer 500, or no
    answer when the rollback there throws). *)
Theorem placeOrder_invalid_twice (e1 e2 : Env) (u : user)
    (req : order_request) (s : Store) :
  isEmpty (validationResult req) = false ->
  let first := placeOrder e1 u req s in
  let second := placeOrder e2 u req (snd first) in
  snd first = s
  /\ snd second = s
  /\ (rejects e1 BEGIN = false -> rejects e1 ROLLBACK = false ->
      rejects e2 BEGIN = false -> rejects e2 ROLLBACK = false ->
      fst first = ValidationFailed (validationResult req)
      /\ fst second = fst first
      /\ rejection_kind (fst first) = Some RValidationFailed
      /\ rejection_kind (fst second) = Some RValidationFailed)
  /\ (rejects e1 BEGIN = true \/ rejects e1 ROLLBACK = true ->
      fst first = caught e1)
  /\ (rejects e2 BEGIN = true \/ rejects e2 ROLLBACK = true ->
      fst second = caught e2).
Proof.
  intros V. cbv zeta. unfold placeOrder.
  assert (forall e, snd (placeOrderAt e u req s s) = s) as N.
  { intros e. destruct (rejects e BEGIN) eqn:B.
    - now rewrite placeOrderAt_unopened.
    - now rewrite placeOrderAt_invalid. }
  assert (forall e, rejects e BEGIN = true \/ rejects e ROLLBACK = true ->
                    fst (placeOrderAt e u req s s) = caught e) as C.
  { intros e H. destruct (rejects e BEGIN) eqn:B.
    - now rewrite placeOrderAt_unopened.
    - rewrite placeOrderAt_invalid by assumption. unfold rolled_back.
      destruct H as [H|H]; [discriminate | now rewrite H]. }
  rewrite !N. split; [reflexivity|]. split; [reflexivity|].
  split; [|split; apply C].
  intros B1 R1 B2 R2.
  rewrite (placeOrderAt_invalid e1 u req s s B1 V).
  rewrite (placeOrderAt_invalid e2 u req s s B2 V).
  unfold rolled_back. rewrite R1, R2. repeat split.
Qed.

(** A product id that is no UUID and a quantity of 0, sent twice, the
    second time on a connection whose statements throw. *)
Lemma placeOrder_invalid_twice_witness :
  let req := Shop.cart [mkItem "P1" 0] 0%float 0%float in
  isEmpty (validationResult req) = false
  /\ rejection_kind
       (fst (placeOrder (Shop.failing 0) Shop.alice req
               (snd (placeOrder (Shop.calm 0) Shop.alice req (Shop.shop 1 1)))))
     = Some RValidationFailed
  /\ snd (placeOrder (Shop.failing 0) Shop.alice req
            (snd (placeOrder (Shop.calm 0) Shop.alice req (Shop.shop 1 1))))
     = Shop.shop 1 1.
Proof.
  cbv zeta. split; [reflexivity|].
  pose proof (placeOrder_invalid_twice (Shop.calm 0) (Shop.failing 0)
                Shop.alice (Shop.cart [mkItem "P1" 0] 0%float 0%float)
                (Shop.shop 1 1) eq_refl) as H.
  cbv zeta in H. destruct H as (_ & H2 & H3 & _).
  destruct (H3 eq_refl eq_refl eq_refl eq_refl) as (_ & _ & _ & H4).
  split; assumption.
Defined.

(** C9, as stated, fails: a product id that is no UUID and a quantity of
    0, sent twice against the same store; the first call is answered with
    the validation failure; in the second the transaction does not open,
    and the call is answered 500, a persistence failure, though the request
    is the same and the store is as it was. *)
Lemma placeOrder_invalid_answered_500 :
  let req := Shop.cart [mkItem "P1" 0] 0%float 0%float in
  let s := Shop.shop 1 1 in
  let first := placeOrder (Shop.calm 0) Shop.alice req s in
  let second := placeOrder (Shop.rejecting BEGIN) Shop.alice req (snd first) in
  isEmpty (validationResult req) = false
  /\ snd first = s
  /\ rejection_kind (fst first) = Some RValidationFailed
  /\ fst second = PersistenceFailure
  /\ rejection_kind (fst second) = Some RPersistenceFailure
  /\ rejection_kind (fst second) <> rejection_kind (fst first).
Proof.
  cbv zeta. repeat split; try (vm_compute; reflexivity).
  vm_compute. discriminate.
Qed.

(* ================================================================== *)
(** ** Who may read an order *)

Lemma select_orders_In (f : order -> bool) (s : Store)
    (row : order * option address) :
  In row (select_orders f s) -> In (fst row) (orders s) /\ f (fst row) = true.
Proof.
  unfold select_orders. rewrite in_flat_map. intros (o & Ho & Hrow).
  apply filter_In in Ho.
  destruct (filter (joins o) (addresses s)) as [|a l].
  - destruct Hrow as [<-|[]]. exact Ho.
  - apply in_map_iff in Hrow as (a' & <- & _). exact Ho.
Qed.

Lemma select_orders_none (f : order -> bool) (s : Store) :
  (forall o, In o (orders s) -> f o = false) -> select_orders f s = [].
Proof.
  intros H. destruct (select_orders f s) as [|row rows] eqn:E; [reflexivity|].
  assert (In row (select_orders f s)) as Hin by (rewrite E; now left).
  apply select_orders_In in Hin as [Ho Hf]. rewrite (H _ Ho) in Hf.
  discriminate.
Qed.

(** C10: an order is returned only to its owner or to an admin; and an
    order that exists, asked for by a user who neither owns it nor is an
    admin, is answered 404 when the query runs, as it is answered on the
    store without that order. *)
Theorem getOrder_owner_or_admin (e : Env) (u : user) (s : Store) :
  (forall id v,
     fst (getOrder e u id s) = Json 200 (OrderFound v) ->
     exists o a rows,
       In o (orders s) /\ o_id o = id
       /\ v = order_json (o, a) rows
       /\ (o_user_id o = u_id u \/ is_admin u = true))
  /\ (forall o,
        orders_keyed s = true ->
        In o (orders s) ->
        String.eqb (o_user_id o) (u_id u) = false ->
        is_admin u = false ->
        throws e 0 = false ->
        getOrder e u (o_id o) s = (OrderNotFound, s)
        /\ getOrder e u (o_id o) (without_order (o_id o) s)
           = (OrderNotFound, without_order (o_id o) s)).
Proof.
  split.
  - intros id v. unfold getOrder, handle, getOrder_try. run.
    destruct (throws e 0); simpl; [discriminate|].
    destruct (select_orders (visible_to u id) s) as [|row rows] eqn:Sel;
      simpl; [discriminate|].
    destruct (throws e 1); simpl; [discriminate|].
    intros [= <-].
    assert (In row (select_orders (visible_to u id) s)) as Hin
      by (rewrite Sel; now left).
    apply select_orders_In in Hin as [Ho Hv].
    destruct row as [o a]. simpl in *. exists o, a. eexists.
    unfold visible_to in Hv. apply andb_true_iff in Hv as [Hid Hown].
    apply String.eqb_eq in Hid. apply orb_true_iff in Hown.
    split; [exact Ho|]. split; [exact Hid|]. split; [reflexivity|].
    destruct Hown as [Hown|Hadm]; [left; now apply String.eqb_eq | now right].
  - intros o K Ho Hown Hadm T0.
    apply distinct_NoDup in K.
    assert (select_orders (visible_to u (o_id o)) s = []) as Sel.
    { apply select_orders_none. intros o' Ho'. unfold visible_to.
      destruct (String.eqb (o_id o') (o_id o)) eqn:E; [|reflexivity].
      apply String.eqb_eq in E.
      assert (o' = o) as -> by (apply (keyed_rows_equal o_id (orders s)); auto).
      now rewrite Hown, Hadm. }
    assert (select_orders (visible_to u (o_id o)) (without_order (o_id o) s)
            = []) as Sel'.
    { apply select_orders_none. intros o' Ho'. simpl in Ho'.
      apply filter_In in Ho' as [_ Hne]. unfold visible_to.
      apply negb_true_iff in Hne. now rewrite Hne. }
    unfold getOrder, handle, getOrder_try. run.
    rewrite T0. simpl. rewrite Sel, Sel'. split; reflexivity.
Qed.

(** The order of alice: returned to alice and to the admin, not found for
    bob. *)
Lemma getOrder_owner_or_admin_witness :
  let s := snd (placeOrder (Shop.calm 0) Shop.alice Shop.two_headphones
                           (Shop.shop 10 5)) in
  let id := Shop.fresh 0 0 in
  orders_keyed s = true
  /\ status (fst (getOrder (Shop.calm 0) Shop.admin id s)) = 200
  /\ (exists o,
        In o (orders s) /\ o_id o = id
        /\ (o_user_id o = u_id Shop.alice \/ is_admin Shop.alice = true))
  /\ getOrder (Shop.calm 0) Shop.bob id s = (OrderNotFound, s)
  /\ getOrder (Shop.calm 0) Shop.bob id (without_order id s)
     = (OrderNotFound, without_order id s).
Proof.
  cbv zeta. do 2 (split; [vm_compute; reflexivity|]). split.
  - pose proof (getOrder_owner_or_admin (Shop.calm 0) Shop.alice
                  (snd (placeOrder (Shop.calm 0) Shop.alice
                          Shop.two_headphones (Shop.shop 10 5)))) as [H _].
    edestruct (H (Shop.fresh 0 0)) as (o & a & rows & Ho & Hid & _ & Hown).
    + vm_compute. reflexivity.
    + exists o. split; [exact Ho|]. split; [exact Hid | exact Hown].
  - pose proof (getOrder_owner_or_admin (Shop.calm 0) Shop.bob
                  (snd (placeOrder (Shop.calm 0) Shop.alice
                          Shop.two_headphones (Shop.shop 10 5)))) as [_ H].
    specialize (H (mkOrder (Shop.fresh 0 0) (u_id Shop.alice) 23600000
                           3600000 pending "cash" None None)).
    apply H.
    + vm_compute. reflexivity.
    + vm_compute. left. reflexivity.
    + vm_compute. reflexivity.
    + reflexivity.
    + reflexivity.
Defined.

(* ================================================================== *)
(** ** The scenarios of the specification, run *)

(** Two headphones at 100000 with ten in stock, 236000 and 36000 claimed:
    201, a total of 236000, eight left. *)
Example scenario_order_placed :
  let r := placeOrder (Shop.calm 0) Shop.alice Shop.two_headphones
                      (Shop.shop 10 5) in
  status (fst r) = 201
  /\ map o_total (orders (snd r)) = [23600000%Z]
  /\ map oi_price (order_items (snd r)) = [10000000%Z]
  /\ option_map p_stock (catalog (snd r) Shop.P1) = Some 8%Z.
Proof. cbv zeta. repeat split; vm_compute; reflexivity. Qed.

(** A tampered total of 999999: no stock change. *)
Example scenario_tampered_total :
  placeOrder (Shop.calm 0) Shop.alice
             (Shop.cart [mkItem Shop.P1 2] 999999%float 36000%float)
             (Shop.shop 10 5)
  = (TotalMismatch, Shop.shop 10 5).
Proof. vm_compute. reflexivity. Qed.

(** A write that throws in the middle of the transaction: 500, and the
    store as it was. *)
Example scenario_write_throws :
  placeOrder (Shop.failing 3) Shop.alice Shop.two_headphones (Shop.shop 10 5)
  = (PersistenceFailure, Shop.shop 10 5).
Proof. vm_compute. reflexivity. Qed.

(** The price of the headphones goes to 150000 after the order: the line of
    the order still reads 100000. *)
Example scenario_price_snapshot :
  let s1 := snd (placeOrder (Shop.calm 0) Shop.alice Shop.two_headphones
                            (Shop.shop 10 5)) in
  let s2 := snd (updateProduct (Shop.calm 0) Shop.P1
                   (mkUpdate None None (Some 150000%float) None None None)
                   s1) in
  catalog_price s2 Shop.P1 = 150000%float
  /\ map oi_price (order_items s2) = [10000000%Z]
  /\ exists v,
       fst (getOrder (Shop.calm 0) Shop.alice (Shop.fresh 0 0) s2)
       = Json 200 (OrderFound v)
       /\ map iv_price (ov_items v) = [100000%float].
Proof.
  cbv zeta. split; [vm_compute; reflexivity|].
  split; [vm_compute; reflexivity|].
  eexists. split; vm_compute; reflexivity.
Qed.

(** The connection is lost: the transaction does not open, the rollback of
    the [catch] block throws, and the call ends without an answer. *)
Example scenario_connection_lost :
  placeOrder Shop.lost Shop.alice Shop.two_headphones (Shop.shop 10 5)
  = (Unanswered, Shop.shop 10 5).
Proof. vm_compute. reflexivity. Qed.

(** What a [DECIMAL(12,2)] column makes of a number, and what [parseFloat]
    reads back. *)
Example scenario_decimal :
  map DECIMAL_12_2 [236000.009; 0.1; 1.005; 0.004; -2.5]%float
  = [23600001; 10; 101; 0; -250]%Z
  /\ parseFloat 23600001 = 236000.01%float
  /\ parseFloat 10 = 0.1%float.
Proof. repeat split; vm_compute; reflexivity. Qed.

(** [trim] takes the no-break space and the byte order mark with the
    spaces, and leaves the white space inside. *)
Example scenario_trim :
  JS.trim (String (ascii_of_nat 239) (String (ascii_of_nat 187)
            (String (ascii_of_nat 191)
               ("  Yoga  Mat "
                ++ String (ascii_of_nat 194) (String (ascii_of_nat 160) "")))))
  = "Yoga  Mat".
Proof. vm_compute. reflexivity. Qed.

(* ================================================================== *)
(** ** The handlers on the pool *)

Ltac pool_run :=
  cbv beta iota delta
    [bind ret respond throw send pool_query pool_write uuid start serve];
  simpl.

Lemma store_eta (s : Store) :
  mkStore (products s) (categories s) (addresses s) (orders s) (order_items s)
  = s.
Proof. now destruct s. Qed.

Lemma filter_all {A} (f : A -> bool) (l : list A) :
  (forall x, In x l -> f x = true) -> filter f l = l.
Proof.
  induction l as [|a l IH]; intros H; simpl; [reflexivity|].
  rewrite (H a (or_introl eq_refl)), IH; [reflexivity|].
  intros x Hx. apply H. now right.
Qed.

Lemma filter_none {A} (f : A -> bool) (l : list A) :
  (forall x, In x l -> f x = false) -> filter f l = [].
Proof.
  induction l as [|a l IH]; intros H; simpl; [reflexivity|].
  rewrite (H a (or_introl eq_refl)). apply IH.
  intros x Hx. apply H. now right.
Qed.

Lemma map_unmatched {A} (f : A -> bool) (g : A -> A) (l : list A) :
  (forall x, In x l -> f x = false) ->
  map (fun x => if f x then g x else x) l = l.
Proof.
  induction l as [|a l IH]; intros H; simpl; [reflexivity|].
  rewrite (H a (or_introl eq_refl)), IH; [reflexivity|].
  intros x Hx. apply H. now right.
Qed.

(** [find] is the head of [filter]. *)
Lemma find_filter {A} (f : A -> bool) (l : list A) :
  find f l = hd_error (filter f l).
Proof.
  induction l as [|a l IH]; simpl; [reflexivity|].
  destruct (f a); [reflexivity | exact IH].
Qed.

(** In a keyed table the rows of a given key are one row at most. *)
Lemma filter_keyed {A} (key : A -> string) (l : list A) (x : A) :
  NoDup (map key l) -> In x l ->
  filter (fun y => String.eqb (key y) (key x)) l = [x].
Proof.
  induction l as [|a l IH]; intros ND Hx; [contradiction|].
  inversion ND as [|? ? Ha ND']; subst. simpl.
  destruct Hx as [->|Hx].
  - rewrite String.eqb_refl. f_equal. apply filter_none.
    intros y Hy. apply String.eqb_neq. intros E. apply Ha.
    rewrite <- E. now apply in_map.
  - destruct (String.eqb (key a) (key x)) eqn:E.
    + exfalso. apply String.eqb_eq in E. apply Ha. rewrite E. now apply in_map.
    + now apply IH.
Qed.

Lemma status_of_isIn (st : string) :
  Validator.isIn st ["pending"; "processing"; "shipped"; "delivered";
                     "cancelled"] = true ->
  exists v, status_of st = Some v.
Proof.
  unfold Validator.isIn, status_of. simpl.
  destruct (String.eqb st "pending") eqn:E1.
  { apply String.eqb_eq in E1. subst. now eexists. }
  destruct (String.eqb st "processing") eqn:E2.
  { apply String.eqb_eq in E2. subst. now eexists. }
  destruct (String.eqb st "shipped") eqn:E3.
  { apply String.eqb_eq in E3. subst. now eexists. }
  destruct (String.eqb st "delivered") eqn:E4.
  { apply String.eqb_eq in E4. subst. now eexists. }
  destruct (String.eqb st "cancelled") eqn:E5.
  { apply String.eqb_eq in E5. subst. now eexists. }
  discriminate.
Qed.

(* ------------------------------------------------------------------ *)
(** *** The status of an order *)

(** X1: a status outside the five of the schema is answered 400, and the
    id of no order 404 when the statement runs; the store is left as it was
    by both. *)
Theorem updateOrderStatus_refused (e : Env) (orderId st : string) (s : Store) :
  (Validator.isIn st ["pending"; "processing"; "shipped"; "delivered";
                      "cancelled"] = false ->
   updateOrderStatus e orderId st s
   = (Answer 400 (InvalidFields ["status"]), s))
  /\ (Validator.isIn st ["pending"; "processing"; "shipped"; "delivered";
                         "cancelled"] = true ->
      throws e 0 = false ->
      existsb (fun o => String.eqb (o_id o) orderId) (orders s) = false ->
      updateOrderStatus e orderId st s
      = (Answer 404 (Plain (Error "Order not found")), s)).
Proof.
  unfold updateOrderStatus, updateOrderStatus_try. split.
  - intros V. rewrite V. reflexivity.
  - intros V T0 N. rewrite V. destruct (status_of_isIn st V) as [v Hv].
    pool_run. rewrite T0. simpl. unfold update_order_status. rewrite Hv.
    assert (forall o, In o (orders s) -> String.eqb (o_id o) orderId = false)
      as None_.
    { intros o Ho. destruct (String.eqb (o_id o) orderId) eqn:E; [|reflexivity].
      assert (existsb (fun o => String.eqb (o_id o) orderId) (orders s) = true)
        as X by (apply existsb_exists; now exists o).
      congruence. }
    rewrite (filter_none _ _ None_). simpl.
    rewrite (map_unmatched _ _ _ None_). unfold with_orders.
    now rewrite store_eta.
Qed.

Lemma updateOrderStatus_refused_witness :
  updateOrderStatus (Shop.calm 0) Fixtures.order_id "refunded" Fixtures.placed
  = (Answer 400 (InvalidFields ["status"]), Fixtures.placed)
  /\ updateOrderStatus (Shop.calm 0) Shop.P9 "shipped" Fixtures.placed
     = (Answer 404 (Plain (Error "Order not found")), Fixtures.placed).
Proof.
  split.
  - apply (proj1 (updateOrderStatus_refused (Shop.calm 0) Fixtures.order_id
                    "refunded" Fixtures.placed)).
    reflexivity.
  - apply (proj2 (updateOrderStatus_refused (Shop.calm 0) Shop.P9
                    "shipped" Fixtures.placed)).
    + reflexivity.
    + reflexivity.
    + vm_compute. reflexivity.
Defined.

Lemma status_of_Some_isIn (st : string) (v : order_status) :
  status_of st = Some v ->
  Validator.isIn st ["pending"; "processing"; "shipped"; "delivered";
                     "cancelled"] = true.
Proof.
  unfold Validator.isIn, status_of. intros H.
  destruct (find _ order_statuses) as [[n w]|] eqn:F; [|discriminate].
  apply find_some in F as [Hin E]. simpl in E. apply String.eqb_eq in E.
  subst n. apply existsb_eqb_In. simpl in Hin.
  repeat (destruct Hin as [Hin|Hin];
          [injection Hin as <- _; simpl; tauto|]).
  contradiction.
Qed.

Lemma updateOrderStatus_accepted (e : Env) (orderId st : string)
    (v : order_status) (s : Store) :
  status_of st = Some v ->
  throws e 0 = false ->
  existsb (fun o => String.eqb (o_id o) orderId) (orders s) = true ->
  updateOrderStatus e orderId st s
  = (Answer 200 (Message "Order status updated successfully"),
     with_orders s
       (map (fun o => if String.eqb (o_id o) orderId
                      then with_status o v else o)
            (orders s))).
Proof.
  intros Hv T0 Ex. unfold updateOrderStatus, updateOrderStatus_try.
  rewrite (status_of_Some_isIn st v Hv). pool_run. rewrite T0. simpl.
  unfold update_order_status. rewrite Hv.
  destruct (filter (fun o => String.eqb (o_id o) orderId) (orders s))
    as [|o l] eqn:F.
  - exfalso. apply existsb_exists in Ex as (o & Ho & E).
    assert (In o (filter (fun o => String.eqb (o_id o) orderId) (orders s)))
      as X by (apply filter_In; auto).
    rewrite F in X. contradiction.
  - reflexivity.
Qed.

(** X2: a status of the schema, sent for the id of an order, is answered
    200; the orders of that id take the status, whatever status they had,
    and keep everything else; the other orders and the other tables are as
    they were. *)
Theorem updateOrderStatus_sets_status (e : Env) (orderId st : string)
    (v : order_status) (s : Store) :
  status_of st = Some v ->
  throws e 0 = false ->
  existsb (fun o => String.eqb (o_id o) orderId) (orders s) = true ->
  fst (updateOrderStatus e orderId st s)
  = Answer 200 (Message "Order status updated successfully")
  /\ orders (snd (updateOrderStatus e orderId st s))
     = map (fun o => if String.eqb (o_id o) orderId
                     then mkOrder (o_id o) (o_user_id o) (o_total o)
                                  (o_vat_amount o) v (o_payment_method o)
                                  (o_shipping_address_id o) (o_notes o)
                     else o)
           (orders s)
  /\ order_items (snd (updateOrderStatus e orderId st s)) = order_items s
  /\ products (snd (updateOrderStatus e orderId st s)) = products s
  /\ addresses (snd (updateOrderStatus e orderId st s)) = addresses s
  /\ categories (snd (updateOrderStatus e orderId st s)) = categories s.
Proof.
  intros Hv T0 Ex. rewrite (updateOrderStatus_accepted e orderId st v s Hv T0 Ex).
  repeat split.
Qed.

Lemma updateOrderStatus_sets_status_witness :
  status_of "delivered" = Some delivered
  /\ fst (updateOrderStatus (Shop.calm 0) Fixtures.order_id "delivered"
            Fixtures.placed)
     = Answer 200 (Message "Order status updated successfully")
  /\ map o_status
         (orders (snd (updateOrderStatus (Shop.calm 0) Fixtures.order_id
                         "delivered" Fixtures.placed)))
     = [delivered].
Proof.
  split; [reflexivity|].
  assert (existsb (fun o => String.eqb (o_id o) Fixtures.order_id)
                  (orders Fixtures.placed) = true) as Ex
    by (vm_compute; reflexivity).
  destruct (updateOrderStatus_sets_status (Shop.calm 0) Fixtures.order_id
              "delivered" delivered Fixtures.placed eq_refl eq_refl Ex)
    as (H1 & H2 & _).
  split; [exact H1|]. rewrite H2. vm_compute. reflexivity.
Defined.

(* ------------------------------------------------------------------ *)
(** *** Reading an order back *)

Lemma filter_through {A} (f g : A -> bool) (l : list A) :
  (forall x, f x = true -> g x = true) ->
  filter f l = filter f (filter g l).
Proof.
  intros H. induction l as [|a l IH]; simpl; [reflexivity|].
  destruct (f a) eqn:Fa.
  - rewrite (H a Fa). simpl. rewrite Fa. now f_equal.
  - destruct (g a); simpl; [rewrite Fa|]; exact IH.
Qed.

Lemma select_orders_keyed (f : order -> bool) (s : Store) (o : order) :
  NoDup (map o_id (orders s)) -> In o (orders s) -> f o = true ->
  (forall x, f x = true -> o_id x = o_id o) ->
  exists a, select_orders f s = [(o, a)]
            \/ exists rest, select_orders f s = (o, a) :: rest.
Proof.
  intros ND Ho Fo Fid. unfold select_orders.
  assert (filter f (orders s) = [o]) as ->.
  { rewrite (filter_through f (fun x => String.eqb (o_id x) (o_id o))).
    - rewrite (filter_keyed o_id (orders s) o ND Ho). simpl. now rewrite Fo.
    - intros x Fx. rewrite (Fid x Fx). apply String.eqb_refl. }
  simpl. rewrite app_nil_r.
  destruct (filter (joins o) (addresses s)) as [|a l].
  - exists None. now left.
  - exists (Some a). right. simpl. now eexists.
Qed.

Lemma getOrder_visible (e : Env) (u : user) (o : order) (s : Store) :
  orders_keyed s = true ->
  In o (orders s) ->
  String.eqb (o_user_id o) (u_id u) || is_admin u = true ->
  throws e 0 = false ->
  throws e 1 = false ->
  exists a,
    getOrder e u (o_id o) s
    = (Json 200 (OrderFound (order_json (o, a) (order_lines e (o_id o) s))),
       s).
Proof.
  intros K Ho Vis T0 T1. apply distinct_NoDup in K.
  assert (visible_to u (o_id o) o = true) as Fo
    by (unfold visible_to; now rewrite String.eqb_refl, Vis).
  destruct (select_orders_keyed (visible_to u (o_id o)) s o K Ho Fo)
    as [a Sel].
  { intros x Fx. unfold visible_to in Fx. apply andb_true_iff in Fx as [E _].
    now apply String.eqb_eq in E. }
  exists a. unfold getOrder, handle, getOrder_try. run. rewrite T0. simpl.
  destruct Sel as [Sel|[rest Sel]]; rewrite Sel; simpl; rewrite T1;
    reflexivity.
Qed.

(** X3: an order of the store is returned, with its own figures and
    status and with its lines in the order of the store, to its owner and to
    any admin, when the two queries run. *)
Theorem getOrder_returns_order (e : Env) (u : user) (o : order) (s : Store) :
  orders_keyed s = true ->
  In o (orders s) ->
  String.eqb (o_user_id o) (u_id u) || is_admin u = true ->
  throws e 0 = false ->
  throws e 1 = false ->
  exists v,
    getOrder e u (o_id o) s = (Json 200 (OrderFound v), s)
    /\ ov_id v = o_id o
    /\ ov_total v = parseFloat (o_total o)
    /\ ov_vatAmount v = parseFloat (o_vat_amount o)
    /\ ov_status v = o_status o
    /\ ov_paymentMethod v = o_payment_method o
    /\ ov_notes v = o_notes o
    /\ ov_items v = map item_json (order_lines e (o_id o) s).
Proof.
  intros K Ho Vis T0 T1.
  destruct (getOrder_visible e u o s K Ho Vis T0 T1) as [a G].
  eexists. split; [exact G|]. repeat split.
Qed.

Lemma getOrder_returns_order_witness :
  orders_keyed Fixtures.placed = true
  /\ In Fixtures.alices_order (orders Fixtures.placed)
  /\ exists v,
       getOrder (Shop.calm 0) Shop.admin Fixtures.order_id Fixtures.placed
       = (Json 200 (OrderFound v), Fixtures.placed)
       /\ ov_total v = 236000%float
       /\ ov_status v = pending.
Proof.
  split; [vm_compute; reflexivity|].
  split; [vm_compute; left; reflexivity|].
  assert (orders_keyed Fixtures.placed = true) as K
    by (vm_compute; reflexivity).
  assert (In Fixtures.alices_order (orders Fixtures.placed)) as I
    by (vm_compute; left; reflexivity).
  destruct (getOrder_returns_order (Shop.calm 0) Shop.admin
              Fixtures.alices_order Fixtures.placed K I
              eq_refl eq_refl eq_refl)
    as (v & G & _ & Ht & _ & Hs & _).
  exists v. split; [exact G|]. split; [exact Ht | exact Hs].
Defined.

(** X4: after the status of an order was set, the order read back by its
    owner or by an admin shows the new status, and the total, the VAT
    amount and the lines that it had. *)
Theorem getOrder_after_updateOrderStatus (e e' : Env) (u : user) (o : order)
    (st : string) (v : order_status) (s : Store) :
  orders_keyed s = true ->
  In o (orders s) ->
  String.eqb (o_user_id o) (u_id u) || is_admin u = true ->
  status_of st = Some v ->
  throws e 0 = false ->
  throws e' 0 = false ->
  throws e' 1 = false ->
  exists view,
    fst (getOrder e' u (o_id o) (snd (updateOrderStatus e (o_id o) st s)))
    = Json 200 (OrderFound view)
    /\ ov_id view = o_id o
    /\ ov_status view = v
    /\ ov_total view = parseFloat (o_total o)
    /\ ov_vatAmount view = parseFloat (o_vat_amount o)
    /\ ov_items view = map item_json (order_lines e' (o_id o) s).
Proof.
  intros K Ho Vis Hv T0 T0' T1'.
  assert (existsb (fun x => String.eqb (o_id x) (o_id o)) (orders s) = true)
    as Ex.
  { apply existsb_exists. exists o. split; [exact Ho | apply String.eqb_refl]. }
  rewrite (updateOrderStatus_accepted e (o_id o) st v s Hv T0 Ex).
  set (s' := with_orders s
               (map (fun x => if String.eqb (o_id x) (o_id o)
                              then with_status x v else x)
                    (orders s))).
  change (snd (Answer 200 (Message "Order status updated successfully"), s'))
    with s'.
  assert (orders s'
          = map (fun x => if String.eqb (o_id x) (o_id o)
                          then with_status x v else x)
                (orders s)) as Ho' by reflexivity.
  assert (order_items s' = order_items s) as Hi by reflexivity.
  assert (products s' = products s) as Hp by reflexivity.
  set (o' := mkOrder (o_id o) (o_user_id o) (o_total o) (o_vat_amount o) v
                     (o_payment_method o) (o_shipping_address_id o)
                     (o_notes o)).
  assert (In o' (orders s')) as Ho''.
  { rewrite Ho'. apply in_map_iff. exists o. split; [|exact Ho].
    now rewrite String.eqb_refl. }
  assert (orders_keyed s' = true) as K'.
  { unfold orders_keyed in *. rewrite Ho', map_map.
    erewrite map_ext; [exact K|].
    intros x. now destruct (String.eqb (o_id x) (o_id o)). }
  destruct (getOrder_visible e' u o' s' K' Ho'' Vis T0' T1') as [a G].
  change (o_id o') with (o_id o) in G. rewrite G.
  eexists. split; [reflexivity|]. repeat split.
Qed.

Lemma getOrder_after_updateOrderStatus_witness :
  orders_keyed Fixtures.placed = true
  /\ In Fixtures.alices_order (orders Fixtures.placed)
  /\ status_of "shipped" = Some shipped
  /\ exists view,
       fst (getOrder (Shop.calm 0) Shop.alice Fixtures.order_id
              (snd (updateOrderStatus (Shop.calm 0) Fixtures.order_id
                      "shipped" Fixtures.placed)))
       = Json 200 (OrderFound view)
       /\ ov_status view = shipped
       /\ ov_total view = 236000%float.
Proof.
  assert (orders_keyed Fixtures.placed = true) as K
    by (vm_compute; reflexivity).
  assert (In Fixtures.alices_order (orders Fixtures.placed)) as I
    by (vm_compute; left; reflexivity).
  split; [exact K|]. split; [exact I|]. split; [reflexivity|].
  destruct (getOrder_after_updateOrderStatus (Shop.calm 0) (Shop.calm 0)
              Shop.alice Fixtures.alices_order "shipped" shipped
              Fixtures.placed K I eq_refl eq_refl eq_refl eq_refl eq_refl)
    as (view & G & _ & Hs & Ht & _).
  exists view. split; [exact G|]. split; [exact Hs | exact Ht].
Defined.

(* ------------------------------------------------------------------ *)
(** *** One product *)

Lemma select_product_catalog (id : string) (s : Store) :
  match catalog s id with
  | Some p => exists c rest, select_product id s = (p, c) :: rest
  | None => select_product id s = []
  end.
Proof.
  unfold select_product, catalog. rewrite find_filter.
  destruct (filter (fun p => String.eqb (p_id p) id) (products s))
    as [|p l]; simpl; [reflexivity|].
  destruct (filter (in_category p) (categories s)) as [|c cs]; simpl;
    eexists; eexists; reflexivity.
Qed.

Lemma getProduct_missing (e : Env) (id : string) (s : Store) :
  throws e 0 = false ->
  catalog s id = None ->
  getProduct e id s = (Answer 404 (Plain (Error "Product not found")), s).
Proof.
  intros T0 C. unfold getProduct, getProduct_try. pool_run. rewrite T0.
  simpl. pose proof (select_product_catalog id s) as Sel. rewrite C in Sel.
  now rewrite Sel.
Qed.

(** X5: a product is found exactly when the catalog has its id: it is then
    answered 200 with the name, the price and the stock of the catalog, and
    404 otherwise, when the query runs; a query that throws is answered
    500. *)
Theorem getProduct_found_iff (e : Env) (id : string) (s : Store) :
  (throws e 0 = true -> getProduct e id s = (InternalServerError, s))
  /\ (throws e 0 = false ->
      match catalog s id with
      | Some p =>
          exists v,
            getProduct e id s = (Answer 200 (Product v), s)
            /\ pv_id v = id
            /\ pv_name v = p_name p
            /\ pv_description v = p_description p
            /\ pv_price v = parseFloat (p_price p)
            /\ pv_stock v = p_stock p
      | None =>
          getProduct e id s
          = (Answer 404 (Plain (Error "Product not found")), s)
      end).
Proof.
  unfold getProduct, getProduct_try. split; intros T0; pool_run; rewrite T0;
    simpl; [reflexivity|].
  pose proof (select_product_catalog id s) as Sel.
  destruct (catalog s id) as [p|] eqn:C.
  - destruct Sel as (c & rest & ->). simpl. eexists. split; [reflexivity|].
    apply catalog_Some in C as [_ E]. simpl. repeat split. exact E.
  - rewrite Sel. reflexivity.
Qed.

Lemma getProduct_found_iff_witness :
  (exists v,
     getProduct (Shop.calm 0) Shop.P1 (Shop.shop 10 5)
     = (Answer 200 (Product v), Shop.shop 10 5)
     /\ pv_price v = 100000%float /\ pv_stock v = 10%Z)
  /\ getProduct (Shop.calm 0) Shop.P9 (Shop.shop 10 5)
     = (Answer 404 (Plain (Error "Product not found")), Shop.shop 10 5).
Proof.
  split.
  - pose proof (proj2 (getProduct_found_iff (Shop.calm 0) Shop.P1
                         (Shop.shop 10 5)) eq_refl) as H.
    change (catalog (Shop.shop 10 5) Shop.P1) with (Some (Shop.headphones 10))
      in H.
    destruct H as (v & G & _ & _ & _ & Hp & Hs).
    exists v. split; [exact G|]. split; [exact Hp | exact Hs].
  - exact (proj2 (getProduct_found_iff (Shop.calm 0) Shop.P9
                    (Shop.shop 10 5)) eq_refl).
Defined.

(* ------------------------------------------------------------------ *)
(** *** Creating a product *)

Lemma isEmpty_nil {A} (l : list A) : isEmpty l = true <-> l = [].
Proof. destruct l; simpl; split; congruence. Qed.

Lemma required_nil {A} (ok : A -> bool) (v : option A) (err : validation_error) :
  required ok v err = [] -> exists x, v = Some x /\ ok x = true.
Proof.
  unfold required, Validator.check. destruct v as [x|]; [|discriminate].
  destruct (ok x) eqn:E; [|discriminate]. intros _. now exists x.
Qed.

Lemma validationResult_create_nil (req : product_update) :
  validationResult_create req = [] ->
  exists n d p c k,
    name req = Some n /\ description req = Some d /\ price req = Some p
    /\ categoryId req = Some c /\ stock req = Some k
    /\ Validator.isLength_min1 n = true
    /\ Validator.isFloat_min0 p = true
    /\ Validator.isInt 0 k = true.
Proof.
  unfold validationResult_create. intros H.
  apply app_eq_nil in H as [Hn H]. apply app_eq_nil in H as [Hd H].
  apply app_eq_nil in H as [Hp H]. apply app_eq_nil in H as [Hc Hk].
  apply required_nil in Hn as (n & En & Vn).
  apply required_nil in Hd as (d & Ed & _).
  apply required_nil in Hp as (p & Ep & Vp).
  apply required_nil in Hc as (c & Ec & _).
  apply required_nil in Hk as (k & Ek & Vk).
  exists n, d, p, c, k. repeat split; assumption.
Qed.

Lemma select_product_appended (id : string) (s : Store) (p : product) :
  p_id p = id ->
  existsb (String.eqb id) (map p_id (products s)) = false ->
  exists c,
    select_product id (with_products s (products s ++ [p])) = [(p, c)]
    \/ exists rest,
         select_product id (with_products s (products s ++ [p]))
         = (p, c) :: rest.
Proof.
  intros E F. unfold select_product. simpl. rewrite filter_app.
  rewrite filter_none.
  2:{ intros x Hx. apply String.eqb_neq. intros Q.
      assert (existsb (String.eqb id) (map p_id (products s)) = true) as X.
      { apply existsb_eqb_In. rewrite <- Q. now apply in_map. }
      congruence. }
  simpl. rewrite E, String.eqb_refl. simpl. rewrite app_nil_r.
  destruct (filter (in_category p) (categories s)) as [|c l].
  - exists None. now left.
  - exists (Some (c_name c)). right. simpl. now eexists.
Qed.

(** X6: a valid body, a fresh id, values that fit their columns and a
    category of the store: the product is answered 201 and added to the
    catalog with the trimmed name, the price of the body taken to two
    decimal places, the stock of the body, a rating of 0 and no review; the
    other products are as they were; and the product read by its id right
    after is the product that the creation answered. *)
Theorem createProduct_then_getProduct (e e' : Env) (body : product_update)
    (s : Store) :
  isEmpty (validationResult_create (sanitized_update body)) = true ->
  existsb (String.eqb (uuidv4 e 0)) (map p_id (products s)) = false ->
  fits_columns (bound_to_insert (sanitized_update body)) = true ->
  category_exists s (categoryId body) = true ->
  throws e 0 = false ->
  throws e 1 = false ->
  throws e' 0 = false ->
  exists v p,
    createProduct e body s
    = (Answer 201 (ProductCreated v), with_products s (products s ++ [p]))
    /\ p_id p = uuidv4 e 0
    /\ option_map JS.trim (name body) = Some (p_name p)
    /\ option_map DECIMAL_12_2 (price body) = Some (p_price p)
    /\ stock body = Some (p_stock p)
    /\ categoryId body = p_category_id p
    /\ p_rating p = 0%Z /\ p_reviews_count p = 0%Z
    /\ pv_id v = p_id p /\ pv_name v = p_name p
    /\ pv_price v = parseFloat (p_price p)
    /\ pv_stock v = p_stock p
    /\ getProduct e' (uuidv4 e 0) (snd (createProduct e body s))
       = (Answer 200 (Product v), snd (createProduct e body s)).
Proof.
  intros V Fresh Fit Cat T0 T1 T0'.
  apply isEmpty_nil in V.
  destruct (validationResult_create_nil _ V)
    as (n & d & p & c & k & En & Ed & Ep & Ec & Ek & _).
  set (row := new_product (uuidv4 e 0)
                (bound_to_insert (sanitized_update body))).
  destruct (select_product_appended (uuidv4 e 0) s row eq_refl Fresh)
    as [cn Sel].
  assert (createProduct e body s
          = (Answer 201 (ProductCreated (product_json (row, cn))),
             with_products s (products s ++ [row]))) as Cr.
  { unfold createProduct, createProduct_try. rewrite V. simpl isEmpty.
    cbv iota. rewrite En, Ed, Ep, Ec, Ek. pool_run. rewrite T0. simpl.
    unfold insert_product. rewrite Fresh, Fit. simpl.
    rewrite Cat. simpl. rewrite T1. simpl. fold row.
    change (mkStore (products s ++ [row]) (categories s) (addresses s)
                    (orders s) (order_items s))
      with (with_products s (products s ++ [row])).
    destruct Sel as [Sel|[rest Sel]]; rewrite Sel; reflexivity. }
  exists (product_json (row, cn)), row. rewrite Cr.
  assert (getProduct e' (uuidv4 e 0) (with_products s (products s ++ [row]))
          = (Answer 200 (Product (product_json (row, cn))),
             with_products s (products s ++ [row]))) as G.
  { unfold getProduct, getProduct_try. pool_run. rewrite T0'. simpl.
    change (mkStore (products s ++ [row]) (categories s) (addresses s)
                    (orders s) (order_items s))
      with (with_products s (products s ++ [row])).
    destruct Sel as [Sel|[rest Sel]]; rewrite Sel; reflexivity. }
  split; [reflexivity|]. split; [reflexivity|].
  unfold row, new_product, bound_to_insert, apply_patch in *.
  destruct body as [bn bd bp bi bc bk]. simpl in *. subst bp bc bk.
  destruct bn as [n0|]; [|discriminate]. simpl.
  repeat split. exact G.
Qed.

Lemma createProduct_then_getProduct_witness :
  isEmpty (validationResult_create (sanitized_update Fixtures.new_webcam))
  = true
  /\ fits_columns (bound_to_insert (sanitized_update Fixtures.new_webcam))
     = true
  /\ category_exists Fixtures.market (categoryId Fixtures.new_webcam) = true
  /\ exists v,
       fst (createProduct (Fixtures.draws Fixtures.P3) Fixtures.new_webcam
                          Fixtures.market)
       = Answer 201 (ProductCreated v)
       /\ pv_name v = "4K Webcam"
       /\ getProduct (Shop.calm 0) Fixtures.P3
            (snd (createProduct (Fixtures.draws Fixtures.P3)
                    Fixtures.new_webcam Fixtures.market))
          = (Answer 200 (Product v),
             snd (createProduct (Fixtures.draws Fixtures.P3)
                    Fixtures.new_webcam Fixtures.market)).
Proof.
  split; [reflexivity|]. split; [vm_compute; reflexivity|].
  split; [reflexivity|].
  assert (fits_columns (bound_to_insert (sanitized_update Fixtures.new_webcam))
          = true) as F by (vm_compute; reflexivity).
  destruct (createProduct_then_getProduct (Fixtures.draws Fixtures.P3)
              (Shop.calm 0) Fixtures.new_webcam Fixtures.market
              eq_refl eq_refl F eq_refl eq_refl eq_refl eq_refl)
    as (v & p & Cr & _ & Hn & _ & _ & _ & _ & _ & _ & Hvn & _ & _ & G).
  exists v. split; [now rewrite Cr|]. split; [|exact G].
  rewrite Hvn. simpl in Hn. now injection Hn as <-.
Defined.

(** X7: a body that fails validation is answered 400 with its errors, and a
    valid one whose id is taken or whose category the store does not have is
    answered 500, when the INSERT is sent; the store is left as it was by
    both. *)
Theorem createProduct_refused (e : Env) (body : product_update) (s : Store) :
  (isEmpty (validationResult_create (sanitized_update body)) = false ->
   createProduct e body s
   = (Answer 400
        (Plain (Errors (validationResult_create (sanitized_update body)))),
      s))
  /\ (isEmpty (validationResult_create (sanitized_update body)) = true ->
      existsb (String.eqb (uuidv4 e 0)) (map p_id (products s))
      || negb (category_exists s (categoryId body)) = true ->
      createProduct e body s = (InternalServerError, s)).
Proof.
  unfold createProduct, createProduct_try. split.
  - intros V. rewrite V. reflexivity.
  - intros V R. rewrite V. simpl negb. cbv iota.
    apply isEmpty_nil in V.
    destruct (validationResult_create_nil _ V)
      as (n & d & p & c & k & En & Ed & Ep & Ec & Ek & _).
    rewrite En, Ed, Ep, Ec, Ek. pool_run.
    destruct (throws e 0); simpl; [reflexivity|].
    unfold insert_product.
    destruct (existsb (String.eqb (uuidv4 e 0)) (map p_id (products s)));
      simpl; [reflexivity|].
    simpl in R. apply negb_true_iff in R. rewrite R, andb_false_r.
    reflexivity.
Qed.

Lemma createProduct_refused_witness :
  fst (createProduct (Shop.calm 0)
         (mkUpdate (Some "  ") None (Some 1%float) None None (Some (-1)%Z))
         Fixtures.market)
  = Answer 400 (Plain (Errors [bad_name; bad_description; bad_categoryId;
                               bad_stock]))
  /\ createProduct (Fixtures.draws Shop.P1) Fixtures.new_webcam Fixtures.market
     = (InternalServerError, Fixtures.market).
Proof.
  split.
  - rewrite (proj1 (createProduct_refused (Shop.calm 0)
                      (mkUpdate (Some "  ") None (Some 1%float) None None
                                (Some (-1)%Z))
                      Fixtures.market) eq_refl).
    reflexivity.
  - exact (proj2 (createProduct_refused (Fixtures.draws Shop.P1)
                    Fixtures.new_webcam Fixtures.market) eq_refl eq_refl).
Defined.

(* ------------------------------------------------------------------ *)
(** *** Deleting a product *)

Lemma catalog_filter_id (s : Store) (id : string) :
  isEmpty (filter (fun p => String.eqb (p_id p) id) (products s))
  = match catalog s id with Some _ => false | None => true end.
Proof.
  unfold catalog. rewrite find_filter.
  now destruct (filter (fun p => String.eqb (p_id p) id) (products s)).
Qed.

Lemma with_products_same (s : Store) : with_products s (products s) = s.
Proof. unfold with_products. apply store_eta. Qed.

(** X8: the id of no product is answered 404, and the id of a product that
    an order line refers to is answered 500; the store, with that product
    and every order line, is left as it was by both. *)
Theorem deleteProduct_refused (e : Env) (id : string) (s : Store) :
  throws e 0 = false ->
  (catalog s id = None ->
   deleteProduct e id s
   = (Answer 404 (Plain (Error "Product not found")), s))
  /\ (catalog s id <> None ->
      existsb (fun i => String.eqb (oi_product_id i) id) (order_items s)
      = true ->
      deleteProduct e id s = (InternalServerError, s)).
Proof.
  intros T0. unfold deleteProduct, deleteProduct_try. split.
  - intros C. pool_run. rewrite T0. simpl. unfold delete_product.
    rewrite catalog_filter_id, C. simpl.
    apply catalog_None in C.
    assert (forall p, In p (products s) -> String.eqb (p_id p) id = false)
      as N.
    { intros p Hp. apply String.eqb_neq. intros E. apply C.
      rewrite <- E. now apply in_map. }
    rewrite (filter_none _ _ N). simpl.
    rewrite filter_all by (intros p Hp; now rewrite (N p Hp)).
    now rewrite with_products_same.
  - intros C R. pool_run. rewrite T0. simpl. unfold delete_product.
    rewrite catalog_filter_id, R.
    destruct (catalog s id); [reflexivity | contradiction].
Qed.

Lemma deleteProduct_refused_witness :
  deleteProduct (Shop.calm 0) Shop.P9 Fixtures.placed
  = (Answer 404 (Plain (Error "Product not found")), Fixtures.placed)
  /\ deleteProduct (Shop.calm 0) Shop.P1 Fixtures.placed
     = (InternalServerError, Fixtures.placed).
Proof.
  split.
  - apply (proj1 (deleteProduct_refused (Shop.calm 0) Shop.P9
                    Fixtures.placed eq_refl)).
    vm_compute. reflexivity.
  - apply (proj2 (deleteProduct_refused (Shop.calm 0) Shop.P1
                    Fixtures.placed eq_refl)).
    + vm_compute. discriminate.
    + vm_compute. reflexivity.
Defined.

Lemma find_filter_other {A} (f g : A -> bool) (l : list A) :
  (forall x, f x = true -> g x = true) ->
  find f (filter g l) = find f l.
Proof.
  intros H. induction l as [|a l IH]; simpl; [reflexivity|].
  destruct (g a) eqn:G; simpl.
  - destruct (f a); [reflexivity | exact IH].
  - destruct (f a) eqn:F; [|exact IH]. rewrite (H a F) in G. discriminate.
Qed.

(** X9: the id of a product that no order line refers to is answered 200
    and the product leaves the catalog: it is not found any more, every
    other product is as it was, and so are the orders and their lines. *)
Theorem deleteProduct_deletes (e e' : Env) (id : string) (s : Store) :
  throws e 0 = false ->
  throws e' 0 = false ->
  catalog s id <> None ->
  existsb (fun i => String.eqb (oi_product_id i) id) (order_items s) = false ->
  fst (deleteProduct e id s) = Answer 200 (Message "Product deleted successfully")
  /\ catalog (snd (deleteProduct e id s)) id = None
  /\ (forall other, other <> id ->
        catalog (snd (deleteProduct e id s)) other = catalog s other)
  /\ orders (snd (deleteProduct e id s)) = orders s
  /\ order_items (snd (deleteProduct e id s)) = order_items s
  /\ fst (getProduct e' id (snd (deleteProduct e id s)))
     = Answer 404 (Plain (Error "Product not found")).
Proof.
  intros T0 T0' C R.
  assert (deleteProduct e id s
          = (Answer 200 (Message "Product deleted successfully"),
             with_products s
               (filter (fun p => negb (String.eqb (p_id p) id)) (products s))))
    as D.
  { unfold deleteProduct, deleteProduct_try. pool_run. rewrite T0. simpl.
    unfold delete_product. rewrite R, andb_false_r.
    pose proof (catalog_filter_id s id) as F.
    destruct (filter (fun p => String.eqb (p_id p) id) (products s)).
    - simpl in F. destruct (catalog s id); [discriminate | contradiction].
    - reflexivity. }
  rewrite D. simpl.
  assert (catalog (with_products s
            (filter (fun p => negb (String.eqb (p_id p) id)) (products s))) id
          = None) as Gone.
  { apply catalog_None. simpl. intros Hin.
    apply in_map_iff in Hin as (p & E & Hp).
    apply filter_In in Hp as [_ N]. rewrite E, String.eqb_refl in N.
    discriminate. }
  split; [reflexivity|]. split; [exact Gone|]. split.
  - intros other Ne. unfold catalog. simpl. apply find_filter_other.
    intros p E. apply String.eqb_eq in E. apply negb_true_iff.
    apply String.eqb_neq. congruence.
  - split; [reflexivity|]. split; [reflexivity|].
    now rewrite (getProduct_missing e' id _ T0' Gone).
Qed.

Lemma deleteProduct_deletes_witness :
  catalog Fixtures.placed Shop.P2 <> None
  /\ fst (deleteProduct (Shop.calm 0) Shop.P2 Fixtures.placed)
     = Answer 200 (Message "Product deleted successfully")
  /\ catalog (snd (deleteProduct (Shop.calm 0) Shop.P2 Fixtures.placed))
             Shop.P2 = None.
Proof.
  assert (catalog Fixtures.placed Shop.P2 <> None) as C
    by (vm_compute; discriminate).
  split; [exact C|].
  destruct (deleteProduct_deletes (Shop.calm 0) (Shop.calm 0) Shop.P2
              Fixtures.placed eq_refl eq_refl C)
    as (H1 & H2 & _).
  - vm_compute. reflexivity.
  - split; [exact H1 | exact H2].
Defined.

(* ------------------------------------------------------------------ *)
(** *** Deleting a category *)

Lemma count_products_in_zero (id : string) (s : Store) :
  (0 <? count_products_in id s)%nat = false ->
  existsb (in_category_id id) (products s) = false.
Proof.
  unfold count_products_in. intros H. apply Nat.ltb_ge in H.
  destruct (existsb (in_category_id id) (products s)) eqn:E; [|reflexivity].
  apply existsb_exists in E as (p & Hp & Hc).
  assert (In p (filter (in_category_id id) (products s))) as X
    by (apply filter_In; auto).
  destruct (filter (in_category_id id) (products s)); [contradiction|].
  simpl in H. lia.
Qed.

(** X10: a category that is the category of some product is answered 400 and
    stays; one that is the category of no product is answered 200 and
    leaves the store when the store has it, and 404 when it does not; the
    products are as they were, and each of them that had its category in
    the store still has it. *)
Theorem deleteCategory_cases (e : Env) (id : string) (s : Store) :
  throws e 0 = false ->
  throws e 1 = false ->
  (existsb (in_category_id id) (products s) = true ->
   deleteCategory e id s
   = (Answer 400 (Plain (Error "Cannot delete category with existing products")),
      s))
  /\ (existsb (in_category_id id) (products s) = false ->
      products (snd (deleteCategory e id s)) = products s
      /\ categories (snd (deleteCategory e id s))
         = filter (fun c => negb (String.eqb (c_id c) id)) (categories s)
      /\ (forall p, In p (products s) ->
            category_exists (snd (deleteCategory e id s)) (p_category_id p)
            = category_exists s (p_category_id p))
      /\ fst (deleteCategory e id s)
         = if existsb (fun c => String.eqb (c_id c) id) (categories s)
           then Answer 200 (Message "Category deleted successfully")
           else Answer 404 (Plain (Error "Category not found"))).
Proof.
  intros T0 T1. unfold deleteCategory, deleteCategory_try. split.
  - intros H. pool_run. rewrite T0. simpl.
    destruct (0 <? count_products_in id s)%nat eqn:Cn; [reflexivity|].
    apply count_products_in_zero in Cn. congruence.
  - intros H. pool_run. rewrite T0. simpl.
    assert ((0 <? count_products_in id s)%nat = false) as ->.
    { unfold count_products_in. rewrite filter_none; [reflexivity|].
      intros p Hp. destruct (in_category_id id p) eqn:E; [|reflexivity].
      assert (existsb (in_category_id id) (products s) = true) as X
        by (apply existsb_exists; now exists p).
      congruence. }
    simpl. rewrite T1. simpl. unfold delete_category.
    rewrite H, andb_false_r.
    assert (forall p, In p (products s) ->
              category_exists
                (mkStore (products s)
                   (filter (fun c => negb (String.eqb (c_id c) id))
                           (categories s))
                   (addresses s) (orders s) (order_items s))
                (p_category_id p)
              = category_exists s (p_category_id p)) as Keep.
    { intros p Hp. unfold category_exists. simpl.
      destruct (p_category_id p) as [c|] eqn:Pc; [|reflexivity].
      assert (String.eqb c id = false) as Ne.
      { destruct (String.eqb c id) eqn:E; [|reflexivity].
        assert (existsb (in_category_id id) (products s) = true) as X.
        { apply existsb_exists. exists p. split; [exact Hp|].
          unfold in_category_id. now rewrite Pc. }
        congruence. }
      induction (categories s) as [|x l IH]; simpl; [reflexivity|].
      destruct (String.eqb (c_id x) id) eqn:Q; simpl.
      - rewrite IH. apply String.eqb_eq in Q. rewrite Q.
        rewrite String.eqb_sym, Ne. reflexivity.
      - now rewrite IH. }
    destruct (filter (fun c => String.eqb (c_id c) id) (categories s))
      as [|c l] eqn:F; simpl.
    + repeat split; try assumption.
      destruct (existsb _ (categories s)) eqn:Ex; [|reflexivity].
      apply existsb_exists in Ex as (c & Hc & E).
      assert (In c (filter (fun c => String.eqb (c_id c) id) (categories s)))
        as X by (apply filter_In; auto).
      rewrite F in X. contradiction.
    + repeat split; try assumption.
      assert (existsb (fun c => String.eqb (c_id c) id) (categories s) = true)
        as ->; [|reflexivity].
      apply existsb_exists. exists c.
      assert (In c (filter (fun c => String.eqb (c_id c) id) (categories s)))
        as X by (rewrite F; now left).
      now apply filter_In in X.
Qed.

Lemma deleteCategory_cases_witness :
  deleteCategory (Shop.calm 0) Fixtures.C1 Fixtures.market
  = (Answer 400 (Plain (Error "Cannot delete category with existing products")),
     Fixtures.market)
  /\ fst (deleteCategory (Shop.calm 0) Fixtures.C2 Fixtures.market)
     = Answer 200 (Message "Category deleted successfully")
  /\ map c_id (categories (snd (deleteCategory (Shop.calm 0) Fixtures.C2
                                  Fixtures.market)))
     = [Fixtures.C1].
Proof.
  split.
  - apply (proj1 (deleteCategory_cases (Shop.calm 0) Fixtures.C1
                    Fixtures.market eq_refl eq_refl)).
    reflexivity.
  - assert (existsb (in_category_id Fixtures.C2) (products Fixtures.market)
            = false) as N by reflexivity.
    destruct (proj2 (deleteCategory_cases (Shop.calm 0) Fixtures.C2
                       Fixtures.market eq_refl eq_refl) N)
      as (_ & Hc & _ & Hr).
    split; [rewrite Hr; reflexivity|]. rewrite Hc. reflexivity.
Defined.

(* ================================================================== *)
(** ** More on the placement of an order *)

(** X11: the store changes only when the request was accepted, the
    transaction opened and every statement of the call up to its commit, and
    the commit, ran: a request that is refused, and a call that controls
    the transaction, a lookup or a write that throws, leave the store as it
    was. *)
Theorem placeOrder_changes_only_on_commit (e : Env) (u : user)
    (req : order_request) (s : Store) :
  keyed s = true ->
  snd (placeOrder e u req s) <> s ->
  accepted s req = true
  /\ commits e u req s = true
  /\ snd (placeOrder e u req s) = run_statements (order_writes e u req s) s.
Proof.
  intros Kb Ne. apply keyed_products_keyed in Kb. unfold placeOrder in *.
  destruct (placeOrderAt_cases e u req s s Kb)
    as [[_ E]|(A & B & T0 & Tw & Cm & E)]; [contradiction|].
  split; [exact A|]. split; [|exact E].
  unfold commits. now rewrite any_throw_S, B, T0, Tw, Cm.
Qed.

Lemma placeOrder_changes_only_on_commit_witness :
  keyed (Shop.shop 10 5) = true
  /\ snd (placeOrder (Shop.failing 4) Shop.alice Shop.two_headphones
            (Shop.shop 10 5)) <> Shop.shop 10 5
  /\ accepted (Shop.shop 10 5) Shop.two_headphones = true
  /\ commits (Shop.failing 4) Shop.alice Shop.two_headphones (Shop.shop 10 5)
     = true.
Proof.
  assert (snd (placeOrder (Shop.failing 4) Shop.alice Shop.two_headphones
                 (Shop.shop 10 5)) <> Shop.shop 10 5) as Ne.
  { intros H. apply (f_equal (fun x => List.length (orders x))) in H.
    vm_compute in H. discriminate. }
  split; [reflexivity|]. split; [exact Ne|].
  destruct (placeOrder_changes_only_on_commit (Shop.failing 4) Shop.alice
              Shop.two_headphones (Shop.shop 10 5) eq_refl Ne)
    as (A & C & _).
  split; [exact A | exact C].
Defined.

(* ------------------------------------------------------------------ *)
(** *** Stock conservation *)

Lemma with_stock_same (p : product) : with_stock p (p_stock p) = p.
Proof. now destruct p. Qed.

Lemma find_update_where_id (id pid : string) (g : product -> product)
    (ps : list product) :
  (forall p, p_id (g p) = p_id p) ->
  find (fun p => String.eqb (p_id p) id) (update_where_id pid g ps)
  = option_map (fun p => if String.eqb (p_id p) pid then g p else p)
               (find (fun p => String.eqb (p_id p) id) ps).
Proof.
  intros Hg. induction ps as [|a l IH]; simpl; [reflexivity|].
  assert (p_id (if String.eqb (p_id a) pid then g a else a) = p_id a) as ->
    by (destruct (String.eqb (p_id a) pid); [apply Hg | reflexivity]).
  destruct (String.eqb (p_id a) id); [reflexivity | exact IH].
Qed.

Lemma find_decremented (its : list item) (ps : list product) (id : string) :
  find (fun p => String.eqb (p_id p) id) (decremented its ps)
  = option_map (fun p => with_stock p (p_stock p - ordered its id))
               (find (fun p => String.eqb (p_id p) id) ps).
Proof.
  revert ps. induction its as [|it its IH]; intros ps.
  - simpl. destruct (find _ ps) as [p|]; simpl; [|reflexivity].
    now rewrite Z.sub_0_r, with_stock_same.
  - unfold decremented in *. simpl fold_left. rewrite IH.
    rewrite find_update_where_id by reflexivity.
    destruct (find (fun p => String.eqb (p_id p) id) ps) as [p|] eqn:F;
      simpl; [|reflexivity].
    apply find_some in F as [_ E]. apply String.eqb_eq in E.
    rewrite E, (String.eqb_sym (productId it) id).
    destruct (String.eqb id (productId it)); simpl.
    + f_equal. unfold with_stock. simpl. f_equal. lia.
    + reflexivity.
Qed.

(** In a request that names no product twice, a product is asked the
    quantity of its entry. *)
Lemma ordered_asked (its : list item) (id : string) :
  NoDup (map productId its) -> ordered its id = asked its id.
Proof.
  unfold asked. induction its as [|it its IH]; intros ND; [reflexivity|].
  inversion ND as [|? ? Hit ND']; subst. simpl.
  destruct (String.eqb (productId it) id) eqn:E.
  - apply String.eqb_eq in E. subst id.
    assert (ordered its (productId it) = 0%Z) as ->; [|lia].
    clear IH ND ND'. induction its as [|x its IH]; [reflexivity|].
    simpl. destruct (String.eqb (productId x) (productId it)) eqn:Q.
    + exfalso. apply String.eqb_eq in Q. apply Hit. left. exact Q.
    + rewrite IH; [reflexivity|]. intros H. apply Hit. now right.
  - rewrite (IH ND'). reflexivity.
Qed.

(** X12: a placement that commits takes from the stock of every product
    that the request names the quantity of its entry, an accepted request
    naming no product twice, and changes nothing else of the catalog: no
    name, no price, and no product that the request does not name. *)
Theorem placeOrder_stock_conservation (e : Env) (u : user)
    (req : order_request) (s : Store) :
  keyed s = true ->
  accepted s req = true ->
  commits e u req s = true ->
  distinct (requested req) = true
  /\ forall id,
       catalog (snd (placeOrder e u req s)) id
       = option_map
           (fun p => mkProduct (p_id p) (p_name p) (p_description p)
                               (p_price p) (p_image p) (p_category_id p)
                               (p_stock p - asked (items req) id)
                               (p_rating p) (p_reviews_count p))
           (catalog s id).
Proof.
  intros Kb A C.
  destruct (placeOrder_committed e u req s Kb A C) as [S' _].
  apply keyed_products_keyed in Kb.
  destruct (accepted_parts _ _ A) as (_ & R & St & _).
  pose proof (resolved_distinct req s R Kb) as D.
  split; [now apply distinct_NoDup|]. intros id. rewrite S'.
  unfold catalog. rewrite products_order_writes by (now apply lines_ok).
  rewrite <- (ordered_asked (items req) id D).
  apply find_decremented.
Qed.

Lemma placeOrder_stock_conservation_witness :
  keyed (Shop.shop 10 5) = true
  /\ accepted (Shop.shop 10 5) Fixtures.with_address = true
  /\ commits (Shop.calm 0) Shop.alice Fixtures.with_address (Shop.shop 10 5)
     = true
  /\ option_map p_stock
       (catalog (snd (placeOrder (Shop.calm 0) Shop.alice
                        Fixtures.with_address (Shop.shop 10 5))) Shop.P1)
     = Some 8%Z.
Proof.
  assert (accepted (Shop.shop 10 5) Fixtures.with_address = true) as A
    by (vm_compute; reflexivity).
  assert (commits (Shop.calm 0) Shop.alice Fixtures.with_address
                  (Shop.shop 10 5) = true) as C
    by (vm_compute; reflexivity).
  split; [reflexivity|]. split; [exact A|]. split; [exact C|].
  rewrite (proj2 (placeOrder_stock_conservation (Shop.calm 0) Shop.alice
                    Fixtures.with_address (Shop.shop 10 5) eq_refl A C)).
  reflexivity.
Defined.

(* ------------------------------------------------------------------ *)
(** *** The shipping address *)

Lemma addresses_run_statements (sts : list statement) (s : Store) :
  addresses (run_statements sts s) = addresses s ++ addresses_of sts.
Proof.
  revert s. induction sts as [|st sts IH]; intros s; simpl.
  - now rewrite app_nil_r.
  - unfold run_statements in *. simpl. rewrite IH.
    destruct st; simpl; try reflexivity. now rewrite <- app_assoc.
Qed.

Lemma addresses_of_item_writes (e : Env) (m : string -> option product_row)
    (oid : string) (its : list item) (d : nat) :
  addresses_of (item_writes e m oid its d) = [].
Proof.
  revert d. induction its as [|it its IH]; intros d; simpl; [reflexivity|].
  destruct (m (productId it)); simpl; auto.
Qed.

(** X13: a placement that commits with a shipping address adds one address
    row, of the user, with the street, city and district of the request and
    with the country Uganda when the request gives none or an empty one, and
    the order header refers to that row; without a shipping address no
    address is added and the header refers to none. *)
Theorem placeOrder_shipping_address (e : Env) (u : user)
    (req : order_request) (s : Store) :
  keyed s = true ->
  accepted s req = true ->
  commits e u req s = true ->
  exists o,
    orders (snd (placeOrder e u req s)) = orders s ++ [o]
    /\ match shippingAddress req with
       | Some a =>
           addresses (snd (placeOrder e u req s))
           = addresses s
             ++ [mkAddress (uuidv4 e 0) (u_id u) (street a) (city a)
                           (district a)
                           (match country a with
                            | Some c => if String.eqb c "" then "Uganda" else c
                            | None => "Uganda"
                            end)]
           /\ o_shipping_address_id o = Some (uuidv4 e 0)
       | None =>
           addresses (snd (placeOrder e u req s)) = addresses s
           /\ o_shipping_address_id o = None
       end.
Proof.
  intros Kb A C.
  rewrite (proj1 (placeOrder_committed e u req s Kb A C)).
  exists (order_row e u req).
  rewrite orders_run_statements, headers_of_order_writes.
  split; [reflexivity|].
  rewrite addresses_run_statements.
  unfold order_writes, address_writes, order_row, address_row.
  destruct (shippingAddress req) as [a|]; simpl.
  - rewrite addresses_of_item_writes. split; reflexivity.
  - rewrite addresses_of_item_writes, app_nil_r. split; reflexivity.
Qed.

Lemma placeOrder_shipping_address_witness :
  keyed (Shop.shop 10 5) = true
  /\ accepted (Shop.shop 10 5) Fixtures.with_address = true
  /\ commits (Shop.calm 0) Shop.alice Fixtures.with_address (Shop.shop 10 5)
     = true
  /\ map a_country
         (addresses (snd (placeOrder (Shop.calm 0) Shop.alice
                            Fixtures.with_address (Shop.shop 10 5))))
     = ["Uganda"].
Proof.
  split; [reflexivity|]. split; [vm_compute; reflexivity|].
  split; [vm_compute; reflexivity|].
  assert (accepted (Shop.shop 10 5) Fixtures.with_address = true) as A
    by (vm_compute; reflexivity).
  assert (commits (Shop.calm 0) Shop.alice Fixtures.with_address
                  (Shop.shop 10 5) = true) as C
    by (vm_compute; reflexivity).
  destruct (placeOrder_shipping_address (Shop.calm 0) Shop.alice
              Fixtures.with_address (Shop.shop 10 5) eq_refl A C)
    as (o & _ & H).
  change (shippingAddress Fixtures.with_address)
    with (Some (mkShipping "Plot 1 Kampala Road" "Kampala" "Central" None))
    in H.
  cbv beta iota in H. destruct H as [H _]. rewrite H. reflexivity.
Defined.

(* ------------------------------------------------------------------ *)
(** *** The order that the call answers *)

Lemma placeOrder_created (e : Env) (u : user) (req : order_request)
    (s : Store) :
  products_keyed s -> accepted s req = true ->
  rejects e BEGIN = false -> rejects e COMMIT = false ->
  (forall n, throws e n = false) ->
  exists row rest,
    select_orders
      (fun o => String.eqb (o_id o) (uuidv4 e (order_draw req)))
      (run_statements (order_writes e u req s) s) = row :: rest
    /\ placeOrder e u req s
       = (Json 201
            (OrderCreated
               (order_json row
                  (order_lines e (uuidv4 e (order_draw req))
                     (run_statements (order_writes e u req s) s)))),
          run_statements (order_writes e u req s) s).
Proof.
  intros K A B Cm T.
  destruct (accepted_parts _ _ A) as (V & R & St & Mm).
  pose proof (transaction_writes e u req s s V (T 0) R K St Mm) as TW.
  simpl in TW. rewrite any_throw_false in TW by assumption.
  unfold placeOrder, placeOrderAt, handle_transaction, placeOrder_try.
  cbv beta iota delta [bind beginTransaction]. rewrite B.
  change (mkConn (live (start s s)) (snapshot (start s s)) []
                 (executed (start s s)) (drawn (start s s)))
    with (start s s).
  rewrite TW. unfold commit. simpl. rewrite Cm.
  unfold read_back. run. rewrite !T. simpl.
  destruct (select_orders _ _) as [|row rest] eqn:Sel.
  - exfalso. revert Sel.
    apply select_orders_nonempty with (o := order_row e u req).
    + rewrite orders_run_statements, headers_of_order_writes.
      apply in_or_app. right. now left.
    + simpl. apply String.eqb_refl.
  - exists row, rest. split; reflexivity.
Qed.

Lemma lines_of_item_writes_order (e : Env) (m : string -> option product_row)
    (oid : string) (its : list item) (d : nat) :
  forall i, In i (lines_of (item_writes e m oid its d)) -> oi_order_id i = oid.
Proof.
  revert d. induction its as [|it its IH]; intros d i; simpl; [contradiction|].
  destruct (m (productId it)); simpl; [|contradiction].
  intros [<-|H]; [reflexivity | now apply (IH (S d))].
Qed.

Lemma filter_catalog_keyed (ps : list product) (id : string) (p : product) :
  NoDup (map p_id ps) ->
  find (fun q => String.eqb (p_id q) id) ps = Some p ->
  filter (fun q => String.eqb id (p_id q)) ps = [p].
Proof.
  intros ND F. apply find_some in F as [Hp E]. apply String.eqb_eq in E.
  rewrite <- (filter_keyed p_id ps p ND Hp). apply filter_ext.
  intros q. rewrite E. apply String.eqb_sym.
Qed.

(** The lines read back with their products, line by line. *)
Lemma read_back_lines (e : Env) (m : string -> option product_row)
    (oid : string) (ps : list product) (name_of : string -> string)
    (its : list item) (d : nat) :
  forallb (line_ok m) its = true ->
  (forall it, In it its ->
     exists p, filter (fun q => String.eqb (productId it) (p_id q)) ps = [p]
               /\ p_name p = name_of (productId it)) ->
  map (fun v => (iv_productId v, iv_name v, iv_quantity v, iv_price v))
      (map item_json
         (flat_map
            (fun oi =>
               map (fun p => (oi, p))
                   (filter (fun p => String.eqb (oi_product_id oi) (p_id p))
                           ps))
            (lines_of (item_writes e m oid its d))))
  = map (fun it => (productId it, name_of (productId it), quantity it,
                    price_in m (productId it)))
        its.
Proof.
  revert d. induction its as [|it its IH]; intros d L P; [reflexivity|].
  simpl in L. apply andb_true_iff in L as [Lit L].
  unfold line_ok in Lit. simpl. unfold price_in at 1.
  destruct (m (productId it)) as [row|]; [|discriminate].
  simpl. destruct (P it (or_introl eq_refl)) as (p & -> & Hn). simpl.
  rewrite Hn. f_equal. apply IH; [exact L|].
  intros x Hx. apply P. now right.
Qed.

(** X14: an accepted request, with claimed figures that fit the twelve
    digits of their columns, on a transaction that opens and commits, on a
    store whose statements do not throw and with an order id that the store
    has not used, is answered 201 with the order as persisted: its
    id, the claimed total and VAT amount as their columns hold them, taken
    to two decimal places, the status pending, the payment method, the
    trimmed notes, and, in the order in which the store returns them, one
    item per entry of the request with its product, the name and the unit
    price of the catalog, and its quantity. *)
Theorem placeOrder_answers_order (e : Env) (u : user) (req : order_request)
    (s : Store) :
  keyed s = true ->
  accepted s req = true ->
  fits_DECIMAL_12_2 (total req) = true ->
  fits_DECIMAL_12_2 (vatAmount req) = true ->
  rejects e BEGIN = false ->
  rejects e COMMIT = false ->
  (forall n, throws e n = false) ->
  existsb (fun o => String.eqb (o_id o) (uuidv4 e (order_draw req)))
          (orders s) = false ->
  existsb (fun i => String.eqb (oi_order_id i) (uuidv4 e (order_draw req)))
          (order_items s) = false ->
  exists v,
    fst (placeOrder e u req s) = Json 201 (OrderCreated v)
    /\ ov_id v = uuidv4 e (order_draw req)
    /\ ov_total v = parseFloat (DECIMAL_12_2 (total req))
    /\ ov_vatAmount v = parseFloat (DECIMAL_12_2 (vatAmount req))
    /\ ov_status v = pending
    /\ ov_paymentMethod v = paymentMethod req
    /\ ov_notes v = JS.or_null (option_map JS.trim (notes req))
    /\ Permutation
         (map (fun i => (iv_productId i, iv_name i, iv_quantity i, iv_price i))
              (ov_items v))
         (map (fun it => (productId it, catalog_name s (productId it),
                          quantity it, catalog_price s (productId it)))
              (items req)).
Proof.
  intros Kb A _ _ B Cm T FreshO FreshL. apply keyed_products_keyed in Kb.
  destruct (placeOrder_created e u req s Kb A B Cm T)
    as (row & rest & Sel & P).
  destruct (accepted_parts _ _ A) as (_ & R & St & _).
  pose proof (lines_ok req s Kb St) as L.
  set (oid := uuidv4 e (order_draw req)) in *.
  set (s' := run_statements (order_writes e u req s) s) in *.
  (* the header read back is the header written *)
  assert (exists a, row = (order_row e u req, a)) as [a ->].
  { unfold select_orders in Sel. unfold s' in Sel.
    rewrite orders_run_statements, headers_of_order_writes in Sel.
    rewrite filter_app in Sel. rewrite filter_none in Sel.
    2:{ intros o Ho. destruct (String.eqb (o_id o) oid) eqn:E; [|reflexivity].
        assert (existsb (fun o => String.eqb (o_id o) oid) (orders s) = true)
          as X by (apply existsb_exists; now exists o).
        congruence. }
    simpl in Sel. fold oid in Sel. rewrite String.eqb_refl in Sel.
    simpl in Sel. rewrite app_nil_r in Sel.
    destruct (filter _ _) as [|x l] in Sel; simpl in Sel;
      injection Sel as <- _; now eexists. }
  rewrite P. eexists. split; [reflexivity|]. simpl.
  repeat (split; [reflexivity|]).
  (* the lines read back are the lines written, in the order of the store *)
  unfold order_lines.
  etransitivity;
    [apply Permutation_map, Permutation_map, by_place_Permutation|].
  unfold select_order_items. unfold s' at 2.
  rewrite order_items_run_statements, lines_of_order_writes, filter_app.
  rewrite filter_none.
  2:{ intros i Hi. destruct (String.eqb (oi_order_id i) oid) eqn:E;
        [|reflexivity].
      assert (existsb (fun i => String.eqb (oi_order_id i) oid)
                      (order_items s) = true)
        as X by (apply existsb_exists; now exists i).
      congruence. }
  simpl. rewrite filter_all.
  2:{ intros i Hi. apply lines_of_item_writes_order in Hi. rewrite Hi.
      apply String.eqb_refl. }
  match goal with |- Permutation ?l ?r => assert (l = r) as ->;
    [|reflexivity] end.
  etransitivity;
    [apply (read_back_lines e _ oid (products s') (catalog_name s)
              (items req) (S (order_draw req)) L)|].
  2:{ apply map_ext_in. intros it Hit. f_equal.
      apply price_in_catalog; [exact Kb | now apply in_map]. }
  intros it Hit.
  destruct (resolved_in_catalog req s R Kb it Hit) as [p C].
  exists (with_stock p (p_stock p - ordered (items req) (productId it))).
  split.
  - apply filter_catalog_keyed.
    + unfold s'. rewrite product_ids_run_statements. exact Kb.
    + unfold s'. rewrite products_order_writes by exact L.
      rewrite find_decremented. unfold catalog in C. now rewrite C.
  - unfold catalog_name. now rewrite C.
Qed.

Lemma placeOrder_answers_order_witness :
  keyed (Shop.shop 10 5) = true
  /\ accepted (Shop.shop 10 5) Fixtures.with_address = true
  /\ exists v,
       fst (placeOrder (Shop.calm 0) Shop.alice Fixtures.with_address
                       (Shop.shop 10 5))
       = Json 201 (OrderCreated v)
       /\ ov_total v = 495600%float
       /\ ov_notes v = Some "leave at the gate"
       /\ In (Shop.P2, "Yoga Mat Pro", 1%Z, 220000%float)
             (map (fun i => (iv_productId i, iv_name i, iv_quantity i,
                             iv_price i))
                  (ov_items v)).
Proof.
  split; [reflexivity|]. split; [vm_compute; reflexivity|].
  assert (accepted (Shop.shop 10 5) Fixtures.with_address = true) as A
    by (vm_compute; reflexivity).
  destruct (placeOrder_answers_order (Shop.calm 0) Shop.alice
              Fixtures.with_address (Shop.shop 10 5) eq_refl A
              eq_refl eq_refl eq_refl eq_refl (fun _ => eq_refl)
              eq_refl eq_refl)
    as (v & P & _ & Ht & _ & _ & _ & Hn & Hi).
  exists v. split; [exact P|]. split.
  { rewrite Ht. vm_compute. reflexivity. }
  split; [exact Hn|].
  apply (Permutation_in _ (Permutation_sym Hi)).
  right. left. vm_compute. reflexivity.
Defined.

(* ================================================================== *)
(** ** More on the update of a product *)

Lemma optional_nil {A} (ok : A -> bool) (v : option A) (err : validation_error) :
  Validator.optional ok v err = [] ->
  match v with Some x => ok x = true | None => True end.
Proof.
  unfold Validator.optional, Validator.check. destruct v as [x|]; [|trivial].
  now destruct (ok x).
Qed.

Lemma validationResult_update_nil (req : product_update) :
  validationResult_update req = [] ->
  match price req with
  | Some x => Validator.isFloat_min0 x = true
  | None => True
  end
  /\ match stock req with
     | Some k => Validator.isInt 0 k = true
     | None => True
     end.
Proof.
  unfold validationResult_update. intros H.
  apply app_eq_nil in H as [_ H]. apply app_eq_nil in H as [_ H].
  apply app_eq_nil in H as [Hp H]. apply app_eq_nil in H as [_ Hk].
  split; [exact (optional_nil _ _ _ Hp) | exact (optional_nil _ _ _ Hk)].
Qed.

(** The update, when it reaches the store, is the patch of the body on the
    rows of the id. *)
Lemma updateProduct_store (e : Env) (id : string) (body : product_update)
    (s : Store) :
  snd (updateProduct e id body s) = s
  \/ validationResult_update (sanitized_update body) = []
     /\ snd (updateProduct e id body s)
        = with_products s
            (update_where_id id
               (apply_patch (patch_of (sanitized_update body))) (products s)).
Proof.
  unfold updateProduct, handle, updateProduct_try.
  destruct (validationResult_update (sanitized_update body)) as [|x l] eqn:V;
    simpl; [|now left].
  run. destruct (throws e 0); simpl; [now left|].
  destruct (List.length _ =? 0)%nat; simpl; [now left|].
  destruct (updateFields_length _ =? 0)%nat; simpl; [now left|].
  destruct (throws e 1); simpl; [now left|].
  unfold update_product.
  destruct (negb (isEmpty _) && negb _); simpl; [now left|].
  right. split; [reflexivity|].
  destruct (throws e 2); simpl; [reflexivity|].
  destruct (select_product _ _); reflexivity.
Qed.

(** X15: a body that fails validation is answered 400 with its errors; a
    valid one for the id of no product 404; a valid one without any field
    400; the store is left as it was by all three. *)
Theorem updateProduct_refused (e : Env) (id : string) (body : product_update)
    (s : Store) :
  (isEmpty (validationResult_update (sanitized_update body)) = false ->
   updateProduct e id body s
   = (ValidationFailed (validationResult_update (sanitized_update body)), s))
  /\ (isEmpty (validationResult_update (sanitized_update body)) = true ->
      throws e 0 = false ->
      (catalog s id = None ->
       updateProduct e id body s = (Json 404 (Error "Product not found"), s))
      /\ (catalog s id <> None ->
          updateFields_length (sanitized_update body) = 0 ->
          updateProduct e id body s
          = (Json 400 (Error "No fields to update"), s))).
Proof.
  unfold updateProduct, handle, updateProduct_try. split.
  - intros V. rewrite V. reflexivity.
  - intros V T0. rewrite V. run. rewrite T0. simpl.
    pose proof (catalog_filter_id s id) as F. split.
    + intros C. rewrite C in F.
      destruct (filter (fun p => String.eqb (p_id p) id) (products s));
        [reflexivity | discriminate].
    + intros C N.
      destruct (filter (fun p => String.eqb (p_id p) id) (products s)).
      * simpl in F. destruct (catalog s id); [discriminate | contradiction].
      * simpl. rewrite N. reflexivity.
Qed.

Lemma updateProduct_refused_witness :
  updateProduct (Shop.calm 0) Shop.P1
    (mkUpdate None None (Some (-5)%float) None None None) (Shop.shop 10 5)
  = (ValidationFailed [bad_price], Shop.shop 10 5)
  /\ updateProduct (Shop.calm 0) Shop.P9
       (mkUpdate None None (Some 5%float) None None None) (Shop.shop 10 5)
     = (Json 404 (Error "Product not found"), Shop.shop 10 5)
  /\ updateProduct (Shop.calm 0) Shop.P1
       (mkUpdate None None None None None None) (Shop.shop 10 5)
     = (Json 400 (Error "No fields to update"), Shop.shop 10 5).
Proof.
  split; [|split].
  - exact (proj1 (updateProduct_refused (Shop.calm 0) Shop.P1
                    (mkUpdate None None (Some (-5)%float) None None None)
                    (Shop.shop 10 5)) eq_refl).
  - apply (proj2 (updateProduct_refused (Shop.calm 0) Shop.P9
                    (mkUpdate None None (Some 5%float) None None None)
                    (Shop.shop 10 5)) eq_refl eq_refl).
    reflexivity.
  - apply (proj2 (updateProduct_refused (Shop.calm 0) Shop.P1
                    (mkUpdate None None None None None None)
                    (Shop.shop 10 5)) eq_refl eq_refl).
    + discriminate.
    + reflexivity.
Defined.

(** X16: a valid body with some field, for the id of a product, with
    values that fit their columns and a category that the store has, on a
    store whose statements do not throw, is answered 200 with the product as
    updated: each field that the body gives takes its value, the name and
    the description trimmed and the price taken to two decimal places, and
    each field that it does not give keeps the value it had; every other
    product is as it was.  With a category that the store does not have,
    the update is refused: the call is answered 500 and the store is left as
    it was. *)
Theorem updateProduct_updates (e : Env) (id : string) (body : product_update)
    (p : product) (s : Store) :
  isEmpty (validationResult_update (sanitized_update body)) = true ->
  updateFields_length (sanitized_update body) <> 0 ->
  catalog s id = Some p ->
  throws e 0 = false -> throws e 1 = false -> throws e 2 = false ->
  (fits_columns (patch_of (sanitized_update body)) = true ->
   category_exists s (categoryId body) = true ->
   exists v,
     fst (updateProduct e id body s) = Json 200 (ProductUpdated v)
     /\ catalog (snd (updateProduct e id body s)) id
        = Some (mkProduct (p_id p)
                  (override (option_map JS.trim (name body)) (p_name p))
                  (override (option_map JS.trim (description body))
                            (p_description p))
                  (override (option_map DECIMAL_12_2 (price body)) (p_price p))
                  (override_opt (image body) (p_image p))
                  (override_opt (categoryId body) (p_category_id p))
                  (override (stock body) (p_stock p))
                  (p_rating p) (p_reviews_count p))
     /\ (forall other, other <> id ->
           catalog (snd (updateProduct e id body s)) other = catalog s other)
     /\ pv_id v = id
     /\ pv_name v = override (option_map JS.trim (name body)) (p_name p)
     /\ pv_price v
        = parseFloat (override (option_map DECIMAL_12_2 (price body))
                               (p_price p))
     /\ pv_stock v = override (stock body) (p_stock p))
  /\ (category_exists s (categoryId body) = false ->
      updateProduct e id body s = (PersistenceFailure, s)).
Proof.
  intros V N C T0 T1 T2.
  pose proof (catalog_filter_id s id) as F. rewrite C in F.
  apply Nat.eqb_neq in N.
  split.
  - intros Fit Cat.
    set (g := apply_patch (patch_of (sanitized_update body))).
    set (s' := with_products s (update_where_id id g (products s))).
    assert (catalog s' id = Some (g p)) as C'.
    { unfold catalog, s'. simpl. rewrite find_update_where_id by reflexivity.
      unfold catalog in C. rewrite C. simpl.
      apply catalog_Some in C as [_ E]. now rewrite E, String.eqb_refl. }
    pose proof (select_product_catalog id s') as Sel. rewrite C' in Sel.
    destruct Sel as (c & rest & Sel).
    assert (updateProduct e id body s
            = (Json 200 (ProductUpdated (product_json (g p, c))), s')) as U.
    { unfold updateProduct, handle, updateProduct_try. rewrite V. run.
      rewrite T0. simpl.
      destruct (filter (fun q => String.eqb (p_id q) id) (products s));
        [discriminate|]. simpl.
      rewrite N. simpl. rewrite T1. simpl.
      unfold update_product.
      change (mkPatch (option_map JS.trim (name body))
                      (option_map JS.trim (description body)) (price body)
                      (image body) (categoryId body) (stock body))
        with (patch_of (sanitized_update body)).
      rewrite Fit. simpl set_category_id. rewrite Cat. simpl.
      rewrite andb_false_r. simpl. rewrite T2. simpl.
      match goal with |- context [select_product id ?x] =>
        change x with s' end.
      rewrite Sel. reflexivity. }
    exists (product_json (g p, c)). rewrite U. simpl.
    split; [reflexivity|]. split; [exact C'|]. split.
    + intros other Ne. unfold catalog, s'. simpl.
      rewrite find_update_where_id by reflexivity.
      destruct (find (fun q => String.eqb (p_id q) other) (products s))
        as [q|] eqn:Fq; simpl; [|reflexivity].
      apply find_some in Fq as [_ E]. apply String.eqb_eq in E.
      destruct (String.eqb (p_id q) id) eqn:Q; [|reflexivity].
      apply String.eqb_eq in Q. congruence.
    + apply catalog_Some in C as [_ E]. repeat split. exact E.
  - intros Cat.
    unfold updateProduct, handle, updateProduct_try. rewrite V. run.
    rewrite T0. simpl.
    destruct (filter (fun q => String.eqb (p_id q) id) (products s)) eqn:Fl;
      [discriminate|]. simpl.
    rewrite N. simpl. rewrite T1. simpl.
    unfold update_product. simpl set_category_id. rewrite Cat, Fl.
    rewrite andb_false_r. reflexivity.
Qed.

Lemma updateProduct_updates_witness :
  (exists v,
     fst (updateProduct (Shop.calm 0) Shop.P1
            (mkUpdate None None (Some 149999.995%float) None None (Some 7%Z))
            (Shop.shop 10 5))
     = Json 200 (ProductUpdated v)
     /\ pv_name v = "Wireless Bluetooth Headphones"
     /\ pv_price v = 150000%float
     /\ pv_stock v = 7%Z)
  /\ updateProduct (Shop.calm 0) Shop.P1
       (mkUpdate None None None None (Some Fixtures.C1) None) (Shop.shop 10 5)
     = (PersistenceFailure, Shop.shop 10 5).
Proof.
  assert (catalog (Shop.shop 10 5) Shop.P1 = Some (Shop.headphones 10)) as C
    by reflexivity.
  split.
  - destruct (proj1 (updateProduct_updates (Shop.calm 0) Shop.P1
                       (mkUpdate None None (Some 149999.995%float) None None
                                 (Some 7%Z))
                       (Shop.headphones 10) (Shop.shop 10 5)
                       eq_refl (fun H => Nat.neq_succ_0 _ H) C
                       eq_refl eq_refl eq_refl))
      as (v & U & _ & _ & _ & Hn & Hp & Hk);
      [vm_compute; reflexivity | reflexivity |].
    exists v. split; [exact U|]. split; [exact Hn|].
    split; [|exact Hk]. rewrite Hp. vm_compute. reflexivity.
  - exact (proj2 (updateProduct_updates (Shop.calm 0) Shop.P1
                    (mkUpdate None None None None (Some Fixtures.C1) None)
                    (Shop.headphones 10) (Shop.shop 10 5)
                    eq_refl (fun H => Nat.neq_succ_0 _ H) C
                    eq_refl eq_refl eq_refl)
                 eq_refl).
Defined.

(* ------------------------------------------------------------------ *)
(** *** An order read before and after a product update *)

Lemma filter_map_keeping {A} (f : A -> bool) (h : A -> A) (l : list A) :
  (forall x, f (h x) = f x) -> filter f (map h l) = map h (filter f l).
Proof.
  intros H. induction l as [|a l IH]; simpl; [reflexivity|].
  rewrite H. destruct (f a); simpl; now rewrite IH.
Qed.

(** A change of the products that keeps their ids changes the products in
    the rows of the lines of an order, and nothing else of them. *)
Lemma order_lines_patched (e : Env) (oid : string) (s : Store)
    (h : product -> product) :
  (forall p, p_id (h p) = p_id p) ->
  order_lines e oid (with_products s (map h (products s)))
  = map (fun row => (fst row, h (snd row))) (order_lines e oid s).
Proof.
  intros Hh. unfold order_lines.
  assert (select_order_items oid (with_products s (map h (products s)))
          = map (fun row => (fst row, h (snd row)))
                (select_order_items oid s)) as ->.
  { unfold select_order_items. simpl.
    induction (filter (fun oi => String.eqb (oi_order_id oi) oid)
                      (order_items s)) as [|oi l IH]; [reflexivity|].
    simpl. rewrite !map_app, IH. f_equal.
    rewrite filter_map_keeping by (intros p; now rewrite Hh).
    rewrite !map_map. reflexivity. }
  apply (by_place_map (fun row : order_item * product => (fst row, h (snd row)))
           (fun row => place e (oi_id (fst row)))).
Qed.

Lemma item_json_patched (h : product -> product)
    (rows : list (order_item * product)) :
  map (fun v => (iv_id v, iv_productId v, iv_quantity v, iv_price v))
      (map item_json (map (fun row => (fst row, h (snd row))) rows))
  = map (fun v => (iv_id v, iv_productId v, iv_quantity v, iv_price v))
        (map item_json rows).
Proof.
  rewrite !map_map. apply map_ext. now intros [i p].
Qed.

Lemma getOrder_200_inv (e : Env) (u : user) (id : string) (s : Store)
    (v : order_view) :
  fst (getOrder e u id s) = Json 200 (OrderFound v) ->
  throws e 0 = false /\ throws e 1 = false
  /\ exists row rest,
       select_orders (visible_to u id) s = row :: rest
       /\ v = order_json row (order_lines e (o_id (fst row)) s).
Proof.
  unfold getOrder, handle, getOrder_try. run.
  destruct (throws e 0); simpl; [discriminate|].
  destruct (select_orders (visible_to u id) s) as [|row rest]; simpl;
    [discriminate|].
  destruct (throws e 1); simpl; [discriminate|].
  intros [= <-]. repeat split. now exists row, rest.
Qed.

Lemma getOrder_200_intro (e : Env) (u : user) (id : string) (s : Store)
    (row : order * option address) (rest : list (order * option address)) :
  throws e 0 = false -> throws e 1 = false ->
  select_orders (visible_to u id) s = row :: rest ->
  getOrder e u id s
  = (Json 200
       (OrderFound (order_json row (order_lines e (o_id (fst row)) s))),
     s).
Proof.
  intros T0 T1 Sel. unfold getOrder, handle, getOrder_try. run.
  rewrite T0. simpl. rewrite Sel. simpl. rewrite T1. reflexivity.
Qed.

(** X17: an order that is returned before a product update is returned
    after it, whatever the update and however it ends, with the same id,
    total, VAT amount, status and shipping address, and with the same
    lines: their ids, products, quantities and recorded prices. *)
Theorem getOrder_unchanged_by_updateProduct (e e' : Env) (u : user)
    (orderId productId : string) (body : product_update) (s : Store)
    (v : order_view) :
  fst (getOrder e u orderId s) = Json 200 (OrderFound v) ->
  exists v',
    fst (getOrder e u orderId (snd (updateProduct e' productId body s)))
    = Json 200 (OrderFound v')
    /\ ov_id v' = ov_id v
    /\ ov_total v' = ov_total v
    /\ ov_vatAmount v' = ov_vatAmount v
    /\ ov_status v' = ov_status v
    /\ ov_shippingAddress v' = ov_shippingAddress v
    /\ map (fun i => (iv_id i, iv_productId i, iv_quantity i, iv_price i))
           (ov_items v')
       = map (fun i => (iv_id i, iv_productId i, iv_quantity i, iv_price i))
             (ov_items v).
Proof.
  intros G.
  destruct (updateProduct_store e' productId body s) as [->|[_ ->]].
  { exists v. rewrite G. repeat split. }
  apply getOrder_200_inv in G as (T0 & T1 & row & rest & Sel & ->).
  set (h := fun p => if String.eqb (p_id p) productId
                     then apply_patch (patch_of (sanitized_update body)) p
                     else p).
  change (update_where_id productId
            (apply_patch (patch_of (sanitized_update body))) (products s))
    with (map h (products s)).
  rewrite (getOrder_200_intro e u orderId
             (with_products s (map h (products s))) row rest T0 T1 Sel).
  eexists. split; [reflexivity|]. destruct row as [o a]. simpl.
  repeat (split; [reflexivity|]).
  rewrite (order_lines_patched e (o_id o) s h).
  - apply item_json_patched.
  - intros p. unfold h. destruct (String.eqb (p_id p) productId); reflexivity.
Qed.

Lemma getOrder_unchanged_by_updateProduct_witness :
  exists v v',
    fst (getOrder (Shop.calm 0) Shop.alice Fixtures.order_id Fixtures.placed)
    = Json 200 (OrderFound v)
    /\ fst (getOrder (Shop.calm 0) Shop.alice Fixtures.order_id
              (snd (updateProduct (Shop.calm 0) Shop.P1
                      (mkUpdate (Some "Headset") None (Some 150000%float)
                                None None None)
                      Fixtures.placed)))
       = Json 200 (OrderFound v')
    /\ map iv_price (ov_items v) = [100000%float]
    /\ map (fun i => (iv_id i, iv_productId i, iv_quantity i, iv_price i))
           (ov_items v')
       = map (fun i => (iv_id i, iv_productId i, iv_quantity i, iv_price i))
             (ov_items v).
Proof.
  eexists.
  assert (forall v,
            fst (getOrder (Shop.calm 0) Shop.alice Fixtures.order_id
                          Fixtures.placed) = Json 200 (OrderFound v) ->
            exists v',
              fst (getOrder (Shop.calm 0) Shop.alice Fixtures.order_id
                     (snd (updateProduct (Shop.calm 0) Shop.P1
                             (mkUpdate (Some "Headset") None
                                       (Some 150000%float) None None None)
                             Fixtures.placed)))
              = Json 200 (OrderFound v')
              /\ map (fun i => (iv_id i, iv_productId i, iv_quantity i,
                                iv_price i)) (ov_items v')
                 = map (fun i => (iv_id i, iv_productId i, iv_quantity i,
                                  iv_price i)) (ov_items v)) as H.
  { intros v G.
    destruct (getOrder_unchanged_by_updateProduct (Shop.calm 0) (Shop.calm 0)
                Shop.alice Fixtures.order_id Shop.P1
                (mkUpdate (Some "Headset") None (Some 150000%float)
                          None None None)
                Fixtures.placed v G)
      as (v' & G' & _ & _ & _ & _ & _ & I).
    exists v'. split; assumption. }
  edestruct H as (v' & G' & I); [vm_compute; reflexivity|].
  exists v'. split; [vm_compute; reflexivity|]. split; [exact G'|].
  split; [reflexivity | exact I].
Defined.

(* ================================================================== *)
(** ** What every sequence of requests keeps *)

(** A number that is at least 0 has no negative hundredths. *)
Lemma DECIMAL_12_2_nonneg (x : number) :
  JS.ge x 0%float = true -> (0 <= DECIMAL_12_2 x)%Z.
Proof.
  unfold JS.ge. rewrite leb_spec. unfold DECIMAL_12_2.
  change (Prim2SF 0) with (S754_zero false).
  destruct (Prim2SF x) as [sg|sg| |sg m ex]; try (intros _; apply Z.le_refl).
  destruct sg; [discriminate|]. intros _.
  assert (0 <= nearest_hundredth m ex)%Z as H.
  { unfold nearest_hundredth. destruct ex as [|q|q].
    - lia.
    - pose proof (Z.pow_pos_nonneg 2 (Zpos q)). lia.
    - pose proof (Z.pow_pos_nonneg 2 (Zpos q)).
      apply Z.div_pos; lia. }
  destruct (prints_as_half x (nearest_hundredth m ex)); lia.
Qed.

Lemma isFloat_min0_DECIMAL_12_2 (x : number) :
  Validator.isFloat_min0 x = true -> (0 <=? DECIMAL_12_2 x)%Z = true.
Proof.
  unfold Validator.isFloat_min0. intros H.
  apply andb_true_iff in H as [_ H]. apply Z.leb_le.
  now apply DECIMAL_12_2_nonneg.
Qed.

Lemma updateOrderStatus_store (e : Env) (orderId st : string) (s : Store) :
  snd (updateOrderStatus e orderId st s) = s
  \/ exists v,
       snd (updateOrderStatus e orderId st s)
       = with_orders s
           (map (fun o => if String.eqb (o_id o) orderId
                          then with_status o v else o)
                (orders s)).
Proof.
  unfold updateOrderStatus, updateOrderStatus_try.
  destruct (negb _); [now left|]. pool_run.
  destruct (throws e 0); simpl; [now left|].
  unfold update_order_status. destruct (status_of st) as [v|]; [|now left].
  right. exists v. destruct (List.length _ =? 0)%nat; reflexivity.
Qed.

Lemma createProduct_store (e : Env) (body : product_update) (s : Store) :
  snd (createProduct e body s) = s
  \/ exists row,
       snd (createProduct e body s) = with_products s (products s ++ [row])
       /\ existsb (String.eqb (p_id row)) (map p_id (products s)) = false
       /\ (0 <= p_stock row)%Z
       /\ (0 <=? p_price row)%Z = true.
Proof.
  unfold createProduct, createProduct_try.
  destruct (validationResult_create (sanitized_update body)) as [|x l] eqn:V;
    simpl isEmpty; simpl negb; cbv iota; [|now left].
  destruct (validationResult_create_nil _ V)
    as (n & d & p & c & k & En & Ed & Ep & Ec & Ek & _ & Vp & Vk).
  rewrite En, Ed, Ep, Ec, Ek. pool_run.
  destruct (throws e 0); simpl; [now left|].
  unfold insert_product.
  destruct (existsb (String.eqb (uuidv4 e 0)) (map p_id (products s))) eqn:F;
    simpl; [now left|].
  destruct (negb _); simpl; [now left|].
  right.
  exists (new_product (uuidv4 e 0) (bound_to_insert (sanitized_update body))).
  split; [|split; [exact F|split]].
  - destruct (throws e 1); simpl; [reflexivity|].
    destruct (select_product _ _); reflexivity.
  - unfold new_product, bound_to_insert, apply_patch.
    cbn [p_stock set_stock]. rewrite Ek. simpl.
    unfold Validator.isInt in Vk. apply andb_true_iff in Vk as [Vk _].
    now apply Z.leb_le.
  - unfold new_product, bound_to_insert, apply_patch.
    cbn [p_price set_price]. rewrite Ep. simpl.
    now apply isFloat_min0_DECIMAL_12_2.
Qed.

Lemma deleteProduct_store (e : Env) (id : string) (s : Store) :
  snd (deleteProduct e id s) = s
  \/ existsb (fun i => String.eqb (oi_product_id i) id) (order_items s) = false
     /\ snd (deleteProduct e id s)
        = with_products s
            (filter (fun p => negb (String.eqb (p_id p) id)) (products s)).
Proof.
  unfold deleteProduct, deleteProduct_try. pool_run.
  destruct (throws e 0); simpl; [now left|].
  unfold delete_product.
  destruct (filter (fun p => String.eqb (p_id p) id) (products s))
    as [|p l] eqn:F; simpl.
  - left. rewrite filter_all; [apply with_products_same|].
    intros p Hp. apply negb_true_iff.
    destruct (String.eqb (p_id p) id) eqn:E; [|reflexivity].
    assert (In p (filter (fun p => String.eqb (p_id p) id) (products s)))
      as X by (apply filter_In; auto).
    rewrite F in X. contradiction.
  - destruct (existsb _ (order_items s)); simpl; [now left|].
    right. split; reflexivity.
Qed.

Lemma deleteCategory_store (e : Env) (id : string) (s : Store) :
  products (snd (deleteCategory e id s)) = products s
  /\ orders (snd (deleteCategory e id s)) = orders s
  /\ order_items (snd (deleteCategory e id s)) = order_items s.
Proof.
  unfold deleteCategory, deleteCategory_try. pool_run.
  destruct (throws e 0); simpl; [auto|].
  destruct (0 <? _)%nat; simpl; [auto|].
  destruct (throws e 1); simpl; [auto|].
  unfold delete_category. destruct (_ && _); simpl; [auto|].
  destruct (List.length _ =? 0)%nat; simpl; auto.
Qed.

Lemma forallb_update_where_id (f : product -> bool) (id : string)
    (g : product -> product) (ps : list product) :
  (forall p, f p = true -> f (g p) = true) ->
  forallb f ps = true -> forallb f (update_where_id id g ps) = true.
Proof.
  intros H. unfold update_where_id. rewrite !forallb_forall.
  intros A p Hp. apply in_map_iff in Hp as (q & <- & Hq).
  destruct (String.eqb (p_id q) id); auto.
Qed.

Lemma forallb_decremented (f : product -> bool) (its : list item)
    (ps : list product) :
  (forall p n, f (with_stock p n) = f p) ->
  forallb f ps = true -> forallb f (decremented its ps) = true.
Proof.
  intros H. revert ps. induction its as [|it its IH]; intros ps A; [exact A|].
  unfold decremented in *. simpl. apply IH.
  apply forallb_update_where_id; [|exact A].
  intros p Hp. now rewrite H.
Qed.

Lemma NoDup_snoc (l : list string) (x : string) :
  NoDup l -> ~ In x l -> NoDup (l ++ [x]).
Proof.
  induction l as [|a l IH]; intros ND N; simpl.
  - constructor; [intros [] | constructor].
  - inversion ND as [|? ? Ha ND']; subst. constructor.
    + rewrite in_app_iff. intros [H|[H|[]]]; [contradiction|].
      apply N. now left.
    + apply IH; [exact ND'|]. intros H. apply N. now right.
Qed.

Lemma apply_patch_keeps (req : product_update) (p : product) :
  validationResult_update req = [] ->
  ((0 <= p_stock p)%Z -> (0 <= p_stock (apply_patch (patch_of req) p))%Z)
  /\ ((0 <=? p_price p)%Z = true ->
      (0 <=? p_price (apply_patch (patch_of req) p))%Z = true).
Proof.
  intros V. destruct (validationResult_update_nil req V) as [Vp Vk].
  unfold apply_patch, patch_of. simpl. split; intros H.
  - destruct (stock req) as [k|]; simpl; [|exact H].
    unfold Validator.isInt in Vk. apply andb_true_iff in Vk as [Vk _].
    now apply Z.leb_le.
  - destruct (price req) as [x|]; simpl; [|exact H].
    now apply isFloat_min0_DECIMAL_12_2.
Qed.

Lemma catalog_sound_parts (s : Store) :
  catalog_sound s = true
  <-> keyed s = true /\ stock_nonneg s = true /\ prices_valid s = true.
Proof. unfold catalog_sound. rewrite !andb_true_iff. tauto. Qed.

Lemma placeOrder_keeps_prices (e : Env) (u : user) (req : order_request)
    (s : Store) :
  keyed s = true -> prices_valid s = true ->
  prices_valid (snd (placeOrder e u req s)) = true.
Proof.
  intros Kb P. pose proof (proj1 (keyed_products_keyed s) Kb) as K.
  unfold placeOrder.
  destruct (placeOrderAt_cases e u req s s K)
    as [[_ ->]|(A & _ & _ & _ & _ & ->)]; [exact P|].
  destruct (accepted_parts _ _ A) as (_ & _ & St & _).
  unfold prices_valid.
  rewrite products_order_writes by (now apply lines_ok).
  now apply forallb_decremented.
Qed.

Lemma after_catalog_sound (e : Env) (r : request) (s : Store) :
  catalog_sound s = true -> catalog_sound (after e r s) = true.
Proof.
  intros H. apply catalog_sound_parts in H as (K & N & P).
  apply catalog_sound_parts. destruct r as [u body|oid st|body|pid body|pid|cid];
    simpl.
  - destruct (placeOrder_keeps_stock_nonneg e u body s K N) as [K' N'].
    split; [exact K'|]. split; [exact N'|].
    now apply placeOrder_keeps_prices.
  - destruct (updateOrderStatus_store e oid st s) as [->|[v ->]]; auto.
  - destruct (createProduct_store e body s)
      as [->|(row & -> & F & Sk & Pr)]; [auto|].
    unfold keyed, stock_nonneg, prices_valid. simpl.
    rewrite map_app, !forallb_app. simpl.
    split; [|split].
    + apply distinct_NoDup. apply NoDup_snoc.
      * now apply distinct_NoDup.
      * intros X. apply existsb_eqb_In in X. congruence.
    + unfold stock_nonneg in N. rewrite N. simpl.
      apply andb_true_iff. split; [now apply Z.leb_le | reflexivity].
    + unfold prices_valid in P. now rewrite P, Pr.
  - destruct (updateProduct_store e pid body s) as [->|[V ->]]; [auto|].
    unfold keyed, stock_nonneg, prices_valid. simpl.
    split; [|split].
    + now rewrite update_where_id_ids.
    + apply forallb_update_where_id; [|exact N].
      intros p Hp. apply Z.leb_le. apply (apply_patch_keeps _ p V).
      now apply Z.leb_le.
    + apply forallb_update_where_id; [|exact P].
      intros p Hp. now apply (apply_patch_keeps _ p V).
  - destruct (deleteProduct_store e pid s) as [->|[_ ->]]; [auto|].
    unfold keyed, stock_nonneg, prices_valid. simpl.
    split; [|split].
    + apply distinct_NoDup. apply NoDup_map_filter. now apply distinct_NoDup.
    + unfold stock_nonneg in N. rewrite forallb_forall in *.
      intros p Hp. apply filter_In in Hp as [Hp _]. now apply N.
    + unfold prices_valid in P. rewrite forallb_forall in *.
      intros p Hp. apply filter_In in Hp as [Hp _]. now apply P.
  - destruct (deleteCategory_store e cid s) as (Hp & _ & _).
    unfold keyed, stock_nonneg, prices_valid in *. now rewrite Hp.
Qed.

(** X18: whatever requests to place an order, set the status of an order,
    create, update or delete a product, or delete a category are served one
    after the other, and whichever of their statements and of their calls
    that control the transaction throw, a catalog that has one product per
    id, no negative stock and no negative price stays such a catalog. *)
Theorem after_all_catalog_sound (l : list (Env * request)) (s : Store) :
  catalog_sound s = true -> catalog_sound (after_all l s) = true.
Proof.
  revert s. induction l as [|[e r] l IH]; intros s H; [exact H|].
  unfold after_all in *. simpl. apply IH. now apply after_catalog_sound.
Qed.

Lemma after_all_catalog_sound_witness :
  catalog_sound Fixtures.market = true
  /\ catalog_sound
       (after_all
          [(Fixtures.draws Fixtures.P3, POST_products Fixtures.new_webcam);
           (Shop.calm 0, POST_orders Shop.alice Shop.two_headphones);
           (Shop.calm 1,
            PUT_products Shop.P1
              (mkUpdate None None None None None (Some 0%Z)));
           (Shop.calm 2, POST_orders Shop.bob Shop.one_headphone);
           (Shop.calm 3, DELETE_products Shop.P2)]
          Fixtures.market) = true.
Proof.
  split; [reflexivity|].
  apply (after_all_catalog_sound
           [(Fixtures.draws Fixtures.P3, POST_products Fixtures.new_webcam);
            (Shop.calm 0, POST_orders Shop.alice Shop.two_headphones);
            (Shop.calm 1,
             PUT_products Shop.P1
               (mkUpdate None None None None None (Some 0%Z)));
            (Shop.calm 2, POST_orders Shop.bob Shop.one_headphone);
            (Shop.calm 3, DELETE_products Shop.P2)]
           Fixtures.market).
  reflexivity.
Defined.

Lemma references_sound_parts (s : Store) :
  references_sound s = true
  <-> keyed s = true /\ lines_have_products s = true
      /\ lines_have_orders s = true.
Proof. unfold references_sound. rewrite !andb_true_iff. tauto. Qed.

Lemma lines_have_products_In (s : Store) :
  lines_have_products s = true
  <-> forall i, In i (order_items s) ->
                In (oi_product_id i) (map p_id (products s)).
Proof.
  unfold lines_have_products. rewrite forallb_forall.
  split; intros H i Hi; apply existsb_eqb_In; now apply H.
Qed.

Lemma lines_have_orders_In (s : Store) :
  lines_have_orders s = true
  <-> forall i, In i (order_items s) ->
                In (oi_order_id i) (map o_id (orders s)).
Proof.
  unfold lines_have_orders. rewrite forallb_forall.
  split; intros H i Hi; apply existsb_eqb_In; now apply H.
Qed.

Lemma lines_of_item_writes_product (e : Env)
    (m : string -> option product_row) (oid : string) (its : list item)
    (d : nat) :
  forall i, In i (lines_of (item_writes e m oid its d)) ->
            In (oi_product_id i) (map productId its).
Proof.
  revert d. induction its as [|it its IH]; intros d i; simpl; [contradiction|].
  destruct (m (productId it)); simpl; [|contradiction].
  intros [<-|H]; [now left | right; now apply (IH (S d))].
Qed.

Lemma placeOrder_keeps_references (e : Env) (u : user) (req : order_request)
    (s : Store) :
  references_sound s = true ->
  references_sound (snd (placeOrder e u req s)) = true.
Proof.
  intros H. apply references_sound_parts in H as (Kb & LP & LO).
  pose proof (proj1 (keyed_products_keyed s) Kb) as K.
  apply references_sound_parts. unfold placeOrder.
  destruct (placeOrderAt_cases e u req s s K)
    as [[_ ->]|(A & _ & _ & _ & _ & ->)]; [auto|].
  destruct (accepted_parts _ _ A) as (_ & R & _ & _).
  split; [|split].
  - unfold keyed. now rewrite product_ids_run_statements.
  - apply lines_have_products_In. intros i Hi.
    rewrite product_ids_run_statements.
    rewrite order_items_run_statements, lines_of_order_writes in Hi.
    apply in_app_or in Hi as [Hi|Hi].
    + now apply (proj1 (lines_have_products_In s) LP).
    + apply lines_of_item_writes_product in Hi.
      apply (resolved_iff s req K) in R as [_ All].
      apply (all_in_catalog_incl s req) in All. now apply All.
  - apply lines_have_orders_In. intros i Hi.
    rewrite orders_run_statements, headers_of_order_writes, map_app.
    rewrite order_items_run_statements, lines_of_order_writes in Hi.
    apply in_or_app. apply in_app_or in Hi as [Hi|Hi].
    + left. now apply (proj1 (lines_have_orders_In s) LO).
    + right. apply lines_of_item_writes_order in Hi. rewrite Hi. now left.
Qed.

Lemma after_references_sound (e : Env) (r : request) (s : Store) :
  references_sound s = true -> references_sound (after e r s) = true.
Proof.
  intros H. destruct r as [u body|oid st|body|pid body|pid|cid]; simpl.
  - now apply placeOrder_keeps_references.
  - destruct (updateOrderStatus_store e oid st s) as [->|[v ->]]; [exact H|].
    apply references_sound_parts in H as (K & LP & LO).
    apply references_sound_parts. split; [exact K|]. split; [exact LP|].
    unfold lines_have_orders in *. simpl. rewrite map_map.
    erewrite map_ext; [exact LO|].
    intros o. now destruct (String.eqb (o_id o) oid).
  - destruct (createProduct_store e body s)
      as [->|(row & -> & F & _ & _)]; [exact H|].
    apply references_sound_parts in H as (K & LP & LO).
    apply references_sound_parts. split; [|split; [|exact LO]].
    + unfold keyed. simpl. rewrite map_app. simpl.
      apply distinct_NoDup. apply NoDup_snoc.
      * now apply distinct_NoDup.
      * intros X. apply existsb_eqb_In in X. congruence.
    + apply lines_have_products_In. simpl. intros i Hi.
      rewrite map_app. apply in_or_app. left.
      now apply (proj1 (lines_have_products_In s) LP).
  - destruct (updateProduct_store e pid body s) as [->|[_ ->]]; [exact H|].
    apply references_sound_parts in H as (K & LP & LO).
    apply references_sound_parts. split; [|split; [|exact LO]].
    + unfold keyed. simpl. now rewrite update_where_id_ids.
    + unfold lines_have_products in *. simpl.
      now rewrite update_where_id_ids.
  - destruct (deleteProduct_store e pid s) as [->|[N ->]]; [exact H|].
    apply references_sound_parts in H as (K & LP & LO).
    apply references_sound_parts. split; [|split; [|exact LO]].
    + unfold keyed. simpl. apply distinct_NoDup. apply NoDup_map_filter.
      now apply distinct_NoDup.
    + apply lines_have_products_In. simpl. intros i Hi.
      pose proof (proj1 (lines_have_products_In s) LP i Hi) as X.
      apply in_map_iff in X as (p & E & Hp). apply in_map_iff. exists p.
      split; [exact E|]. apply filter_In. split; [exact Hp|].
      apply negb_true_iff. rewrite E.
      destruct (String.eqb (oi_product_id i) pid) eqn:Q; [|reflexivity].
      assert (existsb (fun i => String.eqb (oi_product_id i) pid)
                      (order_items s) = true)
        as Y by (apply existsb_exists; now exists i).
      congruence.
  - destruct (deleteCategory_store e cid s) as (Hp & Ho & Hi).
    unfold references_sound, keyed, lines_have_products, lines_have_orders
      in *.
    now rewrite Hp, Ho, Hi.
Qed.

(** X19: whatever requests to place an order, set the status of an order,
    create, update or delete a product, or delete a category are served one
    after the other, and whichever of their statements and of their calls
    that control the transaction throw, a store keyed
    by product id in which every order line is of a product of the catalog
    and of an order of the store stays such a store: no request leaves an
    order line without its product or without its order. *)
Theorem after_all_references_sound (l : list (Env * request)) (s : Store) :
  references_sound s = true -> references_sound (after_all l s) = true.
Proof.
  revert s. induction l as [|[e r] l IH]; intros s H; [exact H|].
  unfold after_all in *. simpl. apply IH. now apply after_references_sound.
Qed.

Lemma after_all_references_sound_witness :
  references_sound Fixtures.placed = true
  /\ references_sound
       (after_all
          [(Shop.calm 0, DELETE_products Shop.P1);
           (Shop.calm 1, PATCH_orders_status Fixtures.order_id "cancelled");
           (Shop.calm 2, POST_orders Shop.bob Shop.one_headphone);
           (Shop.calm 3, DELETE_products Shop.P2)]
          Fixtures.placed) = true.
Proof.
  assert (references_sound Fixtures.placed = true) as H
    by (vm_compute; reflexivity).
  split; [exact H|].
  exact (after_all_references_sound
           [(Shop.calm 0, DELETE_products Shop.P1);
            (Shop.calm 1, PATCH_orders_status Fixtures.order_id "cancelled");
            (Shop.calm 2, POST_orders Shop.bob Shop.one_headphone);
            (Shop.calm 3, DELETE_products Shop.P2)]
           Fixtures.placed H).
Defined.
